(** * GOlane: the Dante wrapper's device discovery, as a shallow embedding

    Source: [src/dante/dante_wrapper.c].  The wrapper keeps its state in
    file-level statics; here they are the fields of [state], threaded
    explicitly through every entry point.  The vendor SDK is closed source
    and only consumed through a narrow interface: its answers are the fields
    of [provider], its constants and the host byte order those of [Sdk], and
    the changes of the network it delivers while it processes events are
    given by a [script].  Output on stdout ([printf]) is not part of the
    model. *)

From Stdlib Require Import ZArith Lia.
From stdpp Require Import base option list strings pretty.
From coqutil Require Import Z.bitblast.

Open Scope Z_scope.

(** ** C library *)

(** [snprintf(buf, size, ...)] on a [char buf[size]]: the formatted text is
    cut to the [size - 1] characters that fit before the terminating NUL. *)
Definition snprintf (size : nat) (formatted : string) : string :=
  String.substring 0 (size - 1) formatted.

(** Conversions [%d] and [%u] print the decimal numeral. *)
Definition fmt_d (z : Z) : string := pretty z.
Definition fmt_u (z : Z) : string := pretty z.

(** Byte [k] (0 = least significant) of a 32-bit value. *)
Definition octet (k : Z) (v : Z) : Z := Z.land (Z.shiftr v (8 * k)) 255.

(** [ntohl]: the identity on a big-endian host, a byte swap otherwise. *)
Definition bswap32 (v : Z) : Z :=
  Z.lor (Z.shiftl (octet 0 v) 24)
    (Z.lor (Z.shiftl (octet 1 v) 16)
       (Z.lor (Z.shiftl (octet 2 v) 8) (octet 3 v))).

Definition ntohl_on (big_endian : bool) (v : Z) : Z :=
  if big_endian then v else bswap32 v.

(** ** The SDK as seen by the wrapper *)

Definition aud_error_t := Z.
Definition handle := nat.
Definition db_browse_t := nat.
Definition dante_id64_t := list Z.

(** What the SDK headers missing from the sources fix: the success code, the
    DNS-SD text form of a 64-bit identifier, and (from the C library) the
    byte order of the host. *)
Class Sdk := {
  AUD_SUCCESS : aud_error_t;
  dante_id64_to_dnssd_text : dante_id64_t -> string;
  host_big_endian : bool
}.

Definition ntohl `{Sdk} (v : Z) : Z := ntohl_on host_big_endian v.

(** Modelled from the spec: the declaration of [dr_device_state_t] is not
    among the sources; the spec gives the states of a device connection as
    Resolving, then one of Resolved, Active or Error. *)
Inductive dr_device_state_t :=
  | DR_DEVICE_STATE_RESOLVING
  | DR_DEVICE_STATE_RESOLVED
  | DR_DEVICE_STATE_ACTIVE
  | DR_DEVICE_STATE_ERROR.

Record dante_version_t := {
  major : Z;
  minor : Z;
  bugfix : Z
}.

Record dante_ipv4_address_t := {
  host : Z;
  port : Z
}.

(** A browse result; every getter may return NULL.  The number of devices
    and the index into them are [uint16_t], never negative. *)
Record db_browse_device_t := {
  db_browse_device_get_name : option string;
  db_browse_device_get_router_info : option string;
  db_browse_device_get_manufacturer_id : option dante_id64_t;
  db_browse_device_get_model_id : option dante_id64_t;
  db_browse_device_get_default_name : option string;
  db_browse_device_get_router_version : option dante_version_t
}.

Record db_browse_network_t := {
  db_browse_network_get_num_devices : nat;
  db_browse_network_device_at_index : nat -> option db_browse_device_t
}.

(** A routing connection: the state seen by the k-th call of
    [dr_device_get_state] on it, and what [dr_device_get_address] answers. *)
Record dr_device_t := {
  dr_device_get_state : nat -> dr_device_state_t;
  dr_device_get_address : aud_error_t * dante_ipv4_address_t
}.

(** The SDK's answers during one call of the wrapper.  An out-parameter is
    paired with the result code and is written only on success. *)
Record provider := {
  db_browse_new : aud_error_t * db_browse_t;
  db_browse_set_max_sockets : aud_error_t;
  db_browse_start_config : aud_error_t;
  db_browse_get_network : db_browse_t -> option db_browse_network_t;
  dr_device_open_remote : string -> aud_error_t * option dr_device_t;
  dr_device_open_local : aud_error_t * dr_device_t
}.

(** ** Data model *)

Record dante_device_info_t := {
  id : Z;
  name : string;
  model : string;
  product_version : string;
  dante_version : string;
  ip_address : string;
  link_speed : Z;
  secondary_ip : string;
  secondary_speed : Z;
  is_valid : Z
}.

Definition MAX_DEVICES : Z := 32.

(** One element of the table after [memset(.., 0, ..)]. *)
Definition zeroed_info : dante_device_info_t :=
  {| id := 0; name := ""; model := ""; product_version := "";
     dante_version := ""; ip_address := ""; link_speed := 0;
     secondary_ip := ""; secondary_speed := 0; is_valid := 0 |}.

Definition zeroed_table : list dante_device_info_t :=
  replicate (Z.to_nat MAX_DEVICES) zeroed_info.

(** The statics of the wrapper, and two ghost fields on the side of the
    SDK: the browse sessions created and not yet deleted, and the time spent
    in [usleep]/[sleep], in microseconds. *)
Record state := {
  g_dapi : option handle;
  g_runtime : option handle;
  g_devices : option handle;
  g_device : option dr_device_t;
  g_env : option handle;
  g_browse : option db_browse_t;
  g_device_scan_active : Z;
  g_background_scanning : Z;
  g_device_ready : Z;
  g_error_buffer : string;
  g_discovered_devices : list dante_device_info_t;
  g_device_count : Z;
  live_sessions : list db_browse_t;
  slept_us : Z
}.

Definition initial_state : state :=
  {| g_dapi := None; g_runtime := None; g_devices := None; g_device := None;
     g_env := None; g_browse := None; g_device_scan_active := 0;
     g_background_scanning := 0; g_device_ready := 0; g_error_buffer := "";
     g_discovered_devices := zeroed_table; g_device_count := 0;
     live_sessions := []; slept_us := 0 |}.

Definition set_error (msg : string) (st : state) : state :=
  {| g_dapi := g_dapi st; g_runtime := g_runtime st;
     g_devices := g_devices st; g_device := g_device st; g_env := g_env st;
     g_browse := g_browse st;
     g_device_scan_active := g_device_scan_active st;
     g_background_scanning := g_background_scanning st;
     g_device_ready := g_device_ready st;
     g_error_buffer := snprintf 256 msg;
     g_discovered_devices := g_discovered_devices st;
     g_device_count := g_device_count st;
     live_sessions := live_sessions st; slept_us := slept_us st |}.

Definition set_devices (table : list dante_device_info_t) (count : Z)
    (st : state) : state :=
  {| g_dapi := g_dapi st; g_runtime := g_runtime st;
     g_devices := g_devices st; g_device := g_device st; g_env := g_env st;
     g_browse := g_browse st;
     g_device_scan_active := g_device_scan_active st;
     g_background_scanning := g_background_scanning st;
     g_device_ready := g_device_ready st;
     g_error_buffer := g_error_buffer st;
     g_discovered_devices := table;
     g_device_count := count;
     live_sessions := live_sessions st; slept_us := slept_us st |}.

Definition set_browse (browse : option db_browse_t)
    (sessions : list db_browse_t) (st : state) : state :=
  {| g_dapi := g_dapi st; g_runtime := g_runtime st;
     g_devices := g_devices st; g_device := g_device st; g_env := g_env st;
     g_browse := browse;
     g_device_scan_active := g_device_scan_active st;
     g_background_scanning := g_background_scanning st;
     g_device_ready := g_device_ready st;
     g_error_buffer := g_error_buffer st;
     g_discovered_devices := g_discovered_devices st;
     g_device_count := g_device_count st;
     live_sessions := sessions; slept_us := slept_us st |}.

Definition set_scanning (flag : Z) (st : state) : state :=
  {| g_dapi := g_dapi st; g_runtime := g_runtime st;
     g_devices := g_devices st; g_device := g_device st; g_env := g_env st;
     g_browse := g_browse st;
     g_device_scan_active := flag;
     g_background_scanning := flag;
     g_device_ready := g_device_ready st;
     g_error_buffer := g_error_buffer st;
     g_discovered_devices := g_discovered_devices st;
     g_device_count := g_device_count st;
     live_sessions := live_sessions st; slept_us := slept_us st |}.

Definition set_device (dev : option dr_device_t) (ready : Z) (st : state)
    : state :=
  {| g_dapi := g_dapi st; g_runtime := g_runtime st;
     g_devices := g_devices st; g_device := dev; g_env := g_env st;
     g_browse := g_browse st;
     g_device_scan_active := g_device_scan_active st;
     g_background_scanning := g_background_scanning st;
     g_device_ready := ready;
     g_error_buffer := g_error_buffer st;
     g_discovered_devices := g_discovered_devices st;
     g_device_count := g_device_count st;
     live_sessions := live_sessions st; slept_us := slept_us st |}.

Definition add_slept (us : Z) (st : state) : state :=
  {| g_dapi := g_dapi st; g_runtime := g_runtime st;
     g_devices := g_devices st; g_device := g_device st; g_env := g_env st;
     g_browse := g_browse st;
     g_device_scan_active := g_device_scan_active st;
     g_background_scanning := g_background_scanning st;
     g_device_ready := g_device_ready st;
     g_error_buffer := g_error_buffer st;
     g_discovered_devices := g_discovered_devices st;
     g_device_count := g_device_count st;
     live_sessions := live_sessions st; slept_us := slept_us st + us |}.

(** ** Reading the table *)

(** [dante_get_discovered_device_count] *)
Definition dante_get_discovered_device_count (st : state) : Z :=
  g_device_count st.

(** [dante_get_device_info(index, info)].  The pointer [info] is [None] when
    NULL and otherwise holds the caller's record, which is returned as the
    call leaves it.  The outer [None] stands for a read beyond the end of
    [g_discovered_devices], which C leaves undefined; it needs a count above
    [MAX_DEVICES]. *)
Definition dante_get_device_info (index : Z)
    (info : option dante_device_info_t) (st : state)
    : option (Z * option dante_device_info_t * state) :=
  match info with
  | None => Some (-1, info, set_error "Invalid info pointer" st)
  | Some _ =>
      if (index <? 0) || (index >=? g_device_count st) then
        Some (-1, info,
              set_error ("Invalid device index: " +:+ fmt_d index +:+
                         " (available: 0-" +:+
                         fmt_d (g_device_count st - 1) +:+ ")") st)
      else
        match g_discovered_devices st !! Z.to_nat index with
        | None => None
        | Some slot =>
            if is_valid slot =? 0 then
              Some (-1, info,
                    set_error ("Device at index " +:+ fmt_d index +:+
                               " is not valid") st)
            else Some (0, Some slot, st)
        end
  end.

(** ** Rebuilding the table: [browse_network_changed_callback] *)

Definition is_null {A} (pointer : option A) : bool :=
  match pointer with
  | None => true
  | Some _ => false
  end.

Definition is_resolved_or_active (state : dr_device_state_t) : bool :=
  match state with
  | DR_DEVICE_STATE_RESOLVED | DR_DEVICE_STATE_ACTIVE => true
  | _ => false
  end.

Definition is_error (state : dr_device_state_t) : bool :=
  match state with
  | DR_DEVICE_STATE_ERROR => true
  | _ => false
  end.

(** The SDK delivers a change of the network from within
    [dante_runtime_process], by calling the callback registered on the
    browse session.  The callback itself calls [dante_runtime_process]
    while it waits for an address, so that it can be entered again before
    it has returned.  A [script] says, for one run of the callback, what
    each of those calls does: the call in the turn of the loop at index [i],
    at poll [attempt], delivers nothing ([Quiet]) or runs the callback once
    more ([Deliver]), with the answers the SDK then gives and the script of
    that nested run.  The answers of the SDK to one run of the callback are
    those of its own [provider] throughout. *)
Inductive script :=
  | Script (deliveries : nat → nat → delivery)
with delivery :=
  | Quiet
  | Deliver (P : provider) (s : script).

Definition deliveries (s : script) : nat → nat → delivery :=
  match s with
  | Script d => d
  end.

(** The wait loop [for (attempt = 0; attempt < max_wait_attempts; attempt++)]
    on the statics.  [remaining] is [max_wait_attempts - attempt].  The local
    [state] is declared without a value, hence the [option].  A turn that
    does not break calls [dante_runtime_process] when [g_runtime] is not
    NULL, here [dante_runtime_process attempt], and ends in one
    [usleep(100000)].  The result is [None] when a nested run of the
    callback leaves the table (see [add_device]). *)
Fixpoint wait_resolved (dante_runtime_process : nat → state → option state)
    (routing_device : dr_device_t) (remaining attempt : nat)
    (state_read : option dr_device_state_t) (st : state)
    : option (option dr_device_state_t * state) :=
  match remaining with
  | O => Some (state_read, st)
  | S remaining' =>
      let state_read := dr_device_get_state routing_device attempt in
      if is_resolved_or_active state_read then Some (Some state_read, st)
      else if is_error state_read then Some (Some state_read, st)
      else
        st ← (if is_null (g_runtime st) then Some st
              else dante_runtime_process attempt st);
        wait_resolved dante_runtime_process routing_device remaining'
          (S attempt) (Some state_read) (add_slept 100000 st)
  end.

Definition max_wait_attempts : nat := 30.

(** The text printed by ["%u.%u.%u.%u"] for a host-order address. *)
Definition format_ip (ip_addr : Z) : string :=
  fmt_u (Z.land (Z.shiftr ip_addr 24) 255) +:+ "." +:+
  fmt_u (Z.land (Z.shiftr ip_addr 16) 255) +:+ "." +:+
  fmt_u (Z.land (Z.shiftr ip_addr 8) 255) +:+ "." +:+
  fmt_u (Z.land ip_addr 255).

(** Lines 157-219: the text for [info->ip_address] of the device called
    [name], and the statics after the wait. *)
Definition resolve_ip `{Sdk}
    (dante_runtime_process : nat → state → option state)
    (P : provider) (name : string) (st : state) : option (string * state) :=
  match dr_device_open_remote P name with
  | (result, Some routing_device) =>
      if result =? AUD_SUCCESS then
        '(state_read, st) ←
          wait_resolved dante_runtime_process routing_device
            max_wait_attempts 0 None st;
        if from_option is_resolved_or_active false state_read then
          let '(addr_result, device_address) :=
            dr_device_get_address routing_device in
          if addr_result =? AUD_SUCCESS then
            Some (snprintf 16 (format_ip (ntohl (host device_address))), st)
          else Some (snprintf 16 "0.0.0.0", st)
        else Some (snprintf 16 "0.0.0.0", st)
      else Some (snprintf 16 "0.0.0.0", st)
  | (_, None) => Some (snprintf 16 "0.0.0.0", st)
  end.

(** Lines 110-115. *)
Definition name_field (id : Z) (device : db_browse_device_t) : string :=
  match db_browse_device_get_name device with
  | Some name => snprintf 64 name
  | None => snprintf 64 ("Unknown Device " +:+ fmt_d id)
  end.

(** Lines 127-139, the branches after the test of [router_info]. *)
Definition model_without_router_info `{Sdk} (device : db_browse_device_t)
    : string :=
  match db_browse_device_get_manufacturer_id device,
        db_browse_device_get_model_id device with
  | Some mf_id, Some model_id =>
      snprintf 64 (dante_id64_to_dnssd_text mf_id +:+ "-" +:+
                   dante_id64_to_dnssd_text model_id)
  | _, _ =>
      match db_browse_device_get_default_name device with
      | Some default_name => snprintf 64 default_name
      | None => snprintf 64 "Unknown Model"
      end
  end.

(** Lines 119-139. *)
Definition model_field `{Sdk} (device : db_browse_device_t) : string :=
  match db_browse_device_get_router_info device with
  | Some router_info =>
      if (0 <? String.length router_info)%nat then snprintf 64 router_info
      else model_without_router_info device
  | None => model_without_router_info device
  end.

(** Lines 142-148. *)
Definition dante_version_field (device : db_browse_device_t) : string :=
  match db_browse_device_get_router_version device with
  | Some router_version =>
      snprintf 32 (fmt_u (major router_version) +:+ "." +:+
                   fmt_u (minor router_version) +:+ "." +:+
                   fmt_u (bugfix router_version))
  | None => snprintf 32 "Unknown"
  end.

(** Lines 106-151: what the turn writes through [info] before it waits. *)
Definition write_metadata `{Sdk} (count : Z) (device : db_browse_device_t)
    (info : dante_device_info_t) : dante_device_info_t :=
  {| id := count + 1;
     name := name_field (count + 1) device;
     model := model_field device;
     product_version := snprintf 32 "N/A";
     dante_version := dante_version_field device;
     ip_address := ip_address info;
     link_speed := link_speed info;
     secondary_ip := secondary_ip info;
     secondary_speed := secondary_speed info;
     is_valid := 1 |}.

(** Lines 196-224: what it writes through [info] after the wait. *)
Definition write_address (ip : string) (info : dante_device_info_t)
    : dante_device_info_t :=
  {| id := id info;
     name := name info;
     model := model info;
     product_version := product_version info;
     dante_version := dante_version info;
     ip_address := ip;
     link_speed := -1;
     secondary_ip := secondary_ip info;
     secondary_speed := secondary_speed info;
     is_valid := is_valid info |}.

(** The body of the loop for a handle that is not NULL.  [info] points to
    the element at the count found on entry and keeps pointing there, also
    after a nested run of the callback has cleared the table and set the
    count anew; the count is incremented as it then stands.  After such
    runs the count on entry can be [MAX_DEVICES] or more: the element is
    then beyond the end of the array, which C leaves undefined, and the
    result is [None]. *)
Definition add_device `{Sdk}
    (dante_runtime_process : nat → state → option state)
    (P : provider) (st : state) (device : db_browse_device_t)
    : option state :=
  let count := g_device_count st in
  if (0 <=? count) && (count <? MAX_DEVICES) then
    let info := Z.to_nat count in
    let st :=
      set_devices
        (alter (write_metadata count device) info (g_discovered_devices st))
        count st in
    '(ip, st) ←
      resolve_ip dante_runtime_process P (name_field (count + 1) device) st;
    Some (set_devices
            (alter (write_address ip) info (g_discovered_devices st))
            (g_device_count st + 1) st)
  else None.

(** The loop [for (i = 0; i < device_count && i < MAX_DEVICES; i++)].
    [remaining] is [MAX_DEVICES - i], so that [i < MAX_DEVICES] is the test
    that it is not zero. *)
Fixpoint rebuild_loop `{Sdk}
    (dante_runtime_process : nat → nat → state → option state)
    (P : provider) (network : db_browse_network_t)
    (remaining i : nat) (st : state) : option state :=
  match remaining with
  | O => Some st
  | S remaining' =>
      if (i <? db_browse_network_get_num_devices network)%nat then
        match db_browse_network_device_at_index network i with
        | None =>
            rebuild_loop dante_runtime_process P network remaining' (S i) st
        | Some device =>
            st ← add_device (dante_runtime_process i) P st device;
            rebuild_loop dante_runtime_process P network remaining' (S i) st
        end
      else Some st
  end.

(** [browse_network_changed_callback], run under the script [s].  A nested
    run is handed the session the callback is registered on, [g_browse]. *)
Fixpoint browse_network_changed_callback `{Sdk} (s : script) (P : provider)
    (browse : db_browse_t) (st : state) {struct s} : option state :=
  let st := set_devices zeroed_table 0 st in
  match db_browse_get_network P browse with
  | None => Some st
  | Some network =>
      rebuild_loop
        (λ i attempt st,
           match deliveries s i attempt with
           | Quiet => Some st
           | Deliver P' s' =>
               match g_browse st with
               | Some browse' =>
                   browse_network_changed_callback s' P' browse' st
               | None => Some st
               end
           end)
        P network (Z.to_nat MAX_DEVICES) 0 st
  end.

(** One call of [dante_runtime_process] and what it delivers. *)
Definition dante_runtime_process `{Sdk} (d : delivery) (st : state)
    : option state :=
  match d with
  | Quiet => Some st
  | Deliver P s =>
      match g_browse st with
      | Some browse => browse_network_changed_callback s P browse st
      | None => Some st
      end
  end.

(** [dante_refresh_device_scan] *)
Definition dante_refresh_device_scan `{Sdk} (s : script) (P : provider)
    (st : state) : option (Z * state) :=
  match g_browse st with
  | Some browse =>
      st ← browse_network_changed_callback s P browse st; Some (0, st)
  | None => Some (0, st)
  end.

(** ** Starting and stopping the scan *)

(** [db_browse_delete] ends the session behind a handle. *)
Definition db_browse_delete (browse : db_browse_t)
    (sessions : list db_browse_t) : list db_browse_t :=
  filter (λ b, b ≠ browse) sessions.

(** [dante_start_device_scan].  Registering the callback has no result to
    test and no effect on the statics; it is left out. *)
Definition dante_start_device_scan `{Sdk} (P : provider) (st : state)
    : Z * state :=
  match g_env st with
  | None => (-1, set_error "Dante API not initialized" st)
  | Some _ =>
      match g_browse st with
      | Some _ => (0, st)
      | None =>
          let '(result, browse) := db_browse_new P in
          if negb (result =? AUD_SUCCESS) then
            (-1, set_error ("Failed to create browse object: " +:+
                            fmt_d result) st)
          else
            let st := set_browse (Some browse) (browse :: live_sessions st) st in
            let result := db_browse_set_max_sockets P in
            if negb (result =? AUD_SUCCESS) then
              let st := set_error ("Failed to set max sockets: " +:+
                                   fmt_d result) st in
              (-1, set_browse None (db_browse_delete browse (live_sessions st))
                     st)
            else
              let result := db_browse_start_config P in
              if negb (result =? AUD_SUCCESS) then
                let st := set_error ("Failed to start browse: " +:+
                                     fmt_d result) st in
                (-1, set_browse None
                       (db_browse_delete browse (live_sessions st)) st)
              else (0, set_scanning 1 st)
      end
  end.

(** [dante_stop_device_scan]: [db_browse_stop], then [db_browse_delete]. *)
Definition dante_stop_device_scan (st : state) : Z * state :=
  match g_browse st with
  | None => (0, st)
  | Some browse =>
      let st :=
        set_browse None (db_browse_delete browse (live_sessions st)) st in
      (0, set_scanning 0 st)
  end.

(** [dante_cleanup].  The handles closed or deleted on the way are set to
    NULL; the error buffer is not touched. *)
Definition dante_cleanup (st : state) : state :=
  let st :=
    match g_browse st with
    | Some _ => (dante_stop_device_scan st).2
    | None => st
    end in
  {| g_dapi := None; g_runtime := None; g_devices := None; g_device := None;
     g_env := None; g_browse := g_browse st; g_device_scan_active := 0;
     g_background_scanning := 0; g_device_ready := 0;
     g_error_buffer := g_error_buffer st;
     g_discovered_devices := zeroed_table; g_device_count := 0;
     live_sessions := live_sessions st; slept_us := slept_us st |}.

(** ** Connecting the local device *)

(** The loop [while (timeout-- > 0)] of [dante_connect_local_device]:
    [polls] counts the turns made so far, each of which reads the state once
    and, unless the device is active, ends in [sleep(1)].  Returns whether
    the device was seen active and how many seconds were slept. *)
Fixpoint wait_active (device : dr_device_t) (timeout polls : nat)
    : bool * nat :=
  match timeout with
  | O => (false, polls)
  | S timeout' =>
      match dr_device_get_state device polls with
      | DR_DEVICE_STATE_ACTIVE => (true, polls)
      | _ => wait_active device timeout' (S polls)
      end
  end.

(** [int timeout = 50;] *)
Definition connect_timeout : nat := 50.

(** [dante_connect_local_device].  [dr_device_open_local] writes
    [g_device] when it succeeds. *)
Definition dante_connect_local_device `{Sdk} (P : provider) (st : state)
    : Z * state :=
  match g_devices st with
  | None => (-1, set_error "Dante not initialized" st)
  | Some _ =>
      let '(result, device) := dr_device_open_local P in
      if negb (result =? AUD_SUCCESS) then
        (-1, set_error ("Failed to connect to local device: " +:+
                        fmt_d result) st)
      else
        let st := set_device (Some device) (g_device_ready st) st in
        let '(active, sleeps) := wait_active device connect_timeout 0 in
        let st := add_slept (1000000 * Z.of_nat sleeps) st in
        if active then (0, set_device (Some device) 1 st)
        else (-1, set_error "Device connection timeout" st)
  end.

(** ** Notions used in the statements *)

(** The devices a rebuild is handed: the handles that are not NULL among the
    first [MAX_DEVICES] indices below the reported number of devices, in the
    order of the provider. *)
Definition delivered (network : db_browse_network_t)
    : list db_browse_device_t :=
  omap (db_browse_network_device_at_index network)
    (seq 0 (db_browse_network_get_num_devices network `min`
            Z.to_nat MAX_DEVICES)).

(** The table has its [MAX_DEVICES] elements and the count stays within. *)
Definition table_ok (st : state) : Prop :=
  length (g_discovered_devices st) = Z.to_nat MAX_DEVICES ∧
  0 ≤ g_device_count st ≤ MAX_DEVICES.

(** The sessions alive at the SDK are exactly the one the wrapper holds. *)
Definition sessions_ok (st : state) : Prop :=
  live_sessions st = option_list (g_browse st).

(** All three provider steps of a scan start succeed. *)
Definition provider_accepts `{Sdk} (P : provider) : Prop :=
  (db_browse_new P).1 = AUD_SUCCESS ∧
  db_browse_set_max_sockets P = AUD_SUCCESS ∧
  db_browse_start_config P = AUD_SUCCESS.

(** The three ways the address of the device called [name] is not resolved:
    the connection cannot be opened; the device is seen in the error state
    before it was seen resolved or active; none of the polls sees it
    resolved or active. *)
Definition cannot_open `{Sdk} (P : provider) (name : string) : Prop :=
  (dr_device_open_remote P name).1 ≠ AUD_SUCCESS ∨
  (dr_device_open_remote P name).2 = None.

Definition enters_error `{Sdk} (P : provider) (name : string) : Prop :=
  ∃ routing_device k,
    dr_device_open_remote P name = (AUD_SUCCESS, Some routing_device) ∧
    (k < max_wait_attempts)%nat ∧
    dr_device_get_state routing_device k = DR_DEVICE_STATE_ERROR ∧
    ∀ j, (j < k)%nat →
      is_resolved_or_active (dr_device_get_state routing_device j) = false.



(** No record can be read any more: the count is zero and every read with a
    record to write to fails and leaves that record alone. *)
Definition records_destroyed (st : state) : Prop :=
  g_device_count st = 0 ∧
  ∀ index old, ∃ st',
    dante_get_device_info index (Some old) st = Some (-1, Some old, st').

(** *** The rebuild that is not entered again *)

(** A script that delivers nothing. *)
Definition quiet (s : script) : Prop :=
  ∀ i attempt, deliveries s i attempt = Quiet.

Definition quiet_script : script := Script (λ _ _, Quiet).

(** Nothing is delivered to a run of the callback from this state under
    this script: either there is no runtime to process, or no call of
    [dante_runtime_process] delivers anything. *)
Definition undisturbed (s : script) (st : state) : Prop :=
  g_runtime st = None ∨ quiet s.

(** What the wait loop leaves in its locals [state] and [attempt]; they do
    not depend on the statics ([wait_resolved_locals]).  The second is also
    the number of sleeps made. *)
Fixpoint poll_outcome (routing_device : dr_device_t) (remaining attempt : nat)
    (state_read : option dr_device_state_t)
    : option dr_device_state_t * nat :=
  match remaining with
  | O => (state_read, attempt)
  | S remaining' =>
      let state_read := dr_device_get_state routing_device attempt in
      if is_resolved_or_active state_read then (Some state_read, attempt)
      else if is_error state_read then (Some state_read, attempt)
      else poll_outcome routing_device remaining' (S attempt)
             (Some state_read)
  end.

(** The text [resolve_ip] gives for the device called [name], and the
    number of sleeps of its wait ([resolve_ip_text]). *)
Definition address_outcome `{Sdk} (P : provider) (name : string)
    : string * nat :=
  match dr_device_open_remote P name with
  | (result, Some routing_device) =>
      if result =? AUD_SUCCESS then
        let '(state_read, sleeps) :=
          poll_outcome routing_device max_wait_attempts 0 None in
        if from_option is_resolved_or_active false state_read then
          let '(addr_result, device_address) :=
            dr_device_get_address routing_device in
          if addr_result =? AUD_SUCCESS then
            (snprintf 16 (format_ip (ntohl (host device_address))), sleeps)
          else (snprintf 16 "0.0.0.0", sleeps)
        else (snprintf 16 "0.0.0.0", sleeps)
      else (snprintf 16 "0.0.0.0", 0%nat)
  | (_, None) => (snprintf 16 "0.0.0.0", 0%nat)
  end.

(** The record a turn that is not disturbed leaves in its element: both
    writes of [add_device], one after the other. *)
Definition built_record `{Sdk} (P : provider) (count : Z)
    (device : db_browse_device_t) (info : dante_device_info_t)
    : dante_device_info_t :=
  write_address (address_outcome P (name_field (count + 1) device)).1
    (write_metadata count device info).

(** The sleeps of that turn. *)
Definition turn_sleeps `{Sdk} (P : provider) (count : Z)
    (device : db_browse_device_t) : nat :=
  (address_outcome P (name_field (count + 1) device)).2.

(** The state an undisturbed turn, loop and run of the callback leave
    ([add_device_undisturbed], [rebuild_loop_undisturbed],
    [callback_undisturbed]). *)
Definition undisturbed_turn `{Sdk} (P : provider) (st : state)
    (device : db_browse_device_t) : state :=
  let count := g_device_count st in
  set_devices
    (alter (built_record P count device) (Z.to_nat count)
       (g_discovered_devices st))
    (count + 1)
    (add_slept (100000 * Z.of_nat (turn_sleeps P count device)) st).

Definition undisturbed_rebuild `{Sdk} (P : provider) (browse : db_browse_t)
    (st : state) : state :=
  match db_browse_get_network P browse with
  | None => set_devices zeroed_table 0 st
  | Some network =>
      foldl (undisturbed_turn P) (set_devices zeroed_table 0 st)
        (delivered network)
  end.

(** The claim that the count after a rebuild is the reported number of
    devices, capped at [MAX_DEVICES]. *)
Definition count_is_capped_number `{Sdk} (s : script) (P : provider)
    (browse : db_browse_t) (st : state) : Prop :=
  ∀ network st',
    db_browse_get_network P browse = Some network →
    browse_network_changed_callback s P browse st = Some st' →
    g_device_count st' =
      Z.of_nat (db_browse_network_get_num_devices network `min`
                Z.to_nat MAX_DEVICES).


(** The model by the order of preference of the sources. *)
Definition model_by_priority `{Sdk} (device : db_browse_device_t)
    (text : string) : Prop :=
  (∀ router_info,
     db_browse_device_get_router_info device = Some router_info →
     router_info ≠ "" →
     text = snprintf 64 router_info) ∧
  (db_browse_device_get_router_info device = None ∨
   db_browse_device_get_router_info device = Some "" →
   (∀ mf_id model_id,
      db_browse_device_get_manufacturer_id device = Some mf_id →
      db_browse_device_get_model_id device = Some model_id →
      text =
        snprintf 64 (dante_id64_to_dnssd_text mf_id +:+ "-" +:+
                     dante_id64_to_dnssd_text model_id)) ∧
   (db_browse_device_get_manufacturer_id device = None ∨
    db_browse_device_get_model_id device = None →
    (∀ default_name,
       db_browse_device_get_default_name device = Some default_name →
       text = snprintf 64 default_name) ∧
    (db_browse_device_get_default_name device = None →
     text = "Unknown Model"))).

(** A poll that ends the wait: the device is resolved, active or in error. *)
Definition settled (state : dr_device_state_t) : bool :=
  is_resolved_or_active state || is_error state.

(** ** Concrete SDK, providers and states for the examples *)

Definition hex_digit (d : Z) : string :=
  String.substring (Z.to_nat d) 1 "0123456789ABCDEF".

Definition hex_text (id : dante_id64_t) : string :=
  foldr (λ b acc, hex_digit (b / 16) +:+ hex_digit (b mod 16) +:+ acc) "" id.

(** A little-endian host with the usual success code 0. *)
Definition sdk_le : Sdk :=
  {| AUD_SUCCESS := 0; dante_id64_to_dnssd_text := hex_text;
     host_big_endian := false |}.

Definition bare_device : db_browse_device_t :=
  {| db_browse_device_get_name := None;
     db_browse_device_get_router_info := None;
     db_browse_device_get_manufacturer_id := None;
     db_browse_device_get_model_id := None;
     db_browse_device_get_default_name := None;
     db_browse_device_get_router_version := None |}.

Definition full_device : db_browse_device_t :=
  {| db_browse_device_get_name := Some "Stage-Left";
     db_browse_device_get_router_info := Some "ULTIMOX4";
     db_browse_device_get_manufacturer_id := Some [170; 187];
     db_browse_device_get_model_id := Some [204; 221];
     db_browse_device_get_default_name := Some "Foo";
     db_browse_device_get_router_version :=
       Some {| major := 4; minor := 2; bugfix := 7 |} |}.

Definition id_device : db_browse_device_t :=
  {| db_browse_device_get_name := Some "Stage-Right";
     db_browse_device_get_router_info := None;
     db_browse_device_get_manufacturer_id := Some [170; 187];
     db_browse_device_get_model_id := Some [204; 221];
     db_browse_device_get_default_name := Some "Foo";
     db_browse_device_get_router_version := None |}.

Definition named_device : db_browse_device_t :=
  {| db_browse_device_get_name := Some "Booth";
     db_browse_device_get_router_info := Some "";
     db_browse_device_get_manufacturer_id := Some [170; 187];
     db_browse_device_get_model_id := None;
     db_browse_device_get_default_name := Some "Foo";
     db_browse_device_get_router_version := None |}.

(** A connection first seen resolved at poll [k] and answering the address
    whose bytes in memory are 10, 0, 0, 5. *)
Definition resolving_connection (k : nat) : dr_device_t :=
  {| dr_device_get_state j :=
       if (j <? k)%nat then DR_DEVICE_STATE_RESOLVING
       else DR_DEVICE_STATE_RESOLVED;
     dr_device_get_address := (0, {| host := 83886090; port := 0 |}) |}.

Definition stuck_connection : dr_device_t :=
  {| dr_device_get_state _ := DR_DEVICE_STATE_RESOLVING;
     dr_device_get_address := (0, {| host := 83886090; port := 0 |}) |}.

Definition failing_connection (k : nat) : dr_device_t :=
  {| dr_device_get_state j :=
       if (j <? k)%nat then DR_DEVICE_STATE_RESOLVING
       else DR_DEVICE_STATE_ERROR;
     dr_device_get_address := (0, {| host := 83886090; port := 0 |}) |}.

(** A local device first seen active at poll [k]. *)
Definition local_device (k : nat) : dr_device_t :=
  {| dr_device_get_state j :=
       if (j <? k)%nat then DR_DEVICE_STATE_RESOLVED
       else DR_DEVICE_STATE_ACTIVE;
     dr_device_get_address := (0, {| host := 0; port := 0 |}) |}.

Definition network_of (devices : list (option db_browse_device_t))
    : db_browse_network_t :=
  {| db_browse_network_get_num_devices := length devices;
     db_browse_network_device_at_index i := mjoin (devices !! i) |}.

(** A provider that accepts every step; it browses [devices] and opens
    the connection [remote name] to a device. *)
Definition provider_of (devices : list (option db_browse_device_t))
    (remote : string → aud_error_t * option dr_device_t)
    (local : dr_device_t) : provider :=
  {| db_browse_new := (0, 7%nat);
     db_browse_set_max_sockets := 0;
     db_browse_start_config := 0;
     db_browse_get_network _ := Some (network_of devices);
     dr_device_open_remote := remote;
     dr_device_open_local := (0, local) |}.

Definition remote_by_name (name : string)
    : aud_error_t * option dr_device_t :=
  if decide (name = "Stage-Left") then (0, Some (resolving_connection 3))
  else if decide (name = "Stage-Right") then (0, Some stuck_connection)
  else if decide (name = "Booth") then (0, Some (failing_connection 2))
  else (5, None).

Definition stage_provider : provider :=
  provider_of [Some full_device; Some id_device; Some named_device;
               Some bare_device]
    remote_by_name (local_device 10).

(** The provider hands out a NULL handle at index 0. *)
Definition gap_provider : provider :=
  provider_of [None; Some full_device] remote_by_name (local_device 10).

(** A provider whose local device never becomes active. *)
Definition idle_provider : provider :=
  provider_of [] remote_by_name stuck_connection.

(** The state after a successful [dante_init]. *)
Definition initialised_state : state :=
  {| g_dapi := Some 1%nat; g_runtime := Some 2%nat; g_devices := Some 3%nat;
     g_device := None; g_env := Some 4%nat; g_browse := None;
     g_device_scan_active := 0; g_background_scanning := 0;
     g_device_ready := 0; g_error_buffer := "";
     g_discovered_devices := zeroed_table; g_device_count := 0;
     live_sessions := []; slept_us := 0 |}.

(** Scanning, before the first rebuild. *)
Definition scanning_state : state :=
  (@dante_start_device_scan sdk_le stage_provider initialised_state).2.

(** Scanning, with the table built once from [stage_provider]. *)
Definition scanned_state : state :=
  from_option snd scanning_state
    (@dante_refresh_device_scan sdk_le quiet_script stage_provider
       scanning_state).

(** A provider on which the network is gone. *)
Definition vanished_provider : provider :=
  {| db_browse_new := (0, 7%nat);
     db_browse_set_max_sockets := 0;
     db_browse_start_config := 0;
     db_browse_get_network _ := None;
     dr_device_open_remote := remote_by_name;
     dr_device_open_local := (0, local_device 10) |}.

(** A provider that browses the one device whose address never resolves. *)
Definition lonely_provider : provider :=
  provider_of [Some id_device] remote_by_name (local_device 10).

(** The first call of [dante_runtime_process] that the callback makes in
    the turn at index 0 delivers a change answered by [P]; nothing else is
    delivered. *)
Definition deliver_first (P : provider) : script :=
  Script (λ i attempt,
            if (i =? 0)%nat && (attempt =? 0)%nat
            then Deliver P quiet_script else Quiet).

(** * The rest of the wrapper *)

(** ** Queries on the local device *)

(** A transmit channel as the wrapper uses it. *)
Record dr_txchannel_t := {
  dr_txchannel_get_canonical_name : option string
}.

(** What the SDK answers about the open local device besides its state. *)
Record local_answers := {
  dr_device_get_name : option string;
  dr_device_num_txchannels : Z;
  dr_device_num_rxchannels : Z;
  dr_device_txchannel_at_index : Z → option dr_txchannel_t
}.

(** [dante_is_device_connected].  [poll] is the number of times the state
    of [g_device] was read before: the call reads entry [poll]. *)
Definition dante_is_device_connected (poll : nat) (st : state) : Z :=
  match g_device st with
  | None => 0
  | Some device =>
      match dr_device_get_state device poll with
      | DR_DEVICE_STATE_ACTIVE => 1
      | _ => 0
      end
  end.

(** The test [!g_device || !dante_is_device_connected()] that opens the
    four queries below. *)
Definition not_connected (poll : nat) (st : state) : bool :=
  is_null (g_device st) || (dante_is_device_connected poll st =? 0).

(** [snprintf(buffer, buffer_size, "%s", text)] on the caller's buffer with
    an [int] size.  A size of zero writes nothing.  A negative size turns
    into a huge [size_t] whose effect depends on the C library and on the
    room behind the pointer; the model gives no buffer then. *)
Definition write_buffer (buffer : string) (buffer_size : Z) (text : string)
    : option string :=
  if buffer_size =? 0 then Some buffer
  else if 0 <? buffer_size then Some (snprintf (Z.to_nat buffer_size) text)
  else None.

(** [dante_get_device_name] *)
Definition dante_get_device_name (A : local_answers) (poll : nat)
    (buffer : string) (buffer_size : Z) (st : state)
    : Z * option string * state :=
  if not_connected poll st then
    (-1, Some buffer, set_error "Device not connected" st)
  else
    match dr_device_get_name A with
    | None => (-1, Some buffer, set_error "Failed to get device name" st)
    | Some name => (0, write_buffer buffer buffer_size name, st)
    end.

(** [dante_get_tx_channel_count] *)
Definition dante_get_tx_channel_count (A : local_answers) (poll : nat)
    (st : state) : Z * state :=
  if not_connected poll st then (-1, set_error "Device not connected" st)
  else (dr_device_num_txchannels A, st).

(** [dante_get_rx_channel_count] *)
Definition dante_get_rx_channel_count (A : local_answers) (poll : nat)
    (st : state) : Z * state :=
  if not_connected poll st then (-1, set_error "Device not connected" st)
  else (dr_device_num_rxchannels A, st).

(** [dante_get_tx_channel_name] *)
Definition dante_get_tx_channel_name (A : local_answers) (poll : nat)
    (channel_index : Z) (buffer : string) (buffer_size : Z) (st : state)
    : Z * option string * state :=
  if not_connected poll st then
    (-1, Some buffer, set_error "Device not connected" st)
  else
    match dr_device_txchannel_at_index A channel_index with
    | None =>
        (-1, Some buffer,
         set_error ("Invalid TX channel index: " +:+ fmt_d channel_index) st)
    | Some tx_channel =>
        match dr_txchannel_get_canonical_name tx_channel with
        | None =>
            (-1, Some buffer, set_error "Failed to get TX channel name" st)
        | Some name => (0, write_buffer buffer buffer_size name, st)
        end
    end.

(** [dante_get_last_error] *)
Definition dante_get_last_error (st : state) : string := g_error_buffer st.

(** [dante_get_current_device_list] *)
Definition dante_get_current_device_list (st : state) : Z := g_device_count st.

(** ** Pumping events *)

(** The loop of [dante_process_events_briefly]: the call of
    [dante_runtime_process] in turn [i] delivers [pending i].  The result
    code of the call is tested and dropped.  Every turn ends in
    [usleep(100000)]. *)
Fixpoint process_events_loop `{Sdk} (pending : nat → delivery)
    (remaining i : nat) (st : state) : option state :=
  match remaining with
  | O => Some st
  | S remaining' =>
      st ← dante_runtime_process (pending i) st;
      process_events_loop pending remaining' (S i) (add_slept 100000 st)
  end.

(** [dante_process_events_briefly] *)
Definition dante_process_events_briefly `{Sdk} (pending : nat → delivery)
    (st : state) : option (Z * state) :=
  if is_null (g_runtime st) || (g_background_scanning st =? 0)
  then Some (0, st)
  else st ← process_events_loop pending 5 0 st; Some (0, st).

(** ** Initialisation *)

(** The browse configuration, as far as the wrapper writes it. *)
Record db_browse_config_t := {
  interface_indexes : list Z;
  num_interface_indexes : Z
}.

(** What the SDK answers during [dante_init_with_interface].
    [resolve_interface name] stands for copying the name into the
    identifier with [aud_strlcpy] and calling
    [aud_interface_get_identifiers]: it gives the result code and the
    index found. *)
Record init_answers := {
  dapi_new : aud_error_t * handle;
  dapi_get_env : option handle;
  dapi_get_runtime : option handle;
  dr_devices_new_dapi : aud_error_t * handle;
  db_browse_config_init_defaults : db_browse_config_t;
  resolve_interface : string → aud_error_t * Z
}.

Definition set_handles (dapi runtime devices env : option handle)
    (st : state) : state :=
  {| g_dapi := dapi; g_runtime := runtime; g_devices := devices;
     g_device := g_device st; g_env := env;
     g_browse := g_browse st;
     g_device_scan_active := g_device_scan_active st;
     g_background_scanning := g_background_scanning st;
     g_device_ready := g_device_ready st;
     g_error_buffer := g_error_buffer st;
     g_discovered_devices := g_discovered_devices st;
     g_device_count := g_device_count st;
     live_sessions := live_sessions st; slept_us := slept_us st |}.

(** Lines 282-305: the interface to browse on. *)
Definition configure_interface `{Sdk} (A : init_answers)
    (interface_name : option string) (config : db_browse_config_t)
    : db_browse_config_t :=
  match interface_name with
  | Some (String c rest) =>
      let '(result, index) := resolve_interface A (String c rest) in
      if negb (result =? AUD_SUCCESS) then config
      else {| interface_indexes := <[0%nat := index]> (interface_indexes config);
              num_interface_indexes := 1 |}
  | _ => config
  end.

(** [dante_init_with_interface], on the statics and on [g_browse_config]. *)
Definition dante_init_with_interface `{Sdk} (A : init_answers)
    (interface_name : option string) (st : state)
    (g_browse_config : db_browse_config_t)
    : Z * state * db_browse_config_t :=
  let '(result, dapi) := dapi_new A in
  if negb (result =? AUD_SUCCESS) then
    (-1, set_error ("Failed to create DAPI: " +:+ fmt_d result) st,
     g_browse_config)
  else
    let st :=
      set_handles (Some dapi) (dapi_get_runtime A) (g_devices st)
        (dapi_get_env A) st in
    if is_null (g_runtime st) || is_null (g_env st) then
      let st := set_error "Failed to get runtime/env" st in
      (-1, set_handles None (g_runtime st) (g_devices st) (g_env st) st,
       g_browse_config)
    else
      let '(result, devices) := dr_devices_new_dapi A in
      if negb (result =? AUD_SUCCESS) then
        let st :=
          set_error ("Failed to create device manager: " +:+ fmt_d result)
            st in
        (-1, set_handles None (g_runtime st) (g_devices st) (g_env st) st,
         g_browse_config)
      else
        let st :=
          set_handles (g_dapi st) (g_runtime st) (Some devices) (g_env st)
            st in
        (0, st,
         configure_interface A interface_name
           (db_browse_config_init_defaults A)).

(** [dante_init] *)
Definition dante_init `{Sdk} (A : init_answers) (st : state)
    (g_browse_config : db_browse_config_t)
    : Z * state * db_browse_config_t :=
  dante_init_with_interface A None st g_browse_config.

(** ** Further notions used in the statements *)

(** The scan flags agree with each other and with the session held, and
    the SDK has no other session alive. *)
Definition scan_ok (st : state) : Prop :=
  sessions_ok st ∧
  g_background_scanning st = g_device_scan_active st ∧
  (g_browse st = None → g_device_scan_active st = 0) ∧
  (g_browse st ≠ None → g_device_scan_active st = 1).

(** The four bytes of a 32-bit field in the order they lie in memory. *)
Definition memory_bytes (big_endian : bool) (field : Z) : list Z :=
  if big_endian
  then [octet 3 field; octet 2 field; octet 1 field; octet 0 field]
  else [octet 0 field; octet 1 field; octet 2 field; octet 3 field].

(** All four steps that can fail an initialisation succeed. *)
Definition init_accepted `{Sdk} (A : init_answers) : Prop :=
  (dapi_new A).1 = AUD_SUCCESS ∧
  dapi_get_env A ≠ None ∧
  dapi_get_runtime A ≠ None ∧
  (dr_devices_new_dapi A).1 = AUD_SUCCESS.

(** Two states with the same statics apart from the table, the count and
    the time slept. *)
Definition same_but_snapshot (st st' : state) : Prop :=
  g_dapi st' = g_dapi st ∧ g_runtime st' = g_runtime st ∧
  g_devices st' = g_devices st ∧ g_device st' = g_device st ∧
  g_env st' = g_env st ∧ g_browse st' = g_browse st ∧
  g_device_scan_active st' = g_device_scan_active st ∧
  g_background_scanning st' = g_background_scanning st ∧
  g_device_ready st' = g_device_ready st ∧
  g_error_buffer st' = g_error_buffer st ∧
  live_sessions st' = live_sessions st.

(** The text ["a.b.c.d"] of four octets. *)
Definition dotted (bytes : list Z) : string :=
  match bytes with
  | [a; b; c; d] =>
      fmt_u a +:+ "." +:+ fmt_u b +:+ "." +:+ fmt_u c +:+ "." +:+ fmt_u d
  | _ => ""
  end.

(** What a run of the callback, nested runs included, can have done to
    the statics: the table, the count and the time slept apart they are
    the same, the time has not gone back, and a table of [MAX_DEVICES]
    elements still has as many. *)
Definition carried (st st' : state) : Prop :=
  same_but_snapshot st st' ∧
  slept_us st ≤ slept_us st' ∧
  (length (g_discovered_devices st) = Z.to_nat MAX_DEVICES →
   length (g_discovered_devices st') = Z.to_nat MAX_DEVICES).

(** The calls of [dante_runtime_process] of one turn of the loop, under a
    script. *)
Definition process_of `{Sdk} (s : script) (i attempt : nat) (st : state)
    : option state :=
  dante_runtime_process (deliveries s i attempt) st.

(** ** More concrete answers for the examples *)

Definition studio_answers : local_answers :=
  {| dr_device_get_name := Some "Studio-A";
     dr_device_num_txchannels := 2;
     dr_device_num_rxchannels := 4;
     dr_device_txchannel_at_index i :=
       if decide (i = 0) then
         Some {| dr_txchannel_get_canonical_name := Some "Left" |}
       else if decide (i = 1) then
         Some {| dr_txchannel_get_canonical_name := None |}
       else None |}.

(** Initialised, with the local device connected at the first poll. *)
Definition connected_state : state :=
  set_device (Some (local_device 0)) 1 initialised_state.

Definition default_config : db_browse_config_t :=
  {| interface_indexes := [0; 0; 0; 0]; num_interface_indexes := 0 |}.

Definition good_answers : init_answers :=
  {| dapi_new := (0, 1%nat);
     dapi_get_env := Some 4%nat;
     dapi_get_runtime := Some 2%nat;
     dr_devices_new_dapi := (0, 3%nat);
     db_browse_config_init_defaults := default_config;
     resolve_interface name :=
       if decide (name = "eth0") then (0, 2) else (9, 0) |}.

(** The device manager cannot be created. *)
Definition poor_answers : init_answers :=
  {| dapi_new := (0, 1%nat);
     dapi_get_env := Some 4%nat;
     dapi_get_runtime := Some 2%nat;
     dr_devices_new_dapi := (12, 0%nat);
     db_browse_config_init_defaults := default_config;
     resolve_interface _ := (9, 0) |}.

(** * Properties *)

(** ** [snprintf] and decimal numerals *)

Lemma substring_all (s : string) (n : nat) :
  (String.length s ≤ n)%nat → String.substring 0 n s = s.
Proof.
  revert n. induction s as [|c s IH]; intros [|n] Hn; simpl in *;
    try reflexivity; try lia.
  f_equal. apply IH. lia.
Qed.

(** A text that fits the buffer is stored as it is. *)
Lemma snprintf_fits (size : nat) (s : string) :
  (String.length s < size)%nat → snprintf size s = s.
Proof. intros Hs. apply substring_all. lia. Qed.

Lemma length_string_app (s t : string) :
  String.length (s +:+ t) = (String.length s + String.length t)%nat.
Proof. induction s as [|c s IH]; simpl; [reflexivity | now rewrite IH]. Qed.

(** ** Invariants of the wrapper's state *)

Lemma table_ok_initial : table_ok initial_state.
Proof. split; [reflexivity | simpl; unfold MAX_DEVICES; lia]. Qed.

Lemma sessions_ok_initial : sessions_ok initial_state.
Proof. reflexivity. Qed.

Lemma table_ok_set_error (msg : string) (st : state) :
  table_ok st → table_ok (set_error msg st).
Proof. intros H. exact H. Qed.

Lemma table_ok_start_scan `{Sdk} (P : provider) (st : state) :
  table_ok st → table_ok (dante_start_device_scan P st).2.
Proof.
  intros Hok. unfold dante_start_device_scan.
  repeat case_match; exact Hok.
Qed.

Lemma table_ok_stop_scan (st : state) :
  table_ok st → table_ok (dante_stop_device_scan st).2.
Proof.
  intros Hok. unfold dante_stop_device_scan. case_match; exact Hok.
Qed.

Lemma table_ok_connect `{Sdk} (P : provider) (st : state) :
  table_ok st → table_ok (dante_connect_local_device P st).2.
Proof.
  intros Hok. unfold dante_connect_local_device.
  repeat case_match; exact Hok.
Qed.

Lemma table_ok_cleanup (st : state) : table_ok (dante_cleanup st).
Proof. split; [reflexivity | simpl; unfold MAX_DEVICES; lia]. Qed.

Lemma table_ok_get_device_info (index : Z)
    (info : option dante_device_info_t) (st : state) :
  table_ok st →
  ∀ r, dante_get_device_info index info st = Some r → table_ok r.2.
Proof.
  intros Hok r. unfold dante_get_device_info.
  repeat case_match; intros [= <-]; exact Hok.
Qed.

Lemma db_browse_delete_self (browse : db_browse_t) :
  db_browse_delete browse [browse] = [].
Proof.
  unfold db_browse_delete. rewrite filter_cons.
  destruct (decide (browse ≠ browse)) as [Hne|_]; [now destruct Hne | reflexivity].
Qed.

Lemma stop_scan_sessions_ok (st : state) :
  sessions_ok st → sessions_ok (dante_stop_device_scan st).2.
Proof.
  unfold sessions_ok, dante_stop_device_scan. intros Hs.
  destruct (g_browse st) as [browse|] eqn:Hb; simpl.
  - rewrite Hs. apply db_browse_delete_self.
  - rewrite Hb. exact Hs.
Qed.

Lemma stop_scan_table (st : state) :
  g_discovered_devices (dante_stop_device_scan st).2 = g_discovered_devices st ∧
  g_device_count (dante_stop_device_scan st).2 = g_device_count st.
Proof.
  unfold dante_stop_device_scan. destruct (g_browse st); split; reflexivity.
Qed.

(** ** Reading a record: [dante_get_device_info] *)

(** C3.  With a record to write to and the table within its bounds, the call
    fails with the out-of-range message when the index is negative or not
    below the count, fails with the invalid-record message when the element
    in range has [is_valid] zero, and otherwise returns 0 with a copy of the
    element and leaves the state alone; so it returns 0 exactly when the
    index is in range and the element is marked valid. *)
Theorem get_device_info_cases (index : Z) (old : dante_device_info_t)
    (st : state) :
  table_ok st →
  let r := dante_get_device_info index (Some old) st in
  (index < 0 ∨ g_device_count st ≤ index →
     r = Some (-1, Some old,
               set_error ("Invalid device index: " +:+ fmt_d index +:+
                          " (available: 0-" +:+
                          fmt_d (g_device_count st - 1) +:+ ")") st)) ∧
  (0 ≤ index < g_device_count st →
     ∃ slot, g_discovered_devices st !! Z.to_nat index = Some slot ∧
       (is_valid slot = 0 →
          r = Some (-1, Some old,
                    set_error ("Device at index " +:+ fmt_d index +:+
                               " is not valid") st)) ∧
       (is_valid slot ≠ 0 → r = Some (0, Some slot, st))) ∧
  ((∃ copy st', r = Some (0, copy, st')) ↔
   0 ≤ index < g_device_count st ∧
   ∃ slot, g_discovered_devices st !! Z.to_nat index = Some slot ∧
           is_valid slot ≠ 0).
Proof.
  intros [Hlen Hcount] r. subst r. unfold dante_get_device_info.
  destruct (Z.ltb_spec index 0) as [Hneg|Hpos]; simpl.
  { split; [reflexivity | split]; [lia | ].
    split; [intros (? & ? & [=]) | lia]. }
  destruct (Z.geb_spec index (g_device_count st)) as [Hge|Hlt]; simpl.
  { split; [reflexivity | split]; [lia | ].
    split; [intros (? & ? & [=]) | lia]. }
  assert (Hin : (Z.to_nat index < length (g_discovered_devices st))%nat).
  { rewrite Hlen. unfold MAX_DEVICES in *. lia. }
  destruct (lookup_lt_is_Some_2 _ _ Hin) as [slot Hslot]. rewrite Hslot.
  split; [lia | split].
  - intros _. exists slot. split; [reflexivity | ].
    destruct (Z.eqb_spec (is_valid slot) 0) as [Hz|Hnz];
      split; intros; try reflexivity; contradiction.
  - destruct (Z.eqb_spec (is_valid slot) 0) as [Hz|Hnz].
    + split; [intros (? & ? & [=]) | ].
      intros (_ & slot' & [= <-] & Hv). contradiction.
    + split; [ | eauto]. intros _. split; [lia | eauto].
Qed.

Lemma get_device_info_cases_witness :
  table_ok scanned_state ∧
  dante_get_device_info 1 (Some zeroed_info) scanned_state =
    Some (0,
          Some {| id := 2; name := "Stage-Right"; model := "AABB-CCDD";
                  product_version := "N/A"; dante_version := "Unknown";
                  ip_address := "0.0.0.0"; link_speed := -1;
                  secondary_ip := ""; secondary_speed := 0; is_valid := 1 |},
          scanned_state).
Proof.
  assert (Hok : table_ok scanned_state).
  { split; [vm_compute; reflexivity | vm_compute; split; discriminate]. }
  split; [exact Hok | ].
  destruct (get_device_info_cases 1 zeroed_info scanned_state Hok)
    as (_ & Hin & _).
  destruct Hin as (slot & Hslot & _ & Hvalid).
  { vm_compute. split; [discriminate | reflexivity]. }
  vm_compute in Hslot. injection Hslot as <-.
  apply Hvalid. vm_compute. discriminate.
Defined.

(** C10.  With a NULL record pointer the call returns -1 and only sets the
    error message: nothing is written for the caller, the table and the
    count are as before, and the outcome is the same whatever the table and
    the count hold, so no element is consulted. *)
Theorem get_device_info_null (index : Z) (st : state) :
  dante_get_device_info index None st =
    Some (-1, None, set_error "Invalid info pointer" st) ∧
  g_error_buffer (set_error "Invalid info pointer" st) =
    "Invalid info pointer" ∧
  g_discovered_devices (set_error "Invalid info pointer" st) =
    g_discovered_devices st ∧
  g_device_count (set_error "Invalid info pointer" st) = g_device_count st ∧
  ∀ table count,
    dante_get_device_info index None (set_devices table count st) =
      Some (-1, None,
            set_devices table count (set_error "Invalid info pointer" st)).
Proof. repeat split. Qed.

(** ** Starting and stopping the scan *)

Lemma eqb_success `{Sdk} (result : aud_error_t) :
  result = AUD_SUCCESS → negb (result =? AUD_SUCCESS) = false.
Proof. intros ->. now rewrite Z.eqb_refl. Qed.

Lemma eqb_failure `{Sdk} (result : aud_error_t) :
  result ≠ AUD_SUCCESS → negb (result =? AUD_SUCCESS) = true.
Proof. intros Hne. apply Z.eqb_neq in Hne. now rewrite Hne. Qed.

Lemma start_scan_sessions_ok `{Sdk} (P : provider) (st : state) :
  sessions_ok st → sessions_ok (dante_start_device_scan P st).2.
Proof.
  unfold sessions_ok, dante_start_device_scan. intros Hs.
  destruct (g_env st); [ | exact Hs].
  destruct (g_browse st) as [browse|] eqn:Hb; [simpl; now rewrite Hb | ].
  destruct (db_browse_new P) as [result browse].
  destruct (negb (result =? AUD_SUCCESS)); [simpl; now rewrite Hb | ].
  simpl in Hs.
  destruct (negb (db_browse_set_max_sockets P =? AUD_SUCCESS)); simpl.
  { rewrite Hs. apply db_browse_delete_self. }
  destruct (negb (db_browse_start_config P =? AUD_SUCCESS)); simpl.
  { rewrite Hs. apply db_browse_delete_self. }
  now rewrite Hs.
Qed.

(** Starting on a scanner that already holds a session touches nothing. *)
Lemma start_scan_active `{Sdk} (P : provider) (st : state) :
  g_env st ≠ None → g_browse st ≠ None →
  dante_start_device_scan P st = (0, st).
Proof.
  unfold dante_start_device_scan. intros He Hb.
  destruct (g_env st); [ | contradiction].
  destruct (g_browse st); [reflexivity | contradiction].
Qed.

Lemma stop_scan_twice (st : state) :
  (dante_stop_device_scan st).1 = 0 ∧
  g_browse (dante_stop_device_scan st).2 = None ∧
  dante_stop_device_scan (dante_stop_device_scan st).2 =
    (0, (dante_stop_device_scan st).2).
Proof.
  unfold dante_stop_device_scan.
  destruct (g_browse st) as [browse|] eqn:Hb; simpl.
  - repeat split.
  - rewrite Hb. repeat split.
Qed.

(** C5.  On an initialised wrapper whose provider accepts the steps of a
    start (needed only when no session is held yet), two starts in a row
    both return 0, the second changes nothing, and exactly one session is
    alive, the one the wrapper holds.  Two stops in a row both return 0
    from any state; after the first no session is held and the second
    changes nothing. *)
Theorem start_stop_idempotent `{Sdk} (P1 P2 : provider) (st : state) :
  sessions_ok st →
  g_env st ≠ None →
  (g_browse st = None → provider_accepts P1) →
  let first := dante_start_device_scan P1 st in
  let second := dante_start_device_scan P2 first.2 in
  (first.1 = 0 ∧ second.1 = 0 ∧ second.2 = first.2 ∧
   ∃ browse, g_browse second.2 = Some browse ∧
             live_sessions second.2 = [browse]) ∧
  ∀ st0,
    let stopped := dante_stop_device_scan st0 in
    let again := dante_stop_device_scan stopped.2 in
    stopped.1 = 0 ∧ again.1 = 0 ∧ again.2 = stopped.2 ∧
    g_browse stopped.2 = None ∧
    (sessions_ok st0 → live_sessions stopped.2 = []).
Proof.
  intros Hs He Hacc first second. split.
  - assert (Hfirst : first.1 = 0 ∧ g_env first.2 ≠ None ∧
                     ∃ browse, g_browse first.2 = Some browse ∧
                               live_sessions first.2 = [browse]).
    { subst first second. unfold dante_start_device_scan.
      destruct (g_env st) as [env|] eqn:Henv; [ | contradiction].
      destruct (g_browse st) as [browse|] eqn:Hb.
      { simpl. rewrite Henv, Hb. repeat split; [discriminate | ].
        exists browse. split; [reflexivity | ].
        unfold sessions_ok in Hs. now rewrite Hs, Hb. }
      destruct (Hacc eq_refl) as (Hnew & Hmax & Hstart).
      destruct (db_browse_new P1) as [result browse]. simpl in Hnew.
      rewrite (eqb_success _ Hnew), (eqb_success _ Hmax),
        (eqb_success _ Hstart). simpl. rewrite Henv.
      repeat split; [discriminate | ]. exists browse.
      split; [reflexivity | ].
      unfold sessions_ok in Hs. now rewrite Hs, Hb. }
    destruct Hfirst as (Hret & Henv & browse & Hb & Hlive).
    assert (Hsecond : dante_start_device_scan P2 first.2 = (0, first.2)).
    { apply start_scan_active; [exact Henv | now rewrite Hb]. }
    subst second. rewrite Hsecond. simpl. eauto 10.
  - intros st0 stopped again. subst stopped again.
    destruct (stop_scan_twice st0) as (H1 & H2 & H3).
    rewrite H3. simpl. repeat split; try assumption.
    intros Hs0. apply stop_scan_sessions_ok in Hs0.
    unfold sessions_ok in Hs0. now rewrite Hs0, H2.
Qed.

Lemma start_stop_idempotent_witness :
  let first := @dante_start_device_scan sdk_le stage_provider
                 initialised_state in
  let second := @dante_start_device_scan sdk_le idle_provider first.2 in
  first.1 = 0 ∧ second.1 = 0 ∧ second.2 = first.2 ∧
  ∃ browse, g_browse second.2 = Some browse ∧
            live_sessions second.2 = [browse].
Proof.
  apply (@start_stop_idempotent sdk_le stage_provider idle_provider
           initialised_state).
  - reflexivity.
  - discriminate.
  - intros _. repeat split.
Defined.

(** C6.  When a start reaches the provider (the wrapper is initialised and
    holds no session) and one of the three steps is refused, the call
    returns -1 and the state it leaves differs from the one it found only in
    the error message: no session is held, none is left alive at the
    provider, and both scan flags are as they were. *)
Theorem start_scan_failure_unwinds `{Sdk} (P : provider) (st : state) :
  sessions_ok st →
  g_env st ≠ None →
  g_browse st = None →
  ¬ provider_accepts P →
  let r := dante_start_device_scan P st in
  r.1 = -1 ∧
  (∃ msg, r.2 = set_error msg st) ∧
  g_browse r.2 = None ∧
  live_sessions r.2 = [] ∧
  g_device_scan_active r.2 = g_device_scan_active st ∧
  g_background_scanning r.2 = g_background_scanning st.
Proof.
  intros Hs He Hb Hrefused r.
  assert (Hlive : live_sessions st = []).
  { unfold sessions_ok in Hs. now rewrite Hs, Hb. }
  assert (Hshape : r.1 = -1 ∧ ∃ msg, r.2 = set_error msg st).
  { subst r. unfold dante_start_device_scan.
    destruct (g_env st) as [env|]; [ | contradiction]. rewrite Hb.
    destruct (db_browse_new P) as [result browse] eqn:Hnew.
    destruct (Z.eqb_spec result AUD_SUCCESS) as [Hr|Hr]; simpl;
      [ | split; [reflexivity | eauto]].
    rewrite Hlive, db_browse_delete_self.
    destruct (Z.eqb_spec (db_browse_set_max_sockets P) AUD_SUCCESS)
      as [Hm|Hm]; simpl.
    2:{ split; [reflexivity | ]. eexists.
        destruct st; simpl in *; subst; reflexivity. }
    destruct (Z.eqb_spec (db_browse_start_config P) AUD_SUCCESS)
      as [Hc|Hc]; simpl.
    2:{ split; [reflexivity | ]. eexists.
        destruct st; simpl in *; subst; reflexivity. }
    destruct Hrefused. unfold provider_accepts. now rewrite Hnew. }
  destruct Hshape as (Hret & msg & Hst). rewrite Hst. simpl.
  repeat split; eauto.
Qed.

Lemma start_scan_failure_unwinds_witness :
  let refusing :=
    {| db_browse_new := (0, 9%nat); db_browse_set_max_sockets := 0;
       db_browse_start_config := 17;
       db_browse_get_network := db_browse_get_network stage_provider;
       dr_device_open_remote := remote_by_name;
       dr_device_open_local := (0, stuck_connection) |} in
  let r := @dante_start_device_scan sdk_le refusing initialised_state in
  r.1 = -1 ∧
  (∃ msg, r.2 = set_error msg initialised_state) ∧
  g_browse r.2 = None ∧
  live_sessions r.2 = [] ∧
  g_device_scan_active r.2 = g_device_scan_active initialised_state ∧
  g_background_scanning r.2 = g_background_scanning initialised_state.
Proof.
  intros refusing.
  apply (@start_scan_failure_unwinds sdk_le refusing initialised_state).
  - reflexivity.
  - discriminate.
  - reflexivity.
  - intros (_ & _ & Hstart). vm_compute in Hstart. discriminate.
Defined.

(** ** Records after a stop and after a cleanup *)

Lemma get_device_info_stop_scan (index : Z)
    (info : option dante_device_info_t) (st : state) :
  ∀ code copy st1,
    dante_get_device_info index info st = Some (code, copy, st1) →
    ∃ st1',
      dante_get_device_info index info (dante_stop_device_scan st).2 =
        Some (code, copy, st1').
Proof.
  intros code copy st1. unfold dante_get_device_info.
  destruct (stop_scan_table st) as [-> ->].
  destruct info as [old|]; [ | intros [= <- <- <-]; eauto].
  destruct ((index <? 0) || (index >=? g_device_count st));
    [intros [= <- <- <-]; eauto | ].
  destruct (g_discovered_devices st !! Z.to_nat index) as [slot|];
    [ | discriminate].
  destruct (is_valid slot =? 0); intros [= <- <- <-]; eauto.
Qed.

Lemma records_destroyed_zero_count (st : state) :
  g_device_count st = 0 → records_destroyed st.
Proof.
  intros Hc. split; [exact Hc | ]. intros index old.
  unfold dante_get_device_info. rewrite Hc.
  destruct (Z.ltb_spec index 0); destruct (Z.geb_spec index 0);
    simpl; eauto; lia.
Qed.

(** The scanner of [scanned_state] is active and holds four records; the
    stop returns with all four in place, the first still readable. *)
Lemma stop_scan_keeps_records :
  g_browse scanned_state = Some 7%nat ∧
  g_device_scan_active scanned_state = 1 ∧
  g_device_count (dante_stop_device_scan scanned_state).2 = 4 ∧
  (dante_get_device_info 0 (Some zeroed_info)
     (dante_stop_device_scan scanned_state).2
   ≫= λ r, Some r.1) =
    Some (0, Some {| id := 1; name := "Stage-Left"; model := "ULTIMOX4";
                     product_version := "N/A"; dante_version := "4.2.7";
                     ip_address := "10.0.0.5"; link_speed := -1;
                     secondary_ip := ""; secondary_speed := 0;
                     is_valid := 1 |}) ∧
  ¬ records_destroyed (dante_stop_device_scan scanned_state).2.
Proof.
  repeat split; try (vm_compute; reflexivity).
  intros [Hcount _]. vm_compute in Hcount. discriminate.
Qed.

(** C9, as the code has it.  A stop leaves the count and the table as they
    were, and every read answers after it as it did before; it is the
    cleanup that destroys the records: it leaves the count at zero and the
    table zeroed, so that no read succeeds. *)
Theorem records_outlive_stop_scan (st : state) :
  (g_device_count (dante_stop_device_scan st).2 = g_device_count st ∧
   g_discovered_devices (dante_stop_device_scan st).2 =
     g_discovered_devices st ∧
   ∀ index info code copy st1,
     dante_get_device_info index info st = Some (code, copy, st1) →
     ∃ st1',
       dante_get_device_info index info (dante_stop_device_scan st).2 =
         Some (code, copy, st1')) ∧
  (g_device_count (dante_cleanup st) = 0 ∧
   g_discovered_devices (dante_cleanup st) = zeroed_table ∧
   g_browse (dante_cleanup st) = None ∧
   records_destroyed (dante_cleanup st)).
Proof.
  split.
  - destruct (stop_scan_table st) as [Ht Hc]. split; [exact Hc | ].
    split; [exact Ht | ]. intros index info.
    apply get_device_info_stop_scan.
  - split; [reflexivity | ]. split; [reflexivity | ]. split.
    + unfold dante_cleanup. simpl.
      destruct (g_browse st) eqn:Hb; [ | exact Hb].
      apply stop_scan_twice.
    + now apply records_destroyed_zero_count.
Qed.

(** ** Connecting the local device *)

Lemma wait_active_never (device : dr_device_t) (timeout polls : nat) :
  (∀ j, dr_device_get_state device j ≠ DR_DEVICE_STATE_ACTIVE) →
  wait_active device timeout polls = (false, (polls + timeout)%nat).
Proof.
  intros Hnever. revert polls.
  induction timeout as [|timeout IH]; intros polls; simpl.
  - f_equal. lia.
  - specialize (Hnever polls).
    destruct (dr_device_get_state device polls); try contradiction;
      rewrite IH; f_equal; lia.
Qed.

Lemma wait_active_first (device : dr_device_t) (timeout polls k : nat) :
  (k < timeout)%nat →
  dr_device_get_state device (polls + k) = DR_DEVICE_STATE_ACTIVE →
  (∀ j, (j < k)%nat →
     dr_device_get_state device (polls + j) ≠ DR_DEVICE_STATE_ACTIVE) →
  wait_active device timeout polls = (true, (polls + k)%nat).
Proof.
  revert timeout polls.
  induction k as [|k IH]; intros timeout polls Hk Hat Hbefore;
    destruct timeout as [|timeout]; try lia; simpl.
  - rewrite Nat.add_0_r in *. now rewrite Hat.
  - pose proof (Hbefore 0%nat ltac:(lia)) as H0.
    rewrite Nat.add_0_r in H0.
    assert (Hrec : wait_active device timeout (S polls) =
                   (true, (polls + S k)%nat)).
    { replace (polls + S k)%nat with (S polls + k)%nat by lia.
      apply IH; [lia | | ].
      - now replace (S polls + k)%nat with (polls + S k)%nat by lia.
      - intros j Hj.
        replace (S polls + j)%nat with (polls + S j)%nat by lia.
        apply Hbefore. lia. }
    destruct (dr_device_get_state device polls); try contradiction;
      exact Hrec.
Qed.

(** The wait is as long as [connect_timeout] seconds: a local device first
    active at poll [k], for any [k] below 50, is connected after [k]
    seconds of sleep, and one that is never active is given up after 50. *)
Lemma connect_local_device_wait `{Sdk} (P : provider) (st : state)
    (device : dr_device_t) :
  g_devices st ≠ None →
  dr_device_open_local P = (AUD_SUCCESS, device) →
  (∀ k, (k < connect_timeout)%nat →
     dr_device_get_state device k = DR_DEVICE_STATE_ACTIVE →
     (∀ j, (j < k)%nat →
        dr_device_get_state device j ≠ DR_DEVICE_STATE_ACTIVE) →
     (dante_connect_local_device P st).1 = 0 ∧
     slept_us (dante_connect_local_device P st).2 =
       slept_us st + 1000000 * Z.of_nat k) ∧
  ((∀ j, dr_device_get_state device j ≠ DR_DEVICE_STATE_ACTIVE) →
   (dante_connect_local_device P st).1 = -1 ∧
   g_error_buffer (dante_connect_local_device P st).2 =
     "Device connection timeout" ∧
   slept_us (dante_connect_local_device P st).2 =
     slept_us st + 1000000 * Z.of_nat connect_timeout).
Proof.
  intros Hd Hopen. unfold dante_connect_local_device.
  destruct (g_devices st); [ | contradiction]. rewrite Hopen.
  rewrite (eqb_success _ eq_refl). split.
  - intros k Hk Hat Hbefore.
    rewrite (wait_active_first device connect_timeout 0 k Hk Hat Hbefore).
    split; reflexivity.
  - intros Hnever. rewrite (wait_active_never _ _ _ Hnever).
    repeat split.
Qed.

(** C7, at a local device that is never active and at one first active at
    the eleventh poll.  The first call gives up with the timeout message
    after 50 polls and 50 seconds of sleep, not 5; the second returns
    success after 10 seconds, twice the bound of 5 seconds. *)
Theorem connect_local_device_waits_fifty_seconds :
  let never := @dante_connect_local_device sdk_le idle_provider
                 initialised_state in
  let late := @dante_connect_local_device sdk_le stage_provider
                initialised_state in
  (never.1 = -1 ∧
   g_error_buffer never.2 = "Device connection timeout" ∧
   slept_us never.2 = 50 * 1000000) ∧
  (late.1 = 0 ∧ g_device_ready late.2 = 1 ∧
   slept_us late.2 = 10 * 1000000).
Proof. vm_compute. repeat split. Qed.

(** ** Runs of the callback under a script *)

Lemma script_induction (Q : script → Prop) :
  (∀ d, (∀ i attempt P s, d i attempt = Deliver P s → Q s) → Q (Script d)) →
  ∀ s, Q s.
Proof.
  intros Hstep. fix IH 1. intros [d]. apply Hstep.
  intros i attempt P s Hd.
  destruct (d i attempt) as [|P' s'] eqn:Hcall; [discriminate | ].
  injection Hd as _ <-. apply IH.
Qed.

Lemma callback_unfold `{Sdk} (s : script) (P : provider)
    (browse : db_browse_t) (st : state) :
  browse_network_changed_callback s P browse st =
    match db_browse_get_network P browse with
    | None => Some (set_devices zeroed_table 0 st)
    | Some network =>
        rebuild_loop (process_of s) P network (Z.to_nat MAX_DEVICES) 0
          (set_devices zeroed_table 0 st)
    end.
Proof. destruct s as [d]. reflexivity. Qed.

Lemma carried_refl (st : state) : carried st st.
Proof.
  unfold carried, same_but_snapshot. split; [repeat split | split; [lia | tauto]].
Qed.

Lemma carried_trans (st1 st2 st3 : state) :
  carried st1 st2 → carried st2 st3 → carried st1 st3.
Proof.
  unfold carried, same_but_snapshot.
  intros ((?&?&?&?&?&?&?&?&?&?&?) & ? & ?) ((?&?&?&?&?&?&?&?&?&?&?) & ? & ?).
  split; [repeat split; congruence | split; [lia | tauto]].
Qed.

Lemma carried_add_slept (us : Z) (st : state) :
  0 ≤ us → carried st (add_slept us st).
Proof.
  intros Hus. unfold carried, same_but_snapshot. cbn.
  split; [repeat split | split; [lia | tauto]].
Qed.

Lemma carried_alter (f : dante_device_info_t → dante_device_info_t)
    (slot : nat) (count : Z) (st : state) :
  carried st (set_devices (alter f slot (g_discovered_devices st)) count st).
Proof.
  unfold carried, same_but_snapshot. cbn. rewrite length_alter.
  split; [repeat split | split; [lia | tauto]].
Qed.

Lemma wait_resolved_carried (process : nat → state → option state)
    (routing_device : dr_device_t) (remaining attempt : nat)
    (state_read : option dr_device_state_t) (st : state) :
  (∀ a st1 st2, process a st1 = Some st2 → carried st1 st2) →
  ∀ r st',
    wait_resolved process routing_device remaining attempt state_read st =
      Some (r, st') →
    carried st st'.
Proof.
  intros Hprocess. revert attempt state_read st.
  induction remaining as [|remaining IH]; intros attempt state_read st r st';
    cbn [wait_resolved].
  - intros [= _ <-]. apply carried_refl.
  - destruct (is_resolved_or_active _); [intros [= _ <-]; apply carried_refl | ].
    destruct (is_error _); [intros [= _ <-]; apply carried_refl | ].
    destruct (if is_null (g_runtime st) then Some st else process attempt st)
      as [st1|] eqn:Hcall; [ | discriminate].
    cbn. intros Hrest.
    assert (H1 : carried st st1).
    { destruct (is_null (g_runtime st));
        [injection Hcall as <-; apply carried_refl
        | exact (Hprocess _ _ _ Hcall)]. }
    eapply carried_trans; [exact H1 | ].
    eapply carried_trans; [apply (carried_add_slept 100000); lia | ].
    exact (IH _ _ _ _ _ Hrest).
Qed.

Lemma resolve_ip_carried `{Sdk} (process : nat → state → option state)
    (P : provider) (device_name : string) (st : state) :
  (∀ a st1 st2, process a st1 = Some st2 → carried st1 st2) →
  ∀ ip st', resolve_ip process P device_name st = Some (ip, st') →
  carried st st'.
Proof.
  intros Hprocess ip st'. unfold resolve_ip.
  destruct (dr_device_open_remote P device_name)
    as [result [routing_device|]];
    [ | intros [= _ <-]; apply carried_refl].
  destruct (result =? AUD_SUCCESS);
    [ | intros [= _ <-]; apply carried_refl].
  destruct (wait_resolved process routing_device max_wait_attempts 0 None st)
    as [[state_read st1]|] eqn:Hwait; [ | discriminate].
  pose proof (wait_resolved_carried _ _ _ _ _ _ Hprocess _ _ Hwait) as H1.
  cbn.
  destruct (from_option is_resolved_or_active false state_read);
    [ | intros [= _ <-]; exact H1].
  destruct (dr_device_get_address routing_device) as [addr_result address].
  destruct (addr_result =? AUD_SUCCESS); intros [= _ <-]; exact H1.
Qed.

Lemma add_device_carried `{Sdk} (process : nat → state → option state)
    (P : provider) (st : state) (device : db_browse_device_t) :
  (∀ a st1 st2, process a st1 = Some st2 → carried st1 st2) →
  ∀ st', add_device process P st device = Some st' → carried st st'.
Proof.
  intros Hprocess st'. unfold add_device.
  destruct ((0 <=? g_device_count st) && (g_device_count st <? MAX_DEVICES));
    [ | discriminate].
  destruct (resolve_ip process P _ _) as [[ip st1]|] eqn:Hresolve;
    [ | discriminate].
  cbn. intros [= <-].
  eapply carried_trans; [apply carried_alter | ].
  eapply carried_trans;
    [exact (resolve_ip_carried _ _ _ _ Hprocess _ _ Hresolve) | ].
  apply carried_alter.
Qed.

Lemma rebuild_loop_carried `{Sdk}
    (process : nat → nat → state → option state) (P : provider)
    (network : db_browse_network_t) (remaining i : nat) (st : state) :
  (∀ j a st1 st2, process j a st1 = Some st2 → carried st1 st2) →
  ∀ st', rebuild_loop process P network remaining i st = Some st' →
  carried st st'.
Proof.
  intros Hprocess. revert i st.
  induction remaining as [|remaining IH]; intros i st st';
    cbn [rebuild_loop].
  - intros [= <-]. apply carried_refl.
  - destruct (i <? db_browse_network_get_num_devices network)%nat;
      [ | intros [= <-]; apply carried_refl].
    destruct (db_browse_network_device_at_index network i) as [device|];
      [ | apply IH].
    destruct (add_device (process i) P st device) as [st1|] eqn:Hturn;
      [ | discriminate].
    cbn. intros Hrest.
    eapply carried_trans; [ | exact (IH _ _ _ Hrest)].
    exact (add_device_carried _ _ _ _ (Hprocess i) _ Hturn).
Qed.

(** Whatever is delivered to it, a run of the callback that stays within
    the table changes the table, the count and the time slept only, and
    leaves a table of [MAX_DEVICES] elements. *)
Lemma callback_carried `{Sdk} (s : script) :
  ∀ (P : provider) (browse : db_browse_t) (st st' : state),
    browse_network_changed_callback s P browse st = Some st' →
    same_but_snapshot st st' ∧
    slept_us st ≤ slept_us st' ∧
    length (g_discovered_devices st') = Z.to_nat MAX_DEVICES.
Proof.
  induction s as [d IH] using script_induction.
  intros P browse st st'. rewrite callback_unfold.
  assert (Hstart : carried st (set_devices zeroed_table 0 st) ∧
            length (g_discovered_devices (set_devices zeroed_table 0 st)) =
              Z.to_nat MAX_DEVICES).
  { unfold carried, same_but_snapshot. cbn.
    split; [ | reflexivity].
    split; [repeat split | split; [lia | reflexivity]]. }
  destruct Hstart as [(Hframe & Hslept & _) Hlen].
  destruct (db_browse_get_network P browse) as [network|].
  2:{ intros [= <-]. split; [exact Hframe | split; [cbn; lia | exact Hlen]]. }
  intros Hloop.
  assert (Hprocess : ∀ j a st1 st2,
            process_of (Script d) j a st1 = Some st2 → carried st1 st2).
  { intros j a st1 st2. unfold process_of, dante_runtime_process. cbn.
    destruct (d j a) as [|P' s'] eqn:Hd; [intros [= <-]; apply carried_refl | ].
    destruct (g_browse st1) as [browse'|];
      [ | intros [= <-]; apply carried_refl].
    intros Hnested.
    destruct (IH _ _ _ _ Hd _ _ _ _ Hnested) as (Hf & Hs & Hl).
    split; [exact Hf | split; [exact Hs | intros _; exact Hl]]. }
  destruct (rebuild_loop_carried _ _ _ _ _ _ Hprocess _ Hloop)
    as (Hf & Hs & Hl).
  split; [ | split; [cbn in Hs; lia | exact (Hl Hlen)]].
  destruct Hf as (?&?&?&?&?&?&?&?&?&?&?).
  unfold same_but_snapshot. repeat split; assumption.
Qed.

(** ** The locals of the wait *)

Lemma add_slept_add_slept (a b : Z) (st : state) :
  add_slept a (add_slept b st) = add_slept (b + a) st.
Proof. unfold add_slept. simpl. f_equal. lia. Qed.

Lemma add_slept_zero (st : state) : add_slept 0 st = st.
Proof. destruct st. unfold add_slept. simpl. f_equal. lia. Qed.

(** The state the wait loop reads last is the same whatever the calls of
    [dante_runtime_process] do to the statics. *)
Lemma wait_resolved_locals (process : nat → state → option state)
    (routing_device : dr_device_t) (remaining attempt : nat)
    (state_read : option dr_device_state_t) (st : state) :
  ∀ r st',
    wait_resolved process routing_device remaining attempt state_read st =
      Some (r, st') →
    r = (poll_outcome routing_device remaining attempt state_read).1.
Proof.
  revert attempt state_read st.
  induction remaining as [|remaining IH]; intros attempt state_read st r st';
    cbn [wait_resolved poll_outcome].
  - intros [= <- _]. reflexivity.
  - destruct (is_resolved_or_active _); [intros [= <- _]; reflexivity | ].
    destruct (is_error _); [intros [= <- _]; reflexivity | ].
    destruct (if is_null (g_runtime st) then Some st else process attempt st)
      as [st1|]; [ | discriminate].
    cbn. apply IH.
Qed.

(** So is the text for the address. *)
Lemma resolve_ip_text `{Sdk} (process : nat → state → option state)
    (P : provider) (device_name : string) (st : state) :
  ∀ ip st', resolve_ip process P device_name st = Some (ip, st') →
  ip = (address_outcome P device_name).1.
Proof.
  intros ip st'. unfold resolve_ip, address_outcome.
  destruct (dr_device_open_remote P device_name)
    as [result [routing_device|]];
    [ | intros [= <- _]; reflexivity].
  destruct (result =? AUD_SUCCESS); [ | intros [= <- _]; reflexivity].
  destruct (wait_resolved process routing_device max_wait_attempts 0 None st)
    as [[state_read st1]|] eqn:Hwait; [ | discriminate].
  apply wait_resolved_locals in Hwait.
  destruct (poll_outcome routing_device max_wait_attempts 0 None)
    as [state_read' sleeps].
  cbn in Hwait. subst state_read'. cbn.
  destruct (from_option is_resolved_or_active false state_read);
    [ | intros [= <- _]; reflexivity].
  destruct (dr_device_get_address routing_device) as [addr_result address].
  destruct (addr_result =? AUD_SUCCESS); intros [= <- _]; reflexivity.
Qed.

(** ** The rebuild that is not entered again *)

Lemma poll_outcome_attempt (routing_device : dr_device_t)
    (remaining attempt : nat) (state_read : option dr_device_state_t) :
  (attempt ≤ (poll_outcome routing_device remaining attempt state_read).2
   ≤ attempt + remaining)%nat.
Proof.
  revert attempt state_read.
  induction remaining as [|remaining IH]; intros attempt state_read;
    cbn [poll_outcome].
  - cbn. lia.
  - destruct (is_resolved_or_active _); [cbn; lia | ].
    destruct (is_error _); [cbn; lia | ].
    specialize (IH (S attempt)
                  (Some (dr_device_get_state routing_device attempt))).
    lia.
Qed.

Lemma wait_resolved_undisturbed (process : nat → state → option state)
    (routing_device : dr_device_t) (remaining attempt : nat)
    (state_read : option dr_device_state_t) (st : state) :
  g_runtime st = None ∨ (∀ a st1, process a st1 = Some st1) →
  wait_resolved process routing_device remaining attempt state_read st =
    Some ((poll_outcome routing_device remaining attempt state_read).1,
          add_slept
            (100000 *
             (Z.of_nat
                (poll_outcome routing_device remaining attempt state_read).2 -
              Z.of_nat attempt)) st).
Proof.
  revert attempt state_read st.
  induction remaining as [|remaining IH]; intros attempt state_read st Hquiet;
    cbn [wait_resolved poll_outcome].
  - cbn [fst snd]. rewrite Z.sub_diag, Z.mul_0_r, add_slept_zero.
    reflexivity.
  - destruct (is_resolved_or_active _);
      [cbn [fst snd]; rewrite Z.sub_diag, Z.mul_0_r, add_slept_zero;
       reflexivity | ].
    destruct (is_error _);
      [cbn [fst snd]; rewrite Z.sub_diag, Z.mul_0_r, add_slept_zero;
       reflexivity | ].
    assert (Hcall : (if is_null (g_runtime st) then Some st
                     else process attempt st) = Some st).
    { destruct Hquiet as [-> | Hq]; [reflexivity | ].
      destruct (is_null _); [reflexivity | apply Hq]. }
    rewrite Hcall. cbn [mbind option_bind].
    rewrite IH by (destruct Hquiet as [Hn | Hq]; [left; exact Hn | right; exact Hq]).
    rewrite add_slept_add_slept. do 3 f_equal.
    pose proof (poll_outcome_attempt routing_device remaining (S attempt)
                  (Some (dr_device_get_state routing_device attempt))).
    lia.
Qed.

Lemma resolve_ip_undisturbed `{Sdk} (process : nat → state → option state)
    (P : provider) (device_name : string) (st : state) :
  g_runtime st = None ∨ (∀ a st1, process a st1 = Some st1) →
  resolve_ip process P device_name st =
    Some ((address_outcome P device_name).1,
          add_slept (100000 * Z.of_nat (address_outcome P device_name).2) st).
Proof.
  intros Hquiet. unfold resolve_ip, address_outcome.
  destruct (dr_device_open_remote P device_name)
    as [result [routing_device|]];
    [ | cbn [fst snd]; change (100000 * Z.of_nat 0) with 0;
        now rewrite add_slept_zero].
  destruct (result =? AUD_SUCCESS);
    [ | cbn [fst snd]; change (100000 * Z.of_nat 0) with 0;
        now rewrite add_slept_zero].
  rewrite wait_resolved_undisturbed by exact Hquiet.
  destruct (poll_outcome routing_device max_wait_attempts 0 None)
    as [state_read sleeps].
  cbn [mbind option_bind fst snd]. rewrite Z.sub_0_r.
  destruct (from_option is_resolved_or_active false state_read);
    [ | reflexivity].
  destruct (dr_device_get_address routing_device) as [addr_result address].
  destruct (addr_result =? AUD_SUCCESS); reflexivity.
Qed.

Lemma add_device_undisturbed `{Sdk} (process : nat → state → option state)
    (P : provider) (st : state) (device : db_browse_device_t) :
  g_runtime st = None ∨ (∀ a st1, process a st1 = Some st1) →
  0 ≤ g_device_count st < MAX_DEVICES →
  add_device process P st device = Some (undisturbed_turn P st device).
Proof.
  intros Hquiet Hcount. unfold add_device.
  replace ((0 <=? g_device_count st) && (g_device_count st <? MAX_DEVICES))
    with true
    by (symmetry; apply andb_true_intro; split;
        [apply Z.leb_le | apply Z.ltb_lt]; lia).
  rewrite resolve_ip_undisturbed by exact Hquiet.
  cbn [mbind option_bind]. f_equal.
  unfold undisturbed_turn, built_record, turn_sleeps, set_devices, add_slept.
  cbn. f_equal. rewrite list_alter_alter_eq. reflexivity.
Qed.

Lemma undisturbed_turn_count `{Sdk} (P : provider) (st : state)
    (device : db_browse_device_t) :
  g_device_count (undisturbed_turn P st device) = g_device_count st + 1 ∧
  g_runtime (undisturbed_turn P st device) = g_runtime st.
Proof. split; reflexivity. Qed.

Lemma rebuild_loop_undisturbed `{Sdk}
    (process : nat → nat → state → option state) (P : provider)
    (network : db_browse_network_t) (remaining i : nat) (st : state) :
  g_runtime st = None ∨ (∀ j a st1, process j a st1 = Some st1) →
  0 ≤ g_device_count st ≤ Z.of_nat i →
  (i + remaining ≤ Z.to_nat MAX_DEVICES)%nat →
  rebuild_loop process P network remaining i st =
    Some (foldl (undisturbed_turn P) st
            (omap (db_browse_network_device_at_index network)
               (seq i (db_browse_network_get_num_devices network `min`
                       (i + remaining) - i)))).
Proof.
  revert i st.
  induction remaining as [|remaining IH]; intros i st Hquiet Hcount Hi;
    cbn [rebuild_loop].
  - replace (_ `min` (i + 0) - i)%nat with 0%nat by lia. reflexivity.
  - destruct (Nat.ltb_spec i (db_browse_network_get_num_devices network))
      as [Hlt|Hge].
    + replace (_ `min` (i + S remaining) - i)%nat
        with (S (db_browse_network_get_num_devices network `min`
                 (S i + remaining) - S i)) by lia.
      cbn [seq omap list_omap].
      destruct (db_browse_network_device_at_index network i) as [device|].
      * rewrite add_device_undisturbed;
          [ | destruct Hquiet as [Hn | Hq]; [left; exact Hn | right; apply Hq]
            | unfold MAX_DEVICES in *; lia].
        cbn [mbind option_bind foldl].
        apply IH; [ | | lia].
        -- destruct Hquiet as [Hn | Hq]; [left; exact Hn | right; exact Hq].
        -- destruct (undisturbed_turn_count P st device) as [-> _]. lia.
      * apply IH; [exact Hquiet | lia | lia].
    + replace (_ `min` (i + S remaining) - i)%nat with 0%nat by lia.
      reflexivity.
Qed.

Lemma process_of_quiet `{Sdk} (s : script) :
  quiet s → ∀ j a st1, process_of s j a st1 = Some st1.
Proof. intros Hs j a st1. unfold process_of. now rewrite Hs. Qed.

(** A run of the callback to which nothing is delivered returns, and
    leaves what the loop without the calls of [dante_runtime_process]
    leaves. *)
Lemma callback_undisturbed `{Sdk} (s : script) (P : provider)
    (browse : db_browse_t) (st : state) :
  undisturbed s st →
  browse_network_changed_callback s P browse st =
    Some (undisturbed_rebuild P browse st).
Proof.
  intros Hquiet. rewrite callback_unfold. unfold undisturbed_rebuild.
  destruct (db_browse_get_network P browse) as [network|]; [ | reflexivity].
  rewrite rebuild_loop_undisturbed.
  - unfold delivered. now rewrite Nat.sub_0_r.
  - destruct Hquiet as [Hn | Hs];
      [left; exact Hn | right; now apply process_of_quiet].
  - cbn. lia.
  - lia.
Qed.

(** ** The undisturbed rebuild as a fold over the delivered devices *)

Lemma length_omap_le {A B} (f : A → option B) (l : list A) :
  (length (omap f l) ≤ length l)%nat.
Proof.
  induction l as [|x l IH]; cbn; [lia | ].
  destruct (f x); cbn; lia.
Qed.

Lemma omap_all_some {A B} (f : A → option B) (l : list A) :
  (∀ x, x ∈ l → is_Some (f x)) → length (omap f l) = length l.
Proof.
  induction l as [|x l IH]; intros Hall; cbn; [reflexivity | ].
  destruct (Hall x) as [y Hy]; [left | ]. rewrite Hy. cbn.
  f_equal. apply IH. intros z Hz. apply Hall. now right.
Qed.

(** What a run of undisturbed turns does to the count and to each element:
    the devices fill the elements from the count on, one each, in order. *)
Lemma foldl_undisturbed_turn `{Sdk} (P : provider)
    (devices : list db_browse_device_t) (st : state) :
  0 ≤ g_device_count st →
  let st' := foldl (undisturbed_turn P) st devices in
  g_device_count st' = g_device_count st + Z.of_nat (length devices) ∧
  length (g_discovered_devices st') = length (g_discovered_devices st) ∧
  ∀ j : nat,
    g_discovered_devices st' !! j =
      match (if decide (Z.to_nat (g_device_count st) ≤ j)%nat
             then devices !! (j - Z.to_nat (g_device_count st))%nat
             else None) with
      | Some device =>
          built_record P (Z.of_nat j) device <$>
            g_discovered_devices st !! j
      | None => g_discovered_devices st !! j
      end.
Proof.
  revert st. induction devices as [|device devices IH]; intros st Hc;
    cbn [foldl].
  - cbn [length]. split; [lia | ]. split; [reflexivity | ]. intros j.
    destruct (decide _); [now rewrite lookup_nil | reflexivity].
  - destruct (IH (undisturbed_turn P st device)) as (Hcount & Hlen & Hslot);
      [cbn; lia | ].
    cbv zeta. rewrite Hcount, Hlen.
    unfold undisturbed_turn at 1 2. cbn [g_device_count g_discovered_devices
      set_devices add_slept length].
    rewrite length_alter.
    split; [lia | ]. split; [reflexivity | ]. intros j. rewrite Hslot.
    unfold undisturbed_turn. cbn [g_device_count g_discovered_devices
      set_devices add_slept].
    replace (Z.to_nat (g_device_count st + 1))
      with (S (Z.to_nat (g_device_count st))) by lia.
    set (c := Z.to_nat (g_device_count st)).
    destruct (decide (S c ≤ j)%nat) as [Hj|Hj].
    + rewrite decide_True by lia.
      replace (j - c)%nat with (S (j - S c)) by lia. cbn [lookup list_lookup].
      rewrite list_lookup_alter_ne by lia. reflexivity.
    + destruct (decide (c ≤ j)%nat) as [Hcj|Hcj].
      * assert (j = c) as -> by lia. rewrite Nat.sub_diag.
        cbn [lookup list_lookup].
        rewrite list_lookup_alter_eq. subst c.
        now rewrite Z2Nat.id by lia.
      * now rewrite list_lookup_alter_ne by lia.
Qed.

Lemma delivered_length (network : db_browse_network_t) :
  (length (delivered network) ≤
   db_browse_network_get_num_devices network `min` Z.to_nat MAX_DEVICES)%nat.
Proof.
  unfold delivered.
  etransitivity; [apply length_omap_le | ]. now rewrite length_seq.
Qed.

Lemma undisturbed_rebuild_records `{Sdk} (P : provider) (browse : db_browse_t)
    (network : db_browse_network_t) (st : state) :
  db_browse_get_network P browse = Some network →
  let st' := undisturbed_rebuild P browse st in
  g_device_count st' = Z.of_nat (length (delivered network)) ∧
  length (g_discovered_devices st') = Z.to_nat MAX_DEVICES ∧
  (∀ k device, delivered network !! k = Some device →
     g_discovered_devices st' !! k =
       Some (built_record P (Z.of_nat k) device zeroed_info)) ∧
  (∀ k, (length (delivered network) ≤ k < Z.to_nat MAX_DEVICES)%nat →
     g_discovered_devices st' !! k = Some zeroed_info).
Proof.
  intros Hnet st'. subst st'. unfold undisturbed_rebuild. rewrite Hnet.
  destruct (foldl_undisturbed_turn P (delivered network)
              (set_devices zeroed_table 0 st)) as (Hcount & Hlen & Hslot);
    [cbn; lia | ].
  cbn [g_device_count g_discovered_devices set_devices] in Hcount, Hlen, Hslot.
  pose proof (delivered_length network) as Hle.
  split; [lia | ]. split; [rewrite Hlen; reflexivity | ].
  split.
  - intros k device Hk. rewrite Hslot. change (Z.to_nat 0) with 0%nat.
    rewrite decide_True by lia.
    rewrite Nat.sub_0_r, Hk.
    apply lookup_lt_Some in Hk.
    unfold zeroed_table. rewrite lookup_replicate_2 by lia. reflexivity.
  - intros k Hk. rewrite Hslot. change (Z.to_nat 0) with 0%nat.
    rewrite decide_True by lia.
    rewrite Nat.sub_0_r, (lookup_ge_None_2 (delivered network)) by lia.
    apply lookup_replicate_2. lia.
Qed.

(** The table a rebuild to which nothing is delivered leaves: the rebuild
    returns, the k-th delivered device is the record of element k, built on
    a zeroed element, and the elements after the last delivered device are
    zeroed. *)
Lemma rebuild_records `{Sdk} (s : script) (P : provider) (browse : db_browse_t)
    (network : db_browse_network_t) (st : state) :
  db_browse_get_network P browse = Some network →
  undisturbed s st →
  ∃ st',
    browse_network_changed_callback s P browse st = Some st' ∧
    g_device_count st' = Z.of_nat (length (delivered network)) ∧
    length (g_discovered_devices st') = Z.to_nat MAX_DEVICES ∧
    (∀ k device, delivered network !! k = Some device →
       g_discovered_devices st' !! k =
         Some (built_record P (Z.of_nat k) device zeroed_info)) ∧
    (∀ k, (length (delivered network) ≤ k < Z.to_nat MAX_DEVICES)%nat →
       g_discovered_devices st' !! k = Some zeroed_info).
Proof.
  intros Hnet Hquiet. exists (undisturbed_rebuild P browse st).
  split; [now apply callback_undisturbed | ].
  now apply undisturbed_rebuild_records.
Qed.

Lemma callback_no_network `{Sdk} (s : script) (P : provider)
    (browse : db_browse_t) (st : state) :
  db_browse_get_network P browse = None →
  browse_network_changed_callback s P browse st =
    Some (set_devices zeroed_table 0 st).
Proof. intros Hnet. rewrite callback_unfold, Hnet. reflexivity. Qed.

Lemma rebuild_table_ok `{Sdk} (s : script) (P : provider)
    (browse : db_browse_t) (st : state) :
  undisturbed s st →
  ∃ st', browse_network_changed_callback s P browse st = Some st' ∧
         table_ok st'.
Proof.
  intros Hquiet.
  destruct (db_browse_get_network P browse) as [network|] eqn:Hnet.
  - destruct (rebuild_records s P browse network st Hnet Hquiet)
      as (st' & Hrun & Hc & Hl & _).
    exists st'. split; [exact Hrun | ].
    pose proof (delivered_length network). split; [exact Hl | ].
    rewrite Hc. unfold MAX_DEVICES in *. lia.
  - eexists. split; [now apply callback_no_network | ].
    split; [reflexivity | cbn; unfold MAX_DEVICES; lia].
Qed.

Lemma quiet_script_quiet : quiet quiet_script.
Proof. intros i attempt. reflexivity. Qed.

Lemma undisturbed_quiet_script (st : state) : undisturbed quiet_script st.
Proof. right. exact quiet_script_quiet. Qed.

(** ** The number of records after a rebuild *)

(** [gap_provider] reports two devices and hands out NULL for the first:
    the rebuild, to which nothing is delivered, ends with one record, not
    two. *)
Lemma null_handle_lowers_count :
  db_browse_network_get_num_devices (network_of [None; Some full_device]) =
    2%nat ∧
  g_device_count <$>
    @browse_network_changed_callback sdk_le quiet_script gap_provider 7%nat
      initialised_state = Some 1 ∧
  ¬ @count_is_capped_number sdk_le quiet_script gap_provider 7%nat
      initialised_state.
Proof.
  split; [reflexivity | ]. split; [vm_compute; reflexivity | ].
  intros Hclaim.
  destruct (@browse_network_changed_callback sdk_le quiet_script gap_provider
              7%nat initialised_state) as [st'|] eqn:Hrun;
    [ | vm_compute in Hrun; discriminate].
  specialize (Hclaim (network_of [None; Some full_device]) st' eq_refl Hrun).
  assert (Hcount : g_device_count <$> Some st' = Some 1).
  { rewrite <- Hrun. vm_compute. reflexivity. }
  injection Hcount as Hcount. rewrite Hcount in Hclaim.
  clear Hrun. vm_compute in Hclaim. discriminate Hclaim.
Qed.

(** A change of the network delivered while the first of four devices
    waits for its address: the nested run builds the four records, the
    outer run goes on from the count it finds and ends with a count of
    eight. *)
Example reentered_rebuild_count :
  g_device_count <$>
    @browse_network_changed_callback sdk_le (deliver_first stage_provider)
      stage_provider 7%nat scanning_state = Some 8 ∧
  ¬ @count_is_capped_number sdk_le (deliver_first stage_provider)
      stage_provider 7%nat scanning_state.
Proof.
  split; [vm_compute; reflexivity | ].
  intros Hclaim.
  destruct (@browse_network_changed_callback sdk_le
              (deliver_first stage_provider) stage_provider 7%nat
              scanning_state) as [st'|] eqn:Hrun;
    [ | vm_compute in Hrun; discriminate].
  specialize (Hclaim _ st' eq_refl Hrun).
  assert (Hcount : g_device_count <$> Some st' = Some 8).
  { rewrite <- Hrun. vm_compute. reflexivity. }
  injection Hcount as Hcount. rewrite Hcount in Hclaim.
  clear Hrun. vm_compute in Hclaim. discriminate Hclaim.
Qed.

(** With more devices the outer run is carried past the table.  Thirty-two
    devices, the last of which waits while the change is delivered: the
    nested run ends with a count of 32, the outer run writes into element
    31 and counts once more, to 33, above [MAX_DEVICES].  Seventeen
    devices, the first of which waits: the outer run goes on from a count
    of 18 and reaches element 32, beyond the end of the array. *)
Example reentered_rebuild_bounds :
  let crowd32 :=
    provider_of (replicate 31 (Some bare_device) ++ [Some full_device])
      remote_by_name (local_device 10) in
  let crowd17 :=
    provider_of (Some full_device :: replicate 16 (Some bare_device))
      remote_by_name (local_device 10) in
  g_device_count <$>
    @browse_network_changed_callback sdk_le
      (Script (λ i attempt,
                 if (i =? 31)%nat && (attempt =? 0)%nat
                 then Deliver crowd32 quiet_script else Quiet))
      crowd32 7%nat scanning_state = Some 33 ∧
  @browse_network_changed_callback sdk_le (deliver_first crowd17) crowd17
    7%nat scanning_state = None.
Proof. split; vm_compute; reflexivity. Qed.

(** C2, as the code has it.  A rebuild to which no change of the network is
    delivered while it waits for an address returns, and its count is the
    number of handles that are not NULL among the first [MAX_DEVICES]
    indices below the reported number N; it is at most N and at most 32,
    and when none of those handles is NULL it is N for N up to 32 and 32
    beyond, the devices after the 32nd being dropped. *)
Theorem rebuild_count `{Sdk} (s : script) (P : provider) (browse : db_browse_t)
    (network : db_browse_network_t) (st : state) :
  db_browse_get_network P browse = Some network →
  undisturbed s st →
  let N := db_browse_network_get_num_devices network in
  ∃ st',
    browse_network_changed_callback s P browse st = Some st' ∧
    let count := g_device_count st' in
    count = Z.of_nat (length (delivered network)) ∧
    count ≤ Z.of_nat N ∧ count ≤ MAX_DEVICES ∧
    ((∀ i, (i < N)%nat → Z.of_nat i < MAX_DEVICES →
        db_browse_network_device_at_index network i ≠ None) →
     (Z.of_nat N ≤ MAX_DEVICES → count = Z.of_nat N) ∧
     (MAX_DEVICES < Z.of_nat N → count = MAX_DEVICES)).
Proof.
  intros Hnet Hquiet N.
  destruct (rebuild_records s P browse network st Hnet Hquiet)
    as (st' & Hrun & Hcount & _).
  exists st'. split; [exact Hrun | ]. intros count.
  fold count in Hcount. pose proof (delivered_length network) as Hle.
  fold N in Hle. unfold MAX_DEVICES in *.
  split; [exact Hcount | ]. split; [lia | ]. split; [lia | ].
  intros Hall.
  assert (Hfull : length (delivered network) = (N `min` 32)%nat).
  { unfold delivered. rewrite omap_all_some; [apply length_seq | ].
    intros i Hi. apply elem_of_seq in Hi.
    change (Z.to_nat MAX_DEVICES) with 32%nat in Hi.
    destruct (db_browse_network_device_at_index network i) eqn:Hdev;
      [eauto | ].
    exfalso. apply (Hall i); [lia | lia | exact Hdev]. }
  lia.
Qed.

Lemma rebuild_count_witness :
  ∃ st',
    @browse_network_changed_callback sdk_le quiet_script stage_provider 7%nat
      initialised_state = Some st' ∧
    g_device_count st' = 4.
Proof.
  destruct (@rebuild_count sdk_le quiet_script stage_provider 7%nat
              (network_of [Some full_device; Some id_device;
                           Some named_device; Some bare_device])
              initialised_state eq_refl
              (or_intror (λ _ _, eq_refl)))
    as (st' & Hrun & Hcount & _).
  exists st'. split; [exact Hrun | ]. rewrite Hcount. reflexivity.
Defined.

(** ** The model of a record *)

Lemma model_field_by_priority `{Sdk} (device : db_browse_device_t) :
  model_by_priority device (model_field device).
Proof.
  unfold model_by_priority, model_field, model_without_router_info. split.
  - intros router_info -> Hne.
    destruct router_info; [contradiction | reflexivity].
  - intros Hrouter.
    assert (Hskip :
      match db_browse_device_get_router_info device with
      | Some router_info =>
          if (0 <? String.length router_info)%nat
          then snprintf 64 router_info
          else model_without_router_info device
      | None => model_without_router_info device
      end = model_without_router_info device).
    { destruct Hrouter as [-> | ->]; reflexivity. }
    unfold model_without_router_info in Hskip. rewrite Hskip. split.
    + intros mf_id model_id -> ->. reflexivity.
    + intros Hid. split.
      * intros default_name ->.
        destruct Hid as [-> | ->];
          [ | destruct (db_browse_device_get_manufacturer_id device)];
          reflexivity.
      * intros ->.
        destruct Hid as [-> | ->];
          [ | destruct (db_browse_device_get_manufacturer_id device)];
          reflexivity.
Qed.

(** C1.  The model a turn of the loop writes into the record of a device
    is taken from the first of these that applies, each text being stored
    by [snprintf] in the 64 bytes of the field: the router information
    when it is there and not empty; else the DNS-SD texts of the
    manufacturer and model identifiers joined by a hyphen when both are
    there; else the default name when it is there; else
    ["Unknown Model"].  The write of the address leaves it as it is, and
    after a rebuild to which no change of the network is delivered it is
    the model of the record of the device, for every delivered device. *)
Theorem rebuild_model_priority `{Sdk} (s : script) (P : provider)
    (browse : db_browse_t) (network : db_browse_network_t) (st : state)
    (k : nat) (device : db_browse_device_t) :
  db_browse_get_network P browse = Some network →
  delivered network !! k = Some device →
  (∀ count info,
     model_by_priority device (model (write_metadata count device info))) ∧
  (∀ ip info, model (write_address ip info) = model info) ∧
  (undisturbed s st →
   ∃ st' record,
     browse_network_changed_callback s P browse st = Some st' ∧
     g_discovered_devices st' !! k = Some record ∧
     model_by_priority device (model record)).
Proof.
  intros Hnet Hk.
  split; [intros count info; apply model_field_by_priority | ].
  split; [reflexivity | ].
  intros Hquiet.
  destruct (rebuild_records s P browse network st Hnet Hquiet)
    as (st' & Hrun & _ & _ & Hrec & _).
  exists st'. eexists. split; [exact Hrun | ].
  split; [apply (Hrec k device Hk) | ].
  apply model_field_by_priority.
Qed.

Lemma rebuild_model_priority_witness :
  ∃ st' record,
    @browse_network_changed_callback sdk_le quiet_script stage_provider 7%nat
      initialised_state = Some st' ∧
    g_discovered_devices st' !! 1%nat = Some record ∧
    model record = "AABB-CCDD".
Proof.
  destruct (@rebuild_model_priority sdk_le quiet_script stage_provider 7%nat
              (network_of [Some full_device; Some id_device;
                           Some named_device; Some bare_device])
              initialised_state 1 id_device eq_refl eq_refl)
    as (_ & _ & Hrebuild).
  destruct (Hrebuild (or_intror (λ _ _, eq_refl)))
    as (st' & record & Hrun & Hrecord & _ & Hrest).
  exists st', record. split; [exact Hrun | ]. split; [exact Hrecord | ].
  destruct (Hrest (or_introl eq_refl)) as (Hids & _).
  exact (Hids [170; 187] [204; 221] eq_refl eq_refl).
Defined.

(** The four cases of the spec's example: a router information
    ["ULTIMOX4"] wins over everything else; without it the identifiers
    AABB and CCDD give ["AABB-CCDD"]; with neither, the default name
    ["Foo"]; with nothing, ["Unknown Model"]. *)
Example model_field_examples :
  @model_field sdk_le full_device = "ULTIMOX4" ∧
  @model_field sdk_le id_device = "AABB-CCDD" ∧
  @model_field sdk_le named_device = "Foo" ∧
  @model_field sdk_le bare_device = "Unknown Model".
Proof. repeat split. Qed.

(** ** Resolving the address of a device *)

Lemma is_error_eq (state : dr_device_state_t) :
  is_error state = true → state = DR_DEVICE_STATE_ERROR.
Proof. destruct state; simpl; congruence. Qed.

(** The first poll that sees the device settled ends the wait, with one
    sleep behind every earlier poll. *)
Lemma poll_outcome_first (routing_device : dr_device_t)
    (k remaining attempt : nat) (init : option dr_device_state_t) :
  (k < remaining)%nat →
  settled (dr_device_get_state routing_device (attempt + k)) = true →
  (∀ j, (j < k)%nat →
     settled (dr_device_get_state routing_device (attempt + j)) = false) →
  poll_outcome routing_device remaining attempt init =
    (Some (dr_device_get_state routing_device (attempt + k)),
     (attempt + k)%nat).
Proof.
  revert remaining attempt init.
  induction k as [|k IH]; intros remaining attempt init Hk Hat Hbefore;
    destruct remaining as [|remaining]; try lia; simpl.
  - rewrite Nat.add_0_r in *. unfold settled in Hat.
    destruct (is_resolved_or_active _); [reflexivity | ].
    simpl in Hat. now rewrite Hat.
  - pose proof (Hbefore 0%nat ltac:(lia)) as H0.
    rewrite Nat.add_0_r in H0. unfold settled in H0.
    apply orb_false_iff in H0 as [-> ->].
    replace (attempt + S k)%nat with (S attempt + k)%nat by lia.
    apply IH; [lia | | ].
    + now replace (S attempt + k)%nat with (attempt + S k)%nat by lia.
    + intros j Hj. replace (S attempt + j)%nat with (attempt + S j)%nat by lia.
      apply Hbefore. lia.
Qed.

(** While no poll sees the device resolved or active, the wait does not end
    on a resolved or active state; if none sees it in error either, the
    wait goes through all the polls, with a sleep after each. *)
Lemma poll_outcome_never (routing_device : dr_device_t)
    (remaining attempt : nat) (init : option dr_device_state_t) :
  from_option is_resolved_or_active false init = false →
  (∀ j, (j < remaining)%nat →
     is_resolved_or_active
       (dr_device_get_state routing_device (attempt + j)) = false) →
  from_option is_resolved_or_active false
    (poll_outcome routing_device remaining attempt init).1 = false ∧
  ((∀ j, (j < remaining)%nat →
      is_error (dr_device_get_state routing_device (attempt + j)) = false) →
   (poll_outcome routing_device remaining attempt init).2 =
     (attempt + remaining)%nat).
Proof.
  revert attempt init.
  induction remaining as [|remaining IH]; intros attempt init Hinit Hnever;
    simpl.
  - split; [exact Hinit | intros _; lia].
  - pose proof (Hnever 0%nat ltac:(lia)) as H0.
    rewrite Nat.add_0_r in H0. rewrite H0.
    destruct (is_error (dr_device_get_state routing_device attempt)) eqn:He.
    + simpl. split; [exact H0 | ]. intros Hno.
      specialize (Hno 0%nat ltac:(lia)). rewrite Nat.add_0_r in Hno.
      congruence.
    + destruct (IH (S attempt)
                  (Some (dr_device_get_state routing_device attempt)) H0)
        as [Hstate Hsleeps].
      { intros j Hj.
        replace (S attempt + j)%nat with (attempt + S j)%nat by lia.
        apply Hnever. lia. }
      split; [exact Hstate | ]. intros Hno. rewrite Hsleeps; [lia | ].
      intros j Hj.
      replace (S attempt + j)%nat with (attempt + S j)%nat by lia.
      apply Hno. lia.
Qed.

(** An error seen before any resolved or active state ends the wait in the
    error state, at the poll that saw it or earlier. *)
Lemma poll_outcome_error (routing_device : dr_device_t)
    (k remaining attempt : nat) (init : option dr_device_state_t) :
  (k < remaining)%nat →
  dr_device_get_state routing_device (attempt + k) = DR_DEVICE_STATE_ERROR →
  (∀ j, (j < k)%nat →
     is_resolved_or_active
       (dr_device_get_state routing_device (attempt + j)) = false) →
  ∃ sleeps,
    poll_outcome routing_device remaining attempt init =
      (Some DR_DEVICE_STATE_ERROR, sleeps) ∧
    (sleeps ≤ attempt + k < attempt + remaining)%nat.
Proof.
  revert remaining attempt init.
  induction k as [|k IH]; intros remaining attempt init Hk Hat Hbefore;
    destruct remaining as [|remaining]; try lia; simpl.
  - rewrite Nat.add_0_r in *. rewrite Hat. simpl. eexists.
    split; [reflexivity | lia].
  - pose proof (Hbefore 0%nat ltac:(lia)) as H0.
    rewrite Nat.add_0_r in H0. rewrite H0.
    destruct (is_error (dr_device_get_state routing_device attempt)) eqn:He.
    + apply is_error_eq in He. rewrite He. eexists.
      split; [reflexivity | lia].
    + destruct (IH remaining (S attempt)
                  (Some (dr_device_get_state routing_device attempt)))
        as (sleeps & Hwait & Hsleeps); [lia | | | ].
      * now replace (S attempt + k)%nat with (attempt + S k)%nat by lia.
      * intros j Hj.
        replace (S attempt + j)%nat with (attempt + S j)%nat by lia.
        apply Hbefore. lia.
      * exists sleeps. split; [exact Hwait | lia].
Qed.


(** The sleeps of one wait: at most 30; none when the connection cannot be
    opened; no more than the polls before an error; all 30 when no poll
    sees the device settled. *)
Lemma address_outcome_sleeps `{Sdk} (P : provider) (name : string) :
  ((address_outcome P name).2 ≤ 30)%nat ∧
  (cannot_open P name → (address_outcome P name).2 = 0%nat) ∧
  (∀ routing_device k,
     dr_device_open_remote P name = (AUD_SUCCESS, Some routing_device) →
     (k < max_wait_attempts)%nat →
     dr_device_get_state routing_device k = DR_DEVICE_STATE_ERROR →
     (∀ j, (j < k)%nat →
        is_resolved_or_active (dr_device_get_state routing_device j) =
          false) →
     ((address_outcome P name).2 ≤ k)%nat) ∧
  (∀ routing_device,
     dr_device_open_remote P name = (AUD_SUCCESS, Some routing_device) →
     (∀ j, (j < max_wait_attempts)%nat →
        settled (dr_device_get_state routing_device j) = false) →
     (address_outcome P name).2 = 30%nat).
Proof.
  unfold address_outcome. split; [ | split; [ | split]].
  - destruct (dr_device_open_remote P name) as [result [routing_device|]];
      [ | cbn; lia].
    destruct (result =? AUD_SUCCESS); [ | cbn; lia].
    pose proof (poll_outcome_attempt routing_device max_wait_attempts 0 None)
      as Hle.
    destruct (poll_outcome routing_device max_wait_attempts 0 None)
      as [state sleeps].
    cbn in Hle. unfold max_wait_attempts in Hle.
    destruct (from_option is_resolved_or_active false state); [ | cbn; lia].
    destruct (dr_device_get_address routing_device) as [addr_result address].
    destruct (addr_result =? AUD_SUCCESS); cbn; lia.
  - unfold cannot_open.
    destruct (dr_device_open_remote P name) as [result [routing_device|]];
      cbn; [ | reflexivity].
    intros [Hne | [=]]. apply Z.eqb_neq in Hne. now rewrite Hne.
  - intros routing_device k Hopen Hk Hat Hbefore.
    rewrite Hopen, Z.eqb_refl.
    destruct (poll_outcome_error routing_device k max_wait_attempts 0 None
                Hk Hat Hbefore) as (sleeps & -> & Hsleeps).
    cbn. lia.
  - intros routing_device Hopen Hnever.
    rewrite Hopen, Z.eqb_refl.
    destruct (poll_outcome_never routing_device max_wait_attempts 0 None
                eq_refl) as [Hstate Hsleeps].
    { intros j Hj. specialize (Hnever j Hj). unfold settled in Hnever.
      apply orb_false_iff in Hnever as [Hr _]. exact Hr. }
    rewrite Nat.add_0_l in Hsleeps.
    destruct (poll_outcome routing_device max_wait_attempts 0 None)
      as [state sleeps].
    cbn in Hstate, Hsleeps. rewrite Hstate. cbn. apply Hsleeps.
    intros j Hj. specialize (Hnever j Hj). unfold settled in Hnever.
    apply orb_false_iff in Hnever as [_ He]. exact He.
Qed.




(** The other two failures, on the same provider: the device in the booth
    is seen in error at the third poll, and no connection to the unnamed
    device can be opened. *)
Example resolution_fails_examples :
  enters_error (H := sdk_le) stage_provider "Booth" ∧
  cannot_open (H := sdk_le) stage_provider "Unknown Device 4" ∧
  @address_outcome sdk_le stage_provider "Booth" = ("0.0.0.0", 2%nat) ∧
  @address_outcome sdk_le stage_provider "Unknown Device 4" =
    ("0.0.0.0", 0%nat) ∧
  @address_outcome sdk_le stage_provider "Stage-Right" = ("0.0.0.0", 30%nat).
Proof.
  split; [ | split; [ | repeat split]].
  - exists (failing_connection 2), 2%nat.
    split; [reflexivity | ]. split; [unfold max_wait_attempts; lia | ].
    split; [reflexivity | ].
    intros [|[|j]] Hj; [reflexivity | reflexivity | lia].
  - left. vm_compute. discriminate.
Qed.

(** ** The text of an address *)

Lemma land_255_range (x : Z) : 0 ≤ Z.land x 255 < 256.
Proof.
  change 255 with (Z.ones 8). rewrite Z.land_ones by lia.
  apply Z.mod_pos_bound. lia.
Qed.

Lemma octet_numerals_checked :
  forallb (λ n, (String.length (fmt_u (Z.of_nat n)) <=? 3)%nat)
    (seq 0 256) = true.
Proof. vm_compute. reflexivity. Qed.

(** An octet prints in at most three digits. *)
Lemma octet_numeral_short (o : Z) :
  0 ≤ o < 256 → (String.length (fmt_u o) ≤ 3)%nat.
Proof.
  intros Ho. pose proof octet_numerals_checked as Hall.
  rewrite List.forallb_forall in Hall.
  specialize (Hall (Z.to_nat o)). rewrite Z2Nat.id in Hall by lia.
  apply Nat.leb_le, Hall, List.in_seq. lia.
Qed.

(** The four numerals and three dots fit the 16 bytes of [ip_address]. *)
Lemma format_ip_fits (ip_addr : Z) :
  snprintf 16 (format_ip ip_addr) = format_ip ip_addr.
Proof.
  apply snprintf_fits. unfold format_ip.
  pose proof (octet_numeral_short _ (land_255_range (Z.shiftr ip_addr 24))).
  pose proof (octet_numeral_short _ (land_255_range (Z.shiftr ip_addr 16))).
  pose proof (octet_numeral_short _ (land_255_range (Z.shiftr ip_addr 8))).
  pose proof (octet_numeral_short _ (land_255_range ip_addr)).
  generalize dependent (fmt_u (Z.land (Z.shiftr ip_addr 24) 255)).
  generalize dependent (fmt_u (Z.land (Z.shiftr ip_addr 16) 255)).
  generalize dependent (fmt_u (Z.land (Z.shiftr ip_addr 8) 255)).
  generalize dependent (fmt_u (Z.land ip_addr 255)).
  intros s0 H0 s1 H1 s2 H2 s3 H3.
  repeat rewrite length_string_app.
  change (String.length ".") with 1%nat. lia.
Qed.

(** The four octets printed are the digits of the value in base 256, the
    most significant first. *)
Lemma octets_of_uint32 (v : Z) :
  0 ≤ v < 2 ^ 32 →
  v = Z.land (Z.shiftr v 24) 255 * 2 ^ 24 +
      Z.land (Z.shiftr v 16) 255 * 2 ^ 16 +
      Z.land (Z.shiftr v 8) 255 * 2 ^ 8 +
      Z.land v 255.
Proof.
  intros Hv. change 255 with (Z.ones 8).
  rewrite !Z.land_ones, !Z.shiftr_div_pow2 by lia.
  change (2 ^ 8) with 256. change (2 ^ 16) with 65536.
  change (2 ^ 24) with 16777216. change (2 ^ 32) with 4294967296 in Hv.
  Z.div_mod_to_equations. lia.
Qed.

(** A device first seen resolved or active at poll [attempt], after polls
    that all saw it resolving, and whose address is read: the text is that
    of the address, after [attempt] sleeps. *)
Lemma address_outcome_resolved `{Sdk} (P : provider) (name : string)
    (routing_device : dr_device_t) (attempt : nat)
    (device_address : dante_ipv4_address_t) :
  dr_device_open_remote P name = (AUD_SUCCESS, Some routing_device) →
  (attempt < max_wait_attempts)%nat →
  is_resolved_or_active (dr_device_get_state routing_device attempt) = true →
  (∀ j, (j < attempt)%nat →
     dr_device_get_state routing_device j = DR_DEVICE_STATE_RESOLVING) →
  dr_device_get_address routing_device = (AUD_SUCCESS, device_address) →
  address_outcome P name =
    (format_ip (ntohl (host device_address)), attempt).
Proof.
  intros Hopen Hattempt Hat Hbefore Haddr. unfold address_outcome.
  rewrite Hopen, Z.eqb_refl.
  rewrite (poll_outcome_first routing_device attempt max_wait_attempts 0
             None Hattempt).
  - cbn [from_option Nat.add]. rewrite Hat, Haddr, Z.eqb_refl, format_ip_fits.
    reflexivity.
  - cbn [Nat.add]. unfold settled. now rewrite Hat.
  - intros j Hj. cbn [Nat.add]. now rewrite (Hbefore j Hj).
Qed.

Lemma process_of_carried `{Sdk} (s : script) (i attempt : nat)
    (st1 st2 : state) :
  process_of s i attempt st1 = Some st2 → carried st1 st2.
Proof.
  unfold process_of, dante_runtime_process.
  destruct (deliveries s i attempt) as [|P' s'];
    [intros [= <-]; apply carried_refl | ].
  destruct (g_browse st1) as [browse'|];
    [ | intros [= <-]; apply carried_refl].
  intros Hnested.
  destruct (callback_carried _ _ _ _ _ Hnested) as (Hf & Hs & Hl).
  split; [exact Hf | split; [exact Hs | intros _; exact Hl]].
Qed.

(** What a turn of the loop that returns has written through [info],
    whatever was delivered while it waited: the element at the count found
    on entry holds the text of the address. *)
Lemma add_device_address `{Sdk} (s : script) (i : nat) (P : provider)
    (st st' : state) (device : db_browse_device_t) :
  length (g_discovered_devices st) = Z.to_nat MAX_DEVICES →
  add_device (process_of s i) P st device = Some st' →
  ∃ record,
    g_discovered_devices st' !! Z.to_nat (g_device_count st) = Some record ∧
    ip_address record =
      (address_outcome P (name_field (g_device_count st + 1) device)).1 ∧
    link_speed record = -1.
Proof.
  intros Hlen. unfold add_device.
  destruct ((0 <=? g_device_count st) && (g_device_count st <? MAX_DEVICES))
    eqn:Hrange; [ | discriminate].
  apply andb_prop in Hrange as [Hlo Hhi].
  apply Z.leb_le in Hlo. apply Z.ltb_lt in Hhi.
  destruct (resolve_ip _ _ _ _) as [[ip st1]|] eqn:Hresolve;
    [ | discriminate].
  cbn [mbind option_bind]. intros [= <-].
  pose proof (resolve_ip_text _ _ _ _ _ _ Hresolve) as ->.
  destruct (resolve_ip_carried _ _ _ _ (process_of_carried s i) _ _ Hresolve)
    as (_ & _ & Hkeep).
  cbn [g_discovered_devices set_devices] in Hkeep.
  rewrite length_alter in Hkeep. specialize (Hkeep Hlen).
  cbn [g_discovered_devices set_devices].
  rewrite list_lookup_alter_eq.
  destruct (lookup_lt_is_Some_2 (g_discovered_devices st1)
              (Z.to_nat (g_device_count st))) as [record Hrecord];
    [unfold MAX_DEVICES in *; lia | ].
  rewrite Hrecord. eexists. split; [reflexivity | ]. split; reflexivity.
Qed.

(** C8.  When the address of a device is read (the connection opens, the
    device is first seen resolved or active within the 30 polls, and the
    read succeeds), the text for the address of its record is that of the
    host-order value v, here [ntohl] of the field read: the decimal
    numerals of (v>>24)&0xFF, (v>>16)&0xFF, (v>>8)&0xFF and v&0xFF joined by
    dots, none cut by the 16 bytes of the field.  The wait gives this text
    whatever is delivered during it, the turn of the loop writes it into
    the element it points to, and after a rebuild to which no change of
    the network is delivered it is the address in the record of the
    device.  Each of the four numbers is an octet, and for a 32-bit v they
    are its bytes, the most significant first. *)
Theorem resolved_address_is_dotted_quad `{Sdk} (P : provider)
    (device_name : string) (routing_device : dr_device_t)
    (attempt : nat) (device_address : dante_ipv4_address_t) :
  dr_device_open_remote P device_name = (AUD_SUCCESS, Some routing_device) →
  (attempt < max_wait_attempts)%nat →
  is_resolved_or_active (dr_device_get_state routing_device attempt) = true →
  (∀ j, (j < attempt)%nat →
     dr_device_get_state routing_device j = DR_DEVICE_STATE_RESOLVING) →
  dr_device_get_address routing_device = (AUD_SUCCESS, device_address) →
  let v := ntohl (host device_address) in
  let b3 := Z.land (Z.shiftr v 24) 255 in
  let b2 := Z.land (Z.shiftr v 16) 255 in
  let b1 := Z.land (Z.shiftr v 8) 255 in
  let b0 := Z.land v 255 in
  let text :=
    fmt_u b3 +:+ "." +:+ fmt_u b2 +:+ "." +:+ fmt_u b1 +:+ "." +:+ fmt_u b0 in
  (∀ process st ip st',
     resolve_ip process P device_name st = Some (ip, st') → ip = text) ∧
  (∀ s i st device st',
     name_field (g_device_count st + 1) device = device_name →
     length (g_discovered_devices st) = Z.to_nat MAX_DEVICES →
     add_device (process_of s i) P st device = Some st' →
     ∃ record,
       g_discovered_devices st' !! Z.to_nat (g_device_count st) =
         Some record ∧
       ip_address record = text) ∧
  (∀ s browse network st k device,
     db_browse_get_network P browse = Some network →
     delivered network !! k = Some device →
     name_field (Z.of_nat k + 1) device = device_name →
     undisturbed s st →
     ∃ st' record,
       browse_network_changed_callback s P browse st = Some st' ∧
       g_discovered_devices st' !! k = Some record ∧
       ip_address record = text) ∧
  (0 ≤ b3 < 256 ∧ 0 ≤ b2 < 256 ∧ 0 ≤ b1 < 256 ∧ 0 ≤ b0 < 256) ∧
  (0 ≤ v < 2 ^ 32 → v = b3 * 2 ^ 24 + b2 * 2 ^ 16 + b1 * 2 ^ 8 + b0).
Proof.
  intros Hopen Hattempt Hat Hbefore Haddr v b3 b2 b1 b0 text.
  pose proof (address_outcome_resolved P _ routing_device attempt
                device_address Hopen Hattempt Hat Hbefore Haddr) as Hout.
  assert (Htext : (address_outcome P device_name).1 = text).
  { rewrite Hout. reflexivity. }
  clear Hout.
  split; [ | split; [ | split; [ | split]]].
  - intros process st ip st' Hresolve.
    rewrite (resolve_ip_text _ _ _ _ _ _ Hresolve). exact Htext.
  - intros s i st device st' Hname Hlen Hturn.
    destruct (add_device_address s i P st st' device Hlen Hturn)
      as (record & Hrecord & Hip & _).
    exists record. split; [exact Hrecord | ].
    rewrite Hip, Hname. exact Htext.
  - intros s browse network st k device Hnet Hk Hname Hquiet.
    destruct (rebuild_records s P browse network st Hnet Hquiet)
      as (st' & Hrun & _ & _ & Hrec & _).
    exists st'. eexists. split; [exact Hrun | ].
    split; [apply (Hrec k device Hk) | ].
    unfold built_record. cbn [ip_address write_address].
    rewrite Hname. exact Htext.
  - subst b3 b2 b1 b0. repeat split; apply land_255_range.
  - apply octets_of_uint32.
Qed.

Lemma resolved_address_is_dotted_quad_witness :
  ∃ st' record,
    @browse_network_changed_callback sdk_le quiet_script stage_provider 7%nat
      initialised_state = Some st' ∧
    g_discovered_devices st' !! 0%nat = Some record ∧
    ip_address record = "10.0.0.5".
Proof.
  destruct (@resolved_address_is_dotted_quad sdk_le stage_provider
              "Stage-Left" (resolving_connection 3) 3
              {| host := 83886090; port := 0 |} eq_refl)
    as (_ & _ & Hrebuild & _).
  - unfold max_wait_attempts. lia.
  - reflexivity.
  - intros [|[|[|j]]] Hj; [reflexivity | reflexivity | reflexivity | lia].
  - reflexivity.
  - destruct (Hrebuild quiet_script 7%nat
                (network_of [Some full_device; Some id_device;
                             Some named_device; Some bare_device])
                initialised_state 0%nat full_device eq_refl eq_refl eq_refl
                (or_intror (λ _ _, eq_refl)))
      as (st' & record & Hrun & Hrecord & Hip).
    exists st', record. split; [exact Hrun | ]. split; [exact Hrecord | ].
    rewrite Hip. reflexivity.
Defined.

(** On a little-endian host [ntohl] swaps the bytes, so the text shows the
    bytes of the field in the order they lie in memory; on a big-endian
    host it leaves them as they are. *)
Example ntohl_examples :
  ntohl_on false 83886090 = 167772165 ∧
  format_ip (ntohl_on false 83886090) = "10.0.0.5" ∧
  format_ip (ntohl_on true 167772165) = "10.0.0.5" ∧
  format_ip 4294967295 = "255.255.255.255".
Proof. repeat split. Qed.

(** A change of the network delivered while the first device waits, and
    answered by a provider on which the address of that device is read:
    the wait of the outer run still gives the text of the address, and the
    turn writes it into the element the nested run has cleared or filled
    anew. *)
Example reentered_turn_address :
  (λ st, (λ r, (id r, name r, ip_address r, is_valid r)) <$>
           g_discovered_devices st !! 0%nat) <$>
    @browse_network_changed_callback sdk_le (deliver_first vanished_provider)
      stage_provider 7%nat scanning_state =
    Some (Some (0, "", "10.0.0.5", 0)).
Proof. vm_compute. reflexivity. Qed.

(** ** The invariants along a refresh *)

Lemma table_ok_refresh `{Sdk} (s : script) (P : provider) (st : state) :
  undisturbed s st → table_ok st →
  ∃ st', dante_refresh_device_scan s P st = Some (0, st') ∧ table_ok st'.
Proof.
  intros Hquiet Hok. unfold dante_refresh_device_scan.
  destruct (g_browse st) as [browse|]; [ | exists st; now split].
  destruct (rebuild_table_ok s P browse st Hquiet) as (st' & -> & Hok').
  exists st'. now split.
Qed.

(** ** Devices beyond the capacity *)

Lemma rebuild_loop_agree `{Sdk} (process : nat → nat → state → option state)
    (P : provider) (network1 network2 : db_browse_network_t)
    (remaining i : nat) (st : state) :
  (Z.to_nat MAX_DEVICES ≤ db_browse_network_get_num_devices network1)%nat →
  (Z.to_nat MAX_DEVICES ≤ db_browse_network_get_num_devices network2)%nat →
  (∀ j, (j < Z.to_nat MAX_DEVICES)%nat →
     db_browse_network_device_at_index network1 j =
       db_browse_network_device_at_index network2 j) →
  (i + remaining ≤ Z.to_nat MAX_DEVICES)%nat →
  rebuild_loop process P network1 remaining i st =
    rebuild_loop process P network2 remaining i st.
Proof.
  intros H1 H2 Hsame. revert i st.
  induction remaining as [|remaining IH]; intros i st Hi;
    cbn [rebuild_loop]; [reflexivity | ].
  destruct (Nat.ltb_spec i (db_browse_network_get_num_devices network1));
    [ | lia].
  destruct (Nat.ltb_spec i (db_browse_network_get_num_devices network2));
    [ | lia].
  rewrite (Hsame i) by lia.
  destruct (db_browse_network_device_at_index network2 i) as [device|];
    [ | apply IH; lia].
  destruct (add_device (process i) P st device) as [st1|]; [ | reflexivity].
  cbn [mbind option_bind]. apply IH. lia.
Qed.

(** X7.  The loop never looks at an index from [MAX_DEVICES] on: two
    networks with the same handles below it, both reporting more devices
    than fit, leave the same state, whatever is delivered on the way. *)
Lemma rebuild_ignores_beyond_capacity `{Sdk}
    (process : nat → nat → state → option state) (P : provider)
    (network1 network2 : db_browse_network_t) (st : state) :
  (Z.to_nat MAX_DEVICES ≤ db_browse_network_get_num_devices network1)%nat →
  (Z.to_nat MAX_DEVICES ≤ db_browse_network_get_num_devices network2)%nat →
  (∀ i, (i < Z.to_nat MAX_DEVICES)%nat →
     db_browse_network_device_at_index network1 i =
       db_browse_network_device_at_index network2 i) →
  rebuild_loop process P network1 (Z.to_nat MAX_DEVICES) 0 st =
    rebuild_loop process P network2 (Z.to_nat MAX_DEVICES) 0 st.
Proof.
  intros H1 H2 Hsame. apply rebuild_loop_agree; [exact H1 | exact H2 | | lia].
  exact Hsame.
Qed.

Lemma rebuild_ignores_beyond_capacity_witness :
  let crowd := replicate 32 (Some bare_device) in
  @rebuild_loop sdk_le (process_of (H := sdk_le) quiet_script) stage_provider
    (network_of (crowd ++ [Some full_device])) (Z.to_nat MAX_DEVICES) 0
    initialised_state =
  @rebuild_loop sdk_le (process_of (H := sdk_le) quiet_script) stage_provider
    (network_of (crowd ++ [None; Some id_device])) (Z.to_nat MAX_DEVICES) 0
    initialised_state.
Proof.
  intros crowd.
  apply (@rebuild_ignores_beyond_capacity sdk_le
           (process_of (H := sdk_le) quiet_script) stage_provider
           (network_of (crowd ++ [Some full_device]))
           (network_of (crowd ++ [None; Some id_device])) initialised_state).
  - vm_compute. lia.
  - vm_compute. lia.
  - intros i Hi. change (Z.to_nat MAX_DEVICES) with 32%nat in Hi.
    do 32 (destruct i as [|i]; [reflexivity | ]). lia.
Defined.

(** * Properties of the rest of the wrapper *)

(** ** Lengths of numerals and of what [snprintf] stores *)

Lemma pretty_N_go_length (k : nat) (x : N) (s : string) :
  (x < 10 ^ N.of_nat k)%N →
  (String.length (pretty_N_go x s) ≤ String.length s + k)%nat.
Proof.
  revert x s. induction k as [|k IH]; intros x s Hx.
  - assert (x = 0%N) as -> by (simpl in Hx; lia).
    rewrite pretty_N_go_0. lia.
  - destruct (decide (x = 0%N)) as [->|Hne].
    { rewrite pretty_N_go_0. lia. }
    rewrite pretty_N_go_step by lia.
    etransitivity; [apply IH | simpl; lia].
    apply N.Div0.div_lt_upper_bound.
    rewrite Nat2N.inj_succ, N.pow_succ_r' in Hx. exact Hx.
Qed.

(** A number below 10^k prints in at most k digits. *)
Lemma fmt_u_length (k : nat) (z : Z) :
  (0 < k)%nat → 0 ≤ z < 10 ^ Z.of_nat k →
  (String.length (fmt_u z) ≤ k)%nat.
Proof.
  intros Hk Hz. unfold fmt_u, pretty, pretty_Z.
  destruct z as [|p|p]; [simpl; lia | | lia].
  unfold pretty, pretty_positive, pretty, pretty_N.
  rewrite decide_False by discriminate.
  etransitivity; [apply (pretty_N_go_length k) | simpl; lia].
  change 10%N with (Z.to_N 10). rewrite <- (Z2N.id (Z.of_nat k)) in Hz by lia.
  rewrite <- nat_N_Z in Hz. rewrite N2Z.id in Hz.
  apply N2Z.inj_lt. rewrite N2Z.inj_pow. simpl Z.of_N at 1.
  rewrite Z2N.id by lia. exact (proj2 Hz).
Qed.

(** With a sign, one character more. *)
Lemma fmt_d_length (k : nat) (z : Z) :
  (0 < k)%nat → - 10 ^ Z.of_nat k < z < 10 ^ Z.of_nat k →
  (String.length (fmt_d z) ≤ S k)%nat.
Proof.
  intros Hk Hz. destruct (Z.le_gt_cases 0 z) as [Hpos|Hneg].
  - etransitivity; [apply (fmt_u_length k) | ]; lia.
  - destruct z as [|p|p]; try lia.
    pose proof (fmt_u_length k (Z.pos p) Hk ltac:(lia)) as Hlen.
    unfold fmt_d, fmt_u, pretty, pretty_Z in *.
    rewrite length_string_app. simpl String.length at 1. lia.
Qed.

Lemma length_substring_le (n : nat) (s : string) :
  (String.length (String.substring 0 n s) ≤ n)%nat.
Proof.
  revert s. induction n as [|n IH]; intros [|c s]; simpl; try lia.
  specialize (IH s). lia.
Qed.

Lemma substring_is_prefix (n : nat) (s : string) :
  ∃ rest, s = String.substring 0 n s +:+ rest.
Proof.
  revert s. induction n as [|n IH]; intros [|c s]; simpl;
    try (eexists; reflexivity).
  destruct (IH s) as [rest Hrest]. exists rest.
  rewrite Hrest at 1. reflexivity.
Qed.

(** ** The snapshot a rebuild leaves *)

(** X1.  After a rebuild to which no change of the network is delivered,
    also one that finds no network, each of the 32 elements of the table
    is marked valid exactly when its index is below the count. *)
Theorem rebuild_validity_matches_count `{Sdk} (s : script) (P : provider)
    (browse : db_browse_t) (st : state) (k : nat) :
  undisturbed s st →
  (k < Z.to_nat MAX_DEVICES)%nat →
  ∃ st' record,
    browse_network_changed_callback s P browse st = Some st' ∧
    g_discovered_devices st' !! k = Some record ∧
    (is_valid record = 1 ∨ is_valid record = 0) ∧
    (is_valid record = 1 ↔ Z.of_nat k < g_device_count st').
Proof.
  intros Hquiet Hk.
  destruct (db_browse_get_network P browse) as [network|] eqn:Hnet.
  - destruct (rebuild_records s P browse network st Hnet Hquiet)
      as (st' & Hrun & Hcount & _ & Hrec & Hzero).
    exists st'. rewrite Hcount.
    destruct (delivered network !! k) as [device|] eqn:Hdev.
    + eexists. split; [exact Hrun | ].
      split; [apply (Hrec k device Hdev) | ].
      apply lookup_lt_Some in Hdev. cbn [is_valid built_record write_address
        write_metadata].
      split; [now left | ]. split; [lia | reflexivity].
    + apply lookup_ge_None in Hdev. exists zeroed_info.
      split; [exact Hrun | ].
      split; [apply Hzero; lia | ]. cbn [is_valid zeroed_info].
      split; [now right | ]. split; [discriminate | lia].
  - exists (set_devices zeroed_table 0 st), zeroed_info.
    split; [now apply callback_no_network | ].
    cbn [g_discovered_devices g_device_count set_devices is_valid zeroed_info].
    split; [now apply lookup_replicate_2 | ].
    split; [now right | ]. split; [discriminate | lia].
Qed.

Lemma rebuild_validity_matches_count_witness :
  ∃ st' record,
    @browse_network_changed_callback sdk_le quiet_script stage_provider 7%nat
      initialised_state = Some st' ∧
    g_discovered_devices st' !! 4%nat = Some record ∧
    (is_valid record = 1 ∨ is_valid record = 0) ∧
    (is_valid record = 1 ↔ 4 < g_device_count st').
Proof.
  apply (@rebuild_validity_matches_count sdk_le quiet_script stage_provider
           7%nat initialised_state 4).
  - right. intros i attempt. reflexivity.
  - vm_compute. lia.
Defined.

(** The same change delivered while the first of the four devices waits:
    the count ends at eight and the element at index 4, below the count,
    is not marked valid. *)
Example reentered_rebuild_validity :
  (λ st, (g_device_count st,
          is_valid <$> g_discovered_devices st !! 4%nat)) <$>
    @browse_network_changed_callback sdk_le (deliver_first stage_provider)
      stage_provider 7%nat scanning_state = Some (8, Some 0).
Proof. vm_compute. reflexivity. Qed.

(** X2.  After a rebuild to which no change of the network is delivered
    every index from 0 up to the count can be read: the call returns 0
    with the element, whose id is the index plus one, and leaves the state
    as it is. *)
Theorem rebuild_then_read `{Sdk} (s : script) (P : provider)
    (browse : db_browse_t) (st : state) :
  undisturbed s st →
  ∃ st',
    browse_network_changed_callback s P browse st = Some st' ∧
    ∀ index old,
      0 ≤ index < g_device_count st' →
      ∃ record,
        dante_get_device_info index (Some old) st' =
          Some (0, Some record, st') ∧
        g_discovered_devices st' !! Z.to_nat index = Some record ∧
        id record = index + 1 ∧ is_valid record = 1.
Proof.
  intros Hquiet.
  destruct (db_browse_get_network P browse) as [network|] eqn:Hnet.
  2:{ exists (set_devices zeroed_table 0 st).
      split; [now apply callback_no_network | ].
      intros index old Hindex. cbn in Hindex. lia. }
  destruct (rebuild_records s P browse network st Hnet Hquiet)
    as (st' & Hrun & Hcount & _ & Hrec & _).
  exists st'. split; [exact Hrun | ]. intros index old Hindex.
  rewrite Hcount in Hindex.
  destruct (lookup_lt_is_Some_2 (delivered network) (Z.to_nat index))
    as [device Hdev]; [lia | ].
  specialize (Hrec _ _ Hdev). eexists.
  split; [ | split; [exact Hrec | ]].
  - unfold dante_get_device_info.
    destruct (Z.ltb_spec index 0); [lia | ].
    destruct (Z.geb_spec index (g_device_count st')); [lia | ].
    cbn [orb]. rewrite Hrec. reflexivity.
  - cbn [id is_valid built_record write_address write_metadata].
    split; [lia | reflexivity].
Qed.

Lemma rebuild_then_read_witness :
  ∃ st' record,
    @browse_network_changed_callback sdk_le quiet_script stage_provider 7%nat
      scanning_state = Some st' ∧
    dante_get_device_info 3 (Some zeroed_info) st' =
      Some (0, Some record, st') ∧
    id record = 4.
Proof.
  destruct (@rebuild_then_read sdk_le quiet_script stage_provider 7%nat
              scanning_state (or_intror (λ _ _, eq_refl)))
    as (st' & Hrun & Hall).
  assert (Hcount : g_device_count <$> Some st' = Some 4).
  { rewrite <- Hrun. vm_compute. reflexivity. }
  injection Hcount as Hcount.
  destruct (Hall 3 zeroed_info) as (record & Hread & _ & Hid & _);
    [rewrite Hcount; lia | ].
  exists st', record. split; [exact Hrun | ]. split; [exact Hread | exact Hid].
Defined.

Lemma name_field_cases (count : Z) (device : db_browse_device_t) :
  0 ≤ count < MAX_DEVICES →
  (∀ device_name, db_browse_device_get_name device = Some device_name →
     name_field (count + 1) device = String.substring 0 63 device_name) ∧
  (db_browse_device_get_name device = None →
     name_field (count + 1) device =
       "Unknown Device " +:+ fmt_d (count + 1)).
Proof.
  intros Hcount. unfold name_field.
  split; [intros device_name ->; reflexivity | ].
  intros ->. apply snprintf_fits. rewrite length_string_app.
  pose proof (fmt_d_length 2 (count + 1) ltac:(lia)) as Hdigits.
  unfold MAX_DEVICES in Hcount.
  simpl String.length at 1. simpl Z.of_nat in Hdigits.
  specialize (Hdigits ltac:(lia)). lia.
Qed.

(** X3.  The record a turn of the loop writes for a device carries the
    count it finds plus one as id, the name the provider gives (what fits
    63 characters of it) or, without a name, the complete placeholder
    ["Unknown Device"] followed by the id; the product version is
    ["N/A"] and it is marked valid; the write of the address sets the link
    speed to -1 and leaves those fields alone.  After a rebuild to which
    no change of the network is delivered, the record of the k-th
    delivered device has these fields with the id k + 1, and the secondary
    address and speed of a zeroed element. *)
Theorem rebuild_record_fields `{Sdk} (s : script) (P : provider)
    (browse : db_browse_t) (network : db_browse_network_t) (st : state)
    (k : nat) (device : db_browse_device_t) :
  db_browse_get_network P browse = Some network →
  delivered network !! k = Some device →
  (∀ count info ip,
     0 ≤ count < MAX_DEVICES →
     let record := write_address ip (write_metadata count device info) in
     id record = count + 1 ∧
     (∀ device_name, db_browse_device_get_name device = Some device_name →
        name record = String.substring 0 63 device_name) ∧
     (db_browse_device_get_name device = None →
        name record = "Unknown Device " +:+ fmt_d (count + 1)) ∧
     product_version record = "N/A" ∧
     is_valid record = 1 ∧
     link_speed record = -1 ∧
     secondary_ip record = secondary_ip info ∧
     secondary_speed record = secondary_speed info) ∧
  (undisturbed s st →
   ∃ st' record,
     browse_network_changed_callback s P browse st = Some st' ∧
     g_discovered_devices st' !! k = Some record ∧
     id record = Z.of_nat k + 1 ∧
     (∀ device_name, db_browse_device_get_name device = Some device_name →
        name record = String.substring 0 63 device_name) ∧
     (db_browse_device_get_name device = None →
        name record = "Unknown Device " +:+ fmt_d (Z.of_nat k + 1)) ∧
     product_version record = "N/A" ∧
     link_speed record = -1 ∧
     secondary_ip record = "" ∧
     secondary_speed record = 0).
Proof.
  intros Hnet Hk. split.
  - intros count info ip Hcount record. subst record.
    destruct (name_field_cases count device Hcount) as [Hnamed Hunnamed].
    cbn [id name product_version is_valid link_speed secondary_ip
         secondary_speed write_address write_metadata].
    split; [reflexivity | ]. split; [exact Hnamed | ].
    split; [exact Hunnamed | ]. repeat split.
  - intros Hquiet.
    destruct (rebuild_records s P browse network st Hnet Hquiet)
      as (st' & Hrun & _ & _ & Hrec & _).
    pose proof (lookup_lt_Some _ _ _ Hk) as Hlt.
    pose proof (delivered_length network) as Hle.
    change (Z.to_nat MAX_DEVICES) with 32%nat in Hle.
    destruct (name_field_cases (Z.of_nat k) device) as [Hnamed Hunnamed];
      [unfold MAX_DEVICES; lia | ].
    exists st'. eexists. split; [exact Hrun | ].
    split; [apply (Hrec k device Hk) | ].
    cbn [id name product_version is_valid link_speed secondary_ip
         secondary_speed built_record write_address write_metadata
         zeroed_info].
    split; [reflexivity | ]. split; [exact Hnamed | ].
    split; [exact Hunnamed | ]. repeat split.
Qed.

Lemma rebuild_record_fields_witness :
  ∃ st' record,
    @browse_network_changed_callback sdk_le quiet_script stage_provider 7%nat
      initialised_state = Some st' ∧
    g_discovered_devices st' !! 3%nat = Some record ∧
    id record = 4 ∧ name record = "Unknown Device 4" ∧
    product_version record = "N/A" ∧ link_speed record = -1.
Proof.
  destruct (@rebuild_record_fields sdk_le quiet_script stage_provider 7%nat
              (network_of [Some full_device; Some id_device;
                           Some named_device; Some bare_device])
              initialised_state 3 bare_device eq_refl eq_refl)
    as (_ & Hrebuild).
  destruct (Hrebuild (or_intror (λ _ _, eq_refl)))
    as (st' & record & Hrun & Hslot & Hid & _ & Hname & Hpv & Hls & _).
  exists st', record. split; [exact Hrun | ]. split; [exact Hslot | ].
  split; [exact Hid | ].
  split; [exact (Hname eq_refl) | ]. split; assumption.
Defined.

Lemma dante_version_field_text (device : db_browse_device_t) :
  (db_browse_device_get_router_version device = None →
     dante_version_field device = "Unknown") ∧
  (∀ version, db_browse_device_get_router_version device = Some version →
     0 ≤ major version < 2 ^ 8 → 0 ≤ minor version < 2 ^ 8 →
     0 ≤ bugfix version < 2 ^ 16 →
     dante_version_field device =
       fmt_u (major version) +:+ "." +:+ fmt_u (minor version) +:+ "." +:+
       fmt_u (bugfix version)).
Proof.
  unfold dante_version_field. split; [intros ->; reflexivity | ].
  intros version -> Hmajor Hminor Hbugfix. apply snprintf_fits.
  pose proof (fmt_u_length 3 (major version) ltac:(lia) ltac:(simpl; lia)).
  pose proof (fmt_u_length 3 (minor version) ltac:(lia) ltac:(simpl; lia)).
  pose proof (fmt_u_length 5 (bugfix version) ltac:(lia) ltac:(simpl; lia)).
  generalize dependent (fmt_u (major version)).
  generalize dependent (fmt_u (minor version)).
  generalize dependent (fmt_u (bugfix version)).
  intros s0 H0 s1 H1 s2 H2. repeat rewrite length_string_app.
  change (String.length ".") with 1%nat. lia.
Qed.

(** X4.  For a router version whose numbers are of the widths of the SDK
    (8, 8 and 16 bits) the version a turn of the loop writes into the
    record is the complete text ["major.minor.bugfix"]; without a router
    version it is ["Unknown"].  The write of the address leaves it as it
    is, and after a rebuild to which no change of the network is delivered
    it is the version in the record of the device. *)
Theorem rebuild_version_text `{Sdk} (s : script) (P : provider)
    (browse : db_browse_t) (network : db_browse_network_t) (st : state)
    (k : nat) (device : db_browse_device_t) :
  db_browse_get_network P browse = Some network →
  delivered network !! k = Some device →
  let expected (text : string) : Prop :=
    (db_browse_device_get_router_version device = None →
       text = "Unknown") ∧
    (∀ version, db_browse_device_get_router_version device = Some version →
       0 ≤ major version < 2 ^ 8 → 0 ≤ minor version < 2 ^ 8 →
       0 ≤ bugfix version < 2 ^ 16 →
       text =
         fmt_u (major version) +:+ "." +:+ fmt_u (minor version) +:+ "." +:+
         fmt_u (bugfix version)) in
  (∀ count info ip,
     expected
       (dante_version (write_address ip (write_metadata count device info)))) ∧
  (undisturbed s st →
   ∃ st' record,
     browse_network_changed_callback s P browse st = Some st' ∧
     g_discovered_devices st' !! k = Some record ∧
     expected (dante_version record)).
Proof.
  intros Hnet Hk expected. subst expected. cbv beta. split.
  - intros count info ip. apply dante_version_field_text.
  - intros Hquiet.
    destruct (rebuild_records s P browse network st Hnet Hquiet)
      as (st' & Hrun & _ & _ & Hrec & _).
    exists st'. eexists. split; [exact Hrun | ].
    split; [apply (Hrec k device Hk) | ].
    apply dante_version_field_text.
Qed.

Lemma rebuild_version_text_witness :
  ∃ st' record,
    @browse_network_changed_callback sdk_le quiet_script stage_provider 7%nat
      initialised_state = Some st' ∧
    g_discovered_devices st' !! 0%nat = Some record ∧
    dante_version record = "4.2.7".
Proof.
  destruct (@rebuild_version_text sdk_le quiet_script stage_provider 7%nat
              (network_of [Some full_device; Some id_device;
                           Some named_device; Some bare_device])
              initialised_state 0 full_device eq_refl eq_refl)
    as (_ & Hrebuild).
  destruct (Hrebuild (or_intror (λ _ _, eq_refl)))
    as (st' & record & Hrun & Hslot & _ & Hversion).
  exists st', record. split; [exact Hrun | ]. split; [exact Hslot | ].
  rewrite (Hversion {| major := 4; minor := 2; bugfix := 7 |} eq_refl);
    [reflexivity | simpl; lia ..].
Defined.

(** The table and the count that undisturbed turns build depend on the
    table and the count they start from, not on the other statics. *)
Lemma foldl_undisturbed_turn_snapshot `{Sdk} (P : provider)
    (devices : list db_browse_device_t) (st1 st2 : state) :
  g_discovered_devices st1 = g_discovered_devices st2 →
  g_device_count st1 = g_device_count st2 →
  g_discovered_devices (foldl (undisturbed_turn P) st1 devices) =
    g_discovered_devices (foldl (undisturbed_turn P) st2 devices) ∧
  g_device_count (foldl (undisturbed_turn P) st1 devices) =
    g_device_count (foldl (undisturbed_turn P) st2 devices).
Proof.
  revert st1 st2.
  induction devices as [|device devices IH]; intros st1 st2 Ht Hc;
    cbn [foldl].
  - split; assumption.
  - apply IH; unfold undisturbed_turn;
      cbn [g_discovered_devices g_device_count set_devices];
      [now rewrite Ht, Hc | now rewrite Hc].
Qed.

Lemma undisturbed_rebuild_snapshot_any `{Sdk} (P : provider)
    (browse : db_browse_t) (st1 st2 : state) :
  g_discovered_devices (undisturbed_rebuild P browse st1) =
    g_discovered_devices (undisturbed_rebuild P browse st2) ∧
  g_device_count (undisturbed_rebuild P browse st1) =
    g_device_count (undisturbed_rebuild P browse st2).
Proof.
  unfold undisturbed_rebuild.
  destruct (db_browse_get_network P browse) as [network|];
    [ | split; reflexivity].
  now apply foldl_undisturbed_turn_snapshot.
Qed.

(** X5.  The snapshot is made afresh: the table and the count that a
    rebuild to which no change of the network is delivered leaves are the
    same from whatever state it starts, so rebuilding again on the same
    answers of the provider changes neither. *)
Theorem rebuild_forgets_previous_snapshot `{Sdk} (s1 s2 s3 : script)
    (P : provider) (browse : db_browse_t) (st1 st2 : state) :
  undisturbed s1 st1 →
  undisturbed s2 st2 →
  quiet s3 →
  ∃ st1' st2' st3',
    browse_network_changed_callback s1 P browse st1 = Some st1' ∧
    browse_network_changed_callback s2 P browse st2 = Some st2' ∧
    browse_network_changed_callback s3 P browse st1' = Some st3' ∧
    g_discovered_devices st1' = g_discovered_devices st2' ∧
    g_device_count st1' = g_device_count st2' ∧
    g_discovered_devices st3' = g_discovered_devices st1' ∧
    g_device_count st3' = g_device_count st1'.
Proof.
  intros H1 H2 H3.
  exists (undisturbed_rebuild P browse st1),
         (undisturbed_rebuild P browse st2),
         (undisturbed_rebuild P browse (undisturbed_rebuild P browse st1)).
  split; [now apply callback_undisturbed | ].
  split; [now apply callback_undisturbed | ].
  split; [apply callback_undisturbed; now right | ].
  destruct (undisturbed_rebuild_snapshot_any P browse st1 st2) as [Ht Hc].
  destruct (undisturbed_rebuild_snapshot_any P browse
              (undisturbed_rebuild P browse st1) st1) as [Ht' Hc'].
  repeat split; assumption.
Qed.

Lemma rebuild_forgets_previous_snapshot_witness :
  ∃ st1' st2',
    @browse_network_changed_callback sdk_le quiet_script stage_provider 7%nat
      initialised_state = Some st1' ∧
    @browse_network_changed_callback sdk_le (deliver_first stage_provider)
      stage_provider 7%nat initial_state = Some st2' ∧
    g_discovered_devices st1' = g_discovered_devices st2' ∧
    g_device_count st1' = g_device_count st2'.
Proof.
  destruct (@rebuild_forgets_previous_snapshot sdk_le quiet_script
              (deliver_first stage_provider) quiet_script stage_provider
              7%nat initialised_state initial_state
              (or_intror (λ _ _, eq_refl)) (or_introl eq_refl)
              (λ _ _, eq_refl))
    as (st1' & st2' & _ & Hrun1 & Hrun2 & _ & Ht & Hc & _).
  exists st1', st2'. repeat split; assumption.
Defined.

(** The table and the count do depend on the runtime when a change is
    delivered: the same script leaves four records without a runtime and
    a count of eight with one. *)
Example rebuild_reads_runtime :
  g_device_count <$>
    @browse_network_changed_callback sdk_le (deliver_first stage_provider)
      stage_provider 7%nat initial_state = Some 4 ∧
  g_device_count <$>
    @browse_network_changed_callback sdk_le (deliver_first stage_provider)
      stage_provider 7%nat scanning_state = Some 8.
Proof. split; vm_compute; reflexivity. Qed.

Lemma foldl_undisturbed_turn_latency `{Sdk} (P : provider)
    (devices : list db_browse_device_t) (st : state) :
  slept_us (foldl (undisturbed_turn P) st devices)
    ≤ slept_us st + 3000000 * Z.of_nat (length devices).
Proof.
  revert st. induction devices as [|device devices IH]; intros st.
  - cbn. lia.
  - specialize (IH (undisturbed_turn P st device)).
    destruct (address_outcome_sleeps P
                (name_field (g_device_count st + 1) device)) as (Hle & _).
    cbn [foldl]. rewrite length_cons.
    assert (Hturn : slept_us (undisturbed_turn P st device) =
                    slept_us st + 100000 *
                      Z.of_nat (address_outcome P
                                  (name_field (g_device_count st + 1)
                                     device)).2) by reflexivity.
    lia.
Qed.

(** X6.  A rebuild that returns has changed the table, the count and the
    time slept, and nothing else, whatever was delivered to it: handles,
    session, flags, error text and the sessions alive stay as they were,
    the time has not gone back and the table has its 32 elements.  A
    rebuild to which no change of the network is delivered sleeps at most
    3 seconds for each record it ends with. *)
Theorem rebuild_frame_and_latency `{Sdk} (s : script) (P : provider)
    (browse : db_browse_t) (st : state) :
  (∀ st',
     browse_network_changed_callback s P browse st = Some st' →
     same_but_snapshot st st' ∧
     slept_us st ≤ slept_us st' ∧
     length (g_discovered_devices st') = Z.to_nat MAX_DEVICES) ∧
  (undisturbed s st →
   ∃ st',
     browse_network_changed_callback s P browse st = Some st' ∧
     slept_us st' ≤ slept_us st + 3000000 * g_device_count st').
Proof.
  split; [intros st'; apply callback_carried | ].
  intros Hquiet. exists (undisturbed_rebuild P browse st).
  split; [now apply callback_undisturbed | ].
  destruct (db_browse_get_network P browse) as [network|] eqn:Hnet.
  - destruct (undisturbed_rebuild_records P browse network st Hnet)
      as (Hcount & _).
    cbv zeta in Hcount. rewrite Hcount.
    unfold undisturbed_rebuild. rewrite Hnet.
    apply (foldl_undisturbed_turn_latency P (delivered network)
             (set_devices zeroed_table 0 st)).
  - unfold undisturbed_rebuild. rewrite Hnet. cbn. lia.
Qed.

(** A device that never resolves, with the same change delivered at each
    poll of its wait: every nested run waits its own three seconds, and
    the rebuild sleeps 93 seconds for a count of two. *)
Example reentered_rebuild_latency :
  (λ st, (g_device_count st, slept_us st)) <$>
    @browse_network_changed_callback sdk_le
      (Script (λ _ _, Deliver lonely_provider quiet_script))
      lonely_provider 7%nat scanning_state = Some (2, 93000000).
Proof. vm_compute. reflexivity. Qed.

(** ** The address of a record *)

Lemma address_outcome_cases `{Sdk} (P : provider) (device_name : string) :
  let ip := (address_outcome P device_name).1 in
  (String.length ip ≤ 15)%nat ∧
  (ip = "0.0.0.0" ∨
   ∃ routing_device device_address,
     dr_device_open_remote P device_name =
       (AUD_SUCCESS, Some routing_device) ∧
     dr_device_get_address routing_device = (AUD_SUCCESS, device_address) ∧
     ip = format_ip (ntohl (host device_address))) ∧
  (∀ routing_device,
     dr_device_open_remote P device_name =
       (AUD_SUCCESS, Some routing_device) →
     (dr_device_get_address routing_device).1 ≠ AUD_SUCCESS →
     ip = "0.0.0.0").
Proof.
  intros ip. subst ip.
  assert (Hcases :
    (address_outcome P device_name).1 = "0.0.0.0" ∨
    ∃ routing_device device_address,
      dr_device_open_remote P device_name =
        (AUD_SUCCESS, Some routing_device) ∧
      dr_device_get_address routing_device = (AUD_SUCCESS, device_address) ∧
      (address_outcome P device_name).1 =
        format_ip (ntohl (host device_address))).
  { unfold address_outcome.
    destruct (dr_device_open_remote P device_name)
      as [result [routing_device|]]; [ | now left].
    destruct (Z.eqb_spec result AUD_SUCCESS) as [->|_]; [ | now left].
    destruct (poll_outcome routing_device max_wait_attempts 0 None)
      as [state sleeps].
    destruct (from_option is_resolved_or_active false state); [ | now left].
    destruct (dr_device_get_address routing_device)
      as [addr_result device_address] eqn:Haddr.
    destruct (Z.eqb_spec addr_result AUD_SUCCESS) as [->|_]; [ | now left].
    right. exists routing_device, device_address. cbn [fst].
    now rewrite format_ip_fits. }
  split; [ | split; [exact Hcases | ]].
  - destruct Hcases as [-> | (routing_device & address & _ & _ & ->)];
      [cbn; lia | ].
    rewrite <- format_ip_fits. apply length_substring_le.
  - intros routing_device Hopen Hfail. unfold address_outcome. rewrite Hopen.
    rewrite Z.eqb_refl.
    destruct (poll_outcome routing_device max_wait_attempts 0 None)
      as [state sleeps].
    destruct (from_option is_resolved_or_active false state);
      [ | reflexivity].
    destruct (dr_device_get_address routing_device)
      as [addr_result device_address].
    cbn [fst] in Hfail. apply Z.eqb_neq in Hfail. now rewrite Hfail.
Qed.

(** X8.  Whatever happens and whatever is delivered while the address of a
    device is resolved, the text the wait gives for the address of its
    record has at most 15 characters: it is either ["0.0.0.0"] or the text
    of an address that the SDK read for the connection opened under the
    name of the device; when that read fails it is ["0.0.0.0"].  After a
    rebuild to which no change of the network is delivered it is the
    address in the record of the device. *)
Theorem rebuild_address_outcomes `{Sdk} (s : script) (P : provider)
    (browse : db_browse_t) (network : db_browse_network_t) (st : state)
    (k : nat) (device : db_browse_device_t) :
  db_browse_get_network P browse = Some network →
  delivered network !! k = Some device →
  let device_name := name_field (Z.of_nat k + 1) device in
  let expected (ip : string) : Prop :=
    (String.length ip ≤ 15)%nat ∧
    (ip = "0.0.0.0" ∨
     ∃ routing_device device_address,
       dr_device_open_remote P device_name =
         (AUD_SUCCESS, Some routing_device) ∧
       dr_device_get_address routing_device =
         (AUD_SUCCESS, device_address) ∧
       ip = format_ip (ntohl (host device_address))) ∧
    (∀ routing_device,
       dr_device_open_remote P device_name =
         (AUD_SUCCESS, Some routing_device) →
       (dr_device_get_address routing_device).1 ≠ AUD_SUCCESS →
       ip = "0.0.0.0") in
  (∀ process st0 ip st1,
     resolve_ip process P device_name st0 = Some (ip, st1) → expected ip) ∧
  (undisturbed s st →
   ∃ st' record,
     browse_network_changed_callback s P browse st = Some st' ∧
     g_discovered_devices st' !! k = Some record ∧
     name record = device_name ∧
     expected (ip_address record)).
Proof.
  intros Hnet Hk device_name expected. subst expected. cbv beta. split.
  - intros process st0 ip st1 Hresolve.
    rewrite (resolve_ip_text _ _ _ _ _ _ Hresolve).
    apply address_outcome_cases.
  - intros Hquiet.
    destruct (rebuild_records s P browse network st Hnet Hquiet)
      as (st' & Hrun & _ & _ & Hrec & _).
    exists st'. eexists. split; [exact Hrun | ].
    split; [apply (Hrec k device Hk) | ].
    split; [reflexivity | ].
    apply address_outcome_cases.
Qed.

Lemma rebuild_address_outcomes_witness :
  ∃ st' record,
    @browse_network_changed_callback sdk_le quiet_script stage_provider 7%nat
      initialised_state = Some st' ∧
    g_discovered_devices st' !! 2%nat = Some record ∧
    (String.length (ip_address record) ≤ 15)%nat.
Proof.
  destruct (@rebuild_address_outcomes sdk_le quiet_script stage_provider
              7%nat
              (network_of [Some full_device; Some id_device;
                           Some named_device; Some bare_device])
              initialised_state 2 named_device eq_refl eq_refl)
    as (_ & Hrebuild).
  destruct (Hrebuild (or_intror (λ _ _, eq_refl)))
    as (st' & record & Hrun & Hslot & _ & Hlen & _).
  exists st', record. repeat split; assumption.
Defined.

Lemma octet_bswap32 (v : Z) :
  Z.land (Z.shiftr (bswap32 v) 24) 255 = octet 0 v ∧
  Z.land (Z.shiftr (bswap32 v) 16) 255 = octet 1 v ∧
  Z.land (Z.shiftr (bswap32 v) 8) 255 = octet 2 v ∧
  Z.land (bswap32 v) 255 = octet 3 v.
Proof.
  unfold bswap32, octet. change 255 with (Z.ones 8).
  repeat split; Z.bitblast.
Qed.

(** X9.  On a host of either byte order the text of an address shows the
    four bytes of the field read from the SDK in the order in which they
    lie in memory: the order of the network, which is what the call of
    [ntohl] takes the field to be in. *)
Theorem address_text_follows_memory_order `{Sdk} (field : Z) :
  format_ip (ntohl field) = dotted (memory_bytes host_big_endian field).
Proof.
  unfold ntohl, ntohl_on, memory_bytes, format_ip, dotted.
  destruct host_big_endian; cbv beta iota.
  - unfold octet. change (8 * 3) with 24. change (8 * 2) with 16.
    change (8 * 1) with 8. change (8 * 0) with 0.
    rewrite Z.shiftr_0_r. reflexivity.
  - destruct (octet_bswap32 field) as (-> & -> & -> & ->). reflexivity.
Qed.

(** ** What a rebuild and a pump leave alone *)

Lemma same_but_snapshot_refl (st : state) : same_but_snapshot st st.
Proof. unfold same_but_snapshot. repeat split. Qed.

Lemma same_but_snapshot_trans (st1 st2 st3 : state) :
  same_but_snapshot st1 st2 → same_but_snapshot st2 st3 →
  same_but_snapshot st1 st3.
Proof.
  unfold same_but_snapshot. intros H12 H23.
  destruct H12 as (?&?&?&?&?&?&?&?&?&?&?).
  destruct H23 as (?&?&?&?&?&?&?&?&?&?&?).
  repeat split; congruence.
Qed.

Lemma callback_same_but_snapshot `{Sdk} (s : script) (P : provider)
    (browse : db_browse_t) (st st' : state) :
  browse_network_changed_callback s P browse st = Some st' →
  same_but_snapshot st st'.
Proof. intros Hrun. apply (callback_carried _ _ _ _ _ Hrun). Qed.

Lemma runtime_process_carried `{Sdk} (d : delivery) (st st' : state) :
  dante_runtime_process d st = Some st' → carried st st'.
Proof.
  intros Hcall.
  apply (process_of_carried (Script (λ _ _, d)) 0 0 st st'). exact Hcall.
Qed.

Lemma process_events_loop_frame `{Sdk} (pending : nat → delivery)
    (remaining i : nat) (st st' : state) :
  process_events_loop pending remaining i st = Some st' →
  same_but_snapshot st st' ∧
  slept_us st + 100000 * Z.of_nat remaining ≤ slept_us st'.
Proof.
  revert i st. induction remaining as [|remaining IH]; intros i st;
    cbn [process_events_loop].
  - intros [= <-]. split; [apply same_but_snapshot_refl | lia].
  - destruct (dante_runtime_process (pending i) st) as [st1|] eqn:Hcall;
      [ | discriminate].
    cbn [mbind option_bind]. intros Hrest.
    destruct (runtime_process_carried _ _ _ Hcall) as (Hframe & Hslept & _).
    destruct (IH _ _ Hrest) as (Hframe' & Hslept').
    split.
    + eapply same_but_snapshot_trans; [exact Hframe | ].
      eapply same_but_snapshot_trans; [ | exact Hframe'].
      unfold same_but_snapshot. repeat split.
    + cbn [slept_us add_slept] in Hslept'. lia.
Qed.

Lemma process_events_loop_quiet `{Sdk} (pending : nat → delivery)
    (remaining i : nat) (st : state) :
  (∀ j, (i ≤ j < i + remaining)%nat → pending j = Quiet) →
  process_events_loop pending remaining i st =
    Some (add_slept (100000 * Z.of_nat remaining) st).
Proof.
  revert i st. induction remaining as [|remaining IH]; intros i st Hquiet.
  - cbn. now rewrite add_slept_zero.
  - cbn [process_events_loop]. rewrite (Hquiet i) by lia.
    cbn [dante_runtime_process mbind option_bind].
    rewrite IH by (intros j Hj; apply Hquiet; lia).
    rewrite add_slept_add_slept. do 2 f_equal. lia.
Qed.

(** The deliveries of turns [i] to [i + remaining] of a pump, the last of
    which, in turn [j], is answered by [P]; no run of the callback they
    start is entered again. *)
Lemma process_events_loop_snapshot `{Sdk} (pending : nat → delivery)
    (P : provider) (s : script) (j remaining i : nat) (st : state)
    (browse : db_browse_t) :
  g_browse st = Some browse →
  (i ≤ j < i + remaining)%nat →
  pending j = Deliver P s →
  quiet s →
  (∀ l P' s', (i ≤ l < j)%nat → pending l = Deliver P' s' → quiet s') →
  (∀ l, (j < l < i + remaining)%nat → pending l = Quiet) →
  ∃ st',
    process_events_loop pending remaining i st = Some st' ∧
    g_discovered_devices st' =
      g_discovered_devices (undisturbed_rebuild P browse st) ∧
    g_device_count st' = g_device_count (undisturbed_rebuild P browse st).
Proof.
  revert i st.
  induction remaining as [|remaining IH];
    intros i st Hb Hj Hlast Hs Hbefore Hafter; [lia | ].
  cbn [process_events_loop].
  destruct (decide (i = j)) as [->|Hne].
  - rewrite Hlast. cbn [dante_runtime_process]. rewrite Hb.
    rewrite callback_undisturbed by now right.
    cbn [mbind option_bind].
    rewrite process_events_loop_quiet by (intros l Hl; apply Hafter; lia).
    eexists. split; [reflexivity | ]. split; reflexivity.
  - assert (Hturn : ∃ st1,
              dante_runtime_process (pending i) st = Some st1 ∧
              g_browse st1 = Some browse).
    { destruct (pending i) as [|P' s'] eqn:Hpending;
        cbn [dante_runtime_process]; [now exists st | ].
      rewrite Hb, callback_undisturbed
        by (right; apply (Hbefore i P' s'); [lia | exact Hpending]).
      eexists. split; [reflexivity | ].
      destruct (callback_carried s' P' browse st
                  (undisturbed_rebuild P' browse st))
        as ((_&_&_&_&_& Hkeep &_) & _).
      { apply callback_undisturbed. right.
        apply (Hbefore i P' s'); [lia | exact Hpending]. }
      now rewrite Hkeep. }
    destruct Hturn as (st1 & -> & Hb1). cbn [mbind option_bind].
    destruct (IH (S i) (add_slept 100000 st1)) as (st' & Hloop & Ht & Hc);
      [exact Hb1 | lia | exact Hlast | exact Hs
      | intros l P' s' Hl; apply Hbefore; lia
      | intros l Hl; apply Hafter; lia | ].
    exists st'. split; [exact Hloop | ].
    destruct (undisturbed_rebuild_snapshot_any P browse
                (add_slept 100000 st1) st) as [Ht1 Hc1].
    split; congruence.
Qed.

Lemma process_events_briefly_frame_only `{Sdk} (pending : nat → delivery)
    (st : state) (r : Z * state) :
  dante_process_events_briefly pending st = Some r →
  r.1 = 0 ∧ same_but_snapshot st r.2.
Proof.
  unfold dante_process_events_briefly.
  destruct (is_null (g_runtime st) || (g_background_scanning st =? 0));
    [intros [= <-]; split; [reflexivity | apply same_but_snapshot_refl] | ].
  destruct (process_events_loop pending 5 0 st) as [st'|] eqn:Hloop;
    [ | discriminate].
  cbn [mbind option_bind]. intros [= <-].
  split; [reflexivity | apply (process_events_loop_frame _ _ _ _ _ Hloop)].
Qed.

(** X10.  A pump that returns, whatever is delivered to it, returns 0 and
    has touched only the table, the count and the time slept.  Without a
    runtime or while no scan runs it does nothing.  Otherwise it sleeps at
    least 500 ms; when no turn delivers a change it does nothing more;
    and when some do, and no run of the callback they start is entered
    again, the pump returns and the snapshot it leaves is the one a
    refresh under the answers of the last delivery would build, within
    the bounds of the table. *)
Theorem process_events_briefly_outcome `{Sdk} (pending : nat → delivery)
    (st : state) :
  (∀ r, dante_process_events_briefly pending st = Some r →
     r.1 = 0 ∧ same_but_snapshot st r.2 ∧
     (g_runtime st ≠ None → g_background_scanning st ≠ 0 →
      slept_us st + 500000 ≤ slept_us r.2)) ∧
  (g_runtime st = None ∨ g_background_scanning st = 0 →
   dante_process_events_briefly pending st = Some (0, st)) ∧
  (g_runtime st ≠ None → g_background_scanning st ≠ 0 →
   ((∀ j, (j < 5)%nat → pending j = Quiet) →
    dante_process_events_briefly pending st =
      Some (0, add_slept 500000 st)) ∧
   ∀ browse P s j,
     g_browse st = Some browse →
     (j < 5)%nat →
     pending j = Deliver P s →
     quiet s →
     (∀ l P' s', (l < j)%nat → pending l = Deliver P' s' → quiet s') →
     (∀ l, (j < l < 5)%nat → pending l = Quiet) →
     ∃ st' refreshed,
       dante_process_events_briefly pending st = Some (0, st') ∧
       dante_refresh_device_scan s P st = Some (0, refreshed) ∧
       g_discovered_devices st' = g_discovered_devices refreshed ∧
       g_device_count st' = g_device_count refreshed ∧
       table_ok st').
Proof.
  split; [ | split].
  - intros r Hrun.
    destruct (process_events_briefly_frame_only pending st r Hrun)
      as [Hcode Hframe].
    split; [exact Hcode | ]. split; [exact Hframe | ].
    intros Hrt Hbg. revert Hrun. unfold dante_process_events_briefly.
    destruct (g_runtime st) as [runtime|]; [ | now destruct Hrt].
    destruct (Z.eqb_spec (g_background_scanning st) 0) as [Hz|_];
      [now destruct Hbg | ].
    cbn [is_null orb].
    destruct (process_events_loop pending 5 0 st) as [st'|] eqn:Hloop;
      [ | discriminate].
    cbn [mbind option_bind]. intros [= <-]. cbn [snd].
    destruct (process_events_loop_frame _ _ _ _ _ Hloop) as [_ Hslept].
    change (Z.of_nat 5) with 5 in Hslept. lia.
  - unfold dante_process_events_briefly. intros [-> | ->]; [reflexivity | ].
    now rewrite orb_true_r.
  - intros Hrt Hbg. unfold dante_process_events_briefly.
    destruct (g_runtime st) as [runtime|]; [ | now destruct Hrt].
    destruct (Z.eqb_spec (g_background_scanning st) 0) as [Hz|_];
      [now destruct Hbg | ].
    cbn [is_null orb]. split.
    + intros Hquiet.
      rewrite (process_events_loop_quiet pending 5 0 st)
        by (intros j Hj; apply Hquiet; lia).
      reflexivity.
    + intros browse P s j Hb Hj Hlast Hs Hbefore Hafter.
      destruct (process_events_loop_snapshot pending P s j 5 0 st browse Hb)
        as (st' & Hloop & Ht & Hc);
        [lia | exact Hlast | exact Hs
        | intros l P' s' Hl; apply Hbefore; lia
        | intros l Hl; apply Hafter; lia | ].
      exists st', (undisturbed_rebuild P browse st).
      rewrite Hloop. split; [reflexivity | ].
      unfold dante_refresh_device_scan. rewrite Hb.
      rewrite callback_undisturbed by now right.
      split; [reflexivity | ]. split; [exact Ht | ]. split; [exact Hc | ].
      destruct (rebuild_table_ok s P browse st (or_intror Hs))
        as (st2 & Hrun & Hok).
      rewrite callback_undisturbed in Hrun by now right.
      injection Hrun as <-.
      unfold table_ok in *. now rewrite Ht, Hc.
Qed.

Lemma process_events_briefly_outcome_witness :
  @dante_process_events_briefly sdk_le (λ _, Quiet) scanning_state =
    Some (0, add_slept 500000 scanning_state).
Proof.
  apply (@process_events_briefly_outcome sdk_le (λ _, Quiet) scanning_state).
  - discriminate.
  - vm_compute. discriminate.
  - intros j _. reflexivity.
Defined.

(** ** The scan through its life *)

Lemma scan_ok_same_but_snapshot (st st' : state) :
  same_but_snapshot st st' → scan_ok st → scan_ok st'.
Proof.
  unfold same_but_snapshot, scan_ok, sessions_ok.
  intros (_&_&_&_&_& Hb & Ha & Hg &_&_& Hl). rewrite Hb, Ha, Hg, Hl. tauto.
Qed.

Lemma scan_ok_start `{Sdk} (P : provider) (st : state) :
  scan_ok st → scan_ok (dante_start_device_scan P st).2.
Proof.
  intros Hok. pose proof Hok as (Hs & Hflags & Hoff & Hon).
  pose proof (start_scan_sessions_ok P st Hs) as Hs'.
  revert Hs'. unfold dante_start_device_scan.
  destruct (g_env st); [ | intros _; exact Hok].
  destruct (g_browse st) as [browse|] eqn:Hb; [intros _; exact Hok | ].
  destruct (db_browse_new P) as [result browse].
  destruct (negb (result =? AUD_SUCCESS)); [intros _; exact Hok | ].
  specialize (Hoff eq_refl).
  destruct (negb (db_browse_set_max_sockets P =? AUD_SUCCESS)).
  { intros Hs'. split; [exact Hs' | ]. cbn. rewrite Hflags, Hoff.
    repeat split; congruence. }
  destruct (negb (db_browse_start_config P =? AUD_SUCCESS)).
  { intros Hs'. split; [exact Hs' | ]. cbn. rewrite Hflags, Hoff.
    repeat split; congruence. }
  intros Hs'. split; [exact Hs' | ]. cbn. repeat split; congruence.
Qed.

Lemma scan_ok_stop (st : state) :
  scan_ok st → scan_ok (dante_stop_device_scan st).2.
Proof.
  intros Hok. pose proof Hok as (Hs & Hflags & Hoff & Hon).
  pose proof (stop_scan_sessions_ok st Hs) as Hs'.
  revert Hs'. unfold dante_stop_device_scan.
  destruct (g_browse st) as [browse|]; [ | intros _; exact Hok].
  intros Hs'. split; [exact Hs' | ]. cbn. repeat split; congruence.
Qed.

Lemma scan_ok_cleanup (st : state) : scan_ok st → scan_ok (dante_cleanup st).
Proof.
  intros Hok. pose proof (scan_ok_stop st Hok) as (Hs & _).
  pose proof (stop_scan_twice st) as (_ & Hnone & _).
  pose proof Hok as (Hs0 & _).
  unfold dante_cleanup, scan_ok, sessions_ok in *. cbn.
  destruct (g_browse st) as [browse|] eqn:Hb.
  - rewrite Hs, Hnone. repeat split; congruence.
  - rewrite Hs0, Hb. repeat split; congruence.
Qed.

Lemma refresh_frame `{Sdk} (s : script) (P : provider) (st : state)
    (r : Z * state) :
  dante_refresh_device_scan s P st = Some r →
  r.1 = 0 ∧ same_but_snapshot st r.2.
Proof.
  unfold dante_refresh_device_scan.
  destruct (g_browse st) as [browse|];
    [ | intros [= <-]; split; [reflexivity | apply same_but_snapshot_refl]].
  destruct (browse_network_changed_callback s P browse st) as [st'|] eqn:Hrun;
    [ | discriminate].
  cbn [mbind option_bind]. intros [= <-].
  split; [reflexivity | exact (callback_same_but_snapshot _ _ _ _ _ Hrun)].
Qed.

Lemma scan_ok_refresh `{Sdk} (s : script) (P : provider) (st : state)
    (r : Z * state) :
  dante_refresh_device_scan s P st = Some r → scan_ok st → scan_ok r.2.
Proof.
  intros Hrun Hok. eapply scan_ok_same_but_snapshot; [ | exact Hok].
  apply (refresh_frame _ _ _ _ Hrun).
Qed.

Lemma scan_ok_connect `{Sdk} (P : provider) (st : state) :
  scan_ok st → scan_ok (dante_connect_local_device P st).2.
Proof.
  intros Hok. unfold dante_connect_local_device.
  repeat case_match; exact Hok.
Qed.

Lemma scan_ok_process_events `{Sdk} (pending : nat → delivery)
    (st : state) (r : Z * state) :
  dante_process_events_briefly pending st = Some r →
  scan_ok st → scan_ok r.2.
Proof.
  intros Hrun Hok. eapply scan_ok_same_but_snapshot; [ | exact Hok].
  apply (process_events_briefly_frame_only _ _ _ Hrun).
Qed.

Lemma scan_ok_init `{Sdk} (A : init_answers)
    (interface_name : option string) (st : state)
    (config : db_browse_config_t) :
  scan_ok st → scan_ok (dante_init_with_interface A interface_name st config).1.2.
Proof.
  intros Hok. unfold dante_init_with_interface.
  repeat case_match; exact Hok.
Qed.

Lemma refresh_returns `{Sdk} (s : script) (P : provider) (st : state) :
  undisturbed s st → ∃ r, dante_refresh_device_scan s P st = Some r.
Proof.
  intros Hquiet. unfold dante_refresh_device_scan.
  destruct (g_browse st) as [browse|]; [ | eexists; reflexivity].
  rewrite callback_undisturbed by exact Hquiet. eexists. reflexivity.
Qed.

Lemma process_events_loop_returns `{Sdk} (pending : nat → delivery)
    (remaining i : nat) (st : state) :
  (∀ l P' s', pending l = Deliver P' s' → quiet s') →
  ∃ st', process_events_loop pending remaining i st = Some st'.
Proof.
  intros Hquiet. revert i st.
  induction remaining as [|remaining IH]; intros i st;
    cbn [process_events_loop]; [eexists; reflexivity | ].
  assert (Hturn : ∃ st1, dante_runtime_process (pending i) st = Some st1).
  { destruct (pending i) as [|P' s'] eqn:Hpending;
      cbn [dante_runtime_process]; [eexists; reflexivity | ].
    destruct (g_browse st) as [browse|]; [ | eexists; reflexivity].
    rewrite callback_undisturbed by (right; exact (Hquiet _ _ _ Hpending)).
    eexists. reflexivity. }
  destruct Hturn as (st1 & ->). cbn [mbind option_bind]. apply IH.
Qed.

Lemma process_events_briefly_returns `{Sdk} (pending : nat → delivery)
    (st : state) :
  (∀ l P' s', pending l = Deliver P' s' → quiet s') →
  ∃ r, dante_process_events_briefly pending st = Some r.
Proof.
  intros Hquiet. unfold dante_process_events_briefly.
  destruct (is_null (g_runtime st) || (g_background_scanning st =? 0));
    [eexists; reflexivity | ].
  destruct (process_events_loop_returns pending 5 0 st Hquiet) as (st' & ->).
  eexists. reflexivity.
Qed.

(** X11.  Every entry point keeps the scan consistent: the two flags are
    equal, they are 1 exactly while a session is held, and the only
    session alive at the SDK is the one held, so that no call leaves a
    session behind.  For a pump and a refresh this holds whatever is
    delivered to them, and both return when no run of the callback is
    entered again. *)
Theorem scan_ok_preserved `{Sdk} (P : provider) (A : init_answers)
    (interface_name : option string) (config : db_browse_config_t)
    (s : script) (pending : nat → delivery) (index : Z)
    (info : option dante_device_info_t) (st : state) :
  scan_ok st →
  scan_ok (dante_init_with_interface A interface_name st config).1.2 ∧
  scan_ok (dante_connect_local_device P st).2 ∧
  scan_ok (dante_start_device_scan P st).2 ∧
  (∀ r, dante_process_events_briefly pending st = Some r → scan_ok r.2) ∧
  (∀ r, dante_refresh_device_scan s P st = Some r → scan_ok r.2) ∧
  (∀ r, dante_get_device_info index info st = Some r → scan_ok r.2) ∧
  scan_ok (dante_stop_device_scan st).2 ∧
  scan_ok (dante_cleanup st) ∧
  ((∀ l P' s', pending l = Deliver P' s' → quiet s') →
   ∃ r, dante_process_events_briefly pending st = Some r) ∧
  (undisturbed s st → ∃ r, dante_refresh_device_scan s P st = Some r).
Proof.
  intros Hok.
  split; [now apply scan_ok_init | ].
  split; [now apply scan_ok_connect | ].
  split; [now apply scan_ok_start | ].
  split; [intros r Hrun; exact (scan_ok_process_events _ _ _ Hrun Hok) | ].
  split; [intros r Hrun; exact (scan_ok_refresh _ _ _ _ Hrun Hok) | ].
  split; [ | split; [now apply scan_ok_stop | ]].
  - intros r. unfold dante_get_device_info.
    repeat case_match; intros [= <-]; exact Hok.
  - split; [now apply scan_ok_cleanup | ].
    split; [apply process_events_briefly_returns | apply refresh_returns].
Qed.

Lemma scan_ok_preserved_witness :
  scan_ok initial_state ∧
  scan_ok (@dante_start_device_scan sdk_le stage_provider
             initialised_state).2.
Proof.
  assert (Hinit : scan_ok initial_state).
  { repeat split; try reflexivity. intros Hne. now destruct Hne. }
  split; [exact Hinit | ].
  assert (Hok : scan_ok initialised_state).
  { repeat split; try reflexivity. intros Hne. now destruct Hne. }
  exact (proj1 (proj2 (proj2
           (@scan_ok_preserved sdk_le stage_provider good_answers None
              default_config quiet_script (λ _, Quiet) 0 None
              initialised_state Hok)))).
Defined.

(** X12.  A start that succeeds followed by a stop brings a consistent,
    initialised wrapper without a session back to the very state it was
    in, both calls returning 0. *)
Theorem start_then_stop_restores `{Sdk} (P : provider) (st : state) :
  scan_ok st →
  g_env st ≠ None →
  g_browse st = None →
  provider_accepts P →
  (dante_start_device_scan P st).1 = 0 ∧
  dante_stop_device_scan (dante_start_device_scan P st).2 = (0, st).
Proof.
  intros (Hs & Hflags & Hoff & _) He Hb (Hnew & Hmax & Hstart).
  specialize (Hoff Hb). unfold sessions_ok in Hs. rewrite Hb in Hs.
  unfold dante_start_device_scan.
  destruct (g_env st) as [env|] eqn:Henv; [ | contradiction]. rewrite Hb.
  destruct (db_browse_new P) as [result browse]. simpl in Hnew.
  rewrite (eqb_success _ Hnew), (eqb_success _ Hmax), (eqb_success _ Hstart).
  split; [reflexivity | ].
  unfold dante_stop_device_scan. cbn.
  rewrite Hs, decide_False by (intros Hne; now apply Hne).
  f_equal. destruct st. cbn in *. subst. reflexivity.
Qed.

Lemma start_then_stop_restores_witness :
  dante_stop_device_scan
    (@dante_start_device_scan sdk_le stage_provider initialised_state).2 =
    (0, initialised_state).
Proof.
  apply (@start_then_stop_restores sdk_le stage_provider initialised_state).
  - repeat split; try reflexivity. intros Hne. now destruct Hne.
  - discriminate.
  - reflexivity.
  - repeat split.
Defined.

(** X13.  After a cleanup of a consistent wrapper every handle is NULL, no
    session is alive and the snapshot is empty; a second cleanup changes
    nothing, a stop, a refresh and a pump do nothing and return 0, and a
    start or a connect fails as on a wrapper never initialised, changing
    only the error text. *)
Theorem cleanup_resets `{Sdk} (P : provider) (s : script)
    (pending : nat → delivery) (st : state) :
  sessions_ok st →
  let c := dante_cleanup st in
  (g_dapi c = None ∧ g_runtime c = None ∧ g_devices c = None ∧
   g_device c = None ∧ g_env c = None ∧ g_browse c = None) ∧
  (live_sessions c = [] ∧ g_device_count c = 0 ∧
   g_discovered_devices c = zeroed_table) ∧
  dante_cleanup c = c ∧
  dante_stop_device_scan c = (0, c) ∧
  dante_refresh_device_scan s P c = Some (0, c) ∧
  dante_process_events_briefly pending c = Some (0, c) ∧
  dante_start_device_scan P c =
    (-1, set_error "Dante API not initialized" c) ∧
  dante_connect_local_device P c = (-1, set_error "Dante not initialized" c).
Proof.
  intros Hs c.
  assert (Hb : g_browse c = None).
  { subst c. unfold dante_cleanup. cbn.
    destruct (g_browse st) eqn:Hb; [apply stop_scan_twice | exact Hb]. }
  assert (Hl : live_sessions c = []).
  { subst c. unfold dante_cleanup. cbn.
    destruct (g_browse st) eqn:Hbst.
    - pose proof (stop_scan_sessions_ok st Hs) as Hs'.
      unfold sessions_ok in Hs'. rewrite Hs'.
      now rewrite (proj1 (proj2 (stop_scan_twice st))).
    - unfold sessions_ok in Hs. now rewrite Hs, Hbst. }
  split; [repeat split; assumption | ].
  split; [repeat split; assumption | ].
  split; [ | split; [ | split; [ | split; [ | split]]]].
  - unfold dante_cleanup at 1. rewrite Hb.
    subst c. unfold dante_cleanup. reflexivity.
  - unfold dante_stop_device_scan. now rewrite Hb.
  - unfold dante_refresh_device_scan. now rewrite Hb.
  - reflexivity.
  - reflexivity.
  - reflexivity.
Qed.

Lemma cleanup_resets_witness :
  dante_cleanup (dante_cleanup scanned_state) = dante_cleanup scanned_state ∧
  live_sessions (dante_cleanup scanned_state) = [].
Proof.
  destruct (@cleanup_resets sdk_le stage_provider quiet_script (λ _, Quiet)
              scanned_state)
    as (_ & (Hlive & _) & Hagain & _).
  - vm_compute. reflexivity.
  - split; assumption.
Defined.

(** ** The last error *)

(** X14.  A call that returns 0 never changes the text of the last error:
    the text is not cleared by a success, whichever entry point it is and,
    for a refresh and a pump, whatever is delivered to them. *)
Theorem success_keeps_last_error `{Sdk} (P : provider) (A : init_answers)
    (L : local_answers) (interface_name : option string)
    (config : db_browse_config_t) (s : script) (pending : nat → delivery)
    (poll : nat) (index channel_index buffer_size : Z) (buffer : string)
    (info : option dante_device_info_t) (st : state) :
  (∀ st' config',
     dante_init_with_interface A interface_name st config = (0, st', config') →
     dante_get_last_error st' = dante_get_last_error st) ∧
  (∀ st', dante_connect_local_device P st = (0, st') →
     dante_get_last_error st' = dante_get_last_error st) ∧
  (∀ st', dante_start_device_scan P st = (0, st') →
     dante_get_last_error st' = dante_get_last_error st) ∧
  dante_get_last_error (dante_stop_device_scan st).2 =
    dante_get_last_error st ∧
  (∀ r, dante_refresh_device_scan s P st = Some r →
     r.1 = 0 ∧ dante_get_last_error r.2 = dante_get_last_error st) ∧
  (∀ r, dante_process_events_briefly pending st = Some r →
     r.1 = 0 ∧ dante_get_last_error r.2 = dante_get_last_error st) ∧
  (∀ copy st', dante_get_device_info index info st = Some (0, copy, st') →
     dante_get_last_error st' = dante_get_last_error st) ∧
  (∀ text st',
     dante_get_device_name L poll buffer buffer_size st = (0, text, st') →
     dante_get_last_error st' = dante_get_last_error st) ∧
  (∀ text st',
     dante_get_tx_channel_name L poll channel_index buffer buffer_size st =
       (0, text, st') →
     dante_get_last_error st' = dante_get_last_error st).
Proof.
  unfold dante_get_last_error.
  split; [ | split; [ | split; [ | split; [ | split; [ | split;
    [ | split; [ | split]]]]]]].
  - intros st' config'. unfold dante_init_with_interface.
    repeat case_match; intros [= <- _]; reflexivity.
  - intros st'. unfold dante_connect_local_device.
    repeat case_match; intros [= <-]; reflexivity.
  - intros st'. unfold dante_start_device_scan.
    repeat case_match; intros [= <-]; reflexivity.
  - unfold dante_stop_device_scan. case_match; reflexivity.
  - intros r Hrun.
    destruct (refresh_frame _ _ _ _ Hrun)
      as (Hcode &_&_&_&_&_&_&_&_&_& Herr &_).
    split; [exact Hcode | exact Herr].
  - intros r Hrun.
    destruct (process_events_briefly_frame_only _ _ _ Hrun)
      as (Hcode &_&_&_&_&_&_&_&_&_& Herr &_).
    split; [exact Hcode | exact Herr].
  - intros copy st'. unfold dante_get_device_info.
    repeat case_match; intros [= _ <-]; reflexivity.
  - intros text st'. unfold dante_get_device_name.
    repeat case_match; intros [= _ <-]; reflexivity.
  - intros text st'. unfold dante_get_tx_channel_name.
    repeat case_match; intros [= _ <-]; reflexivity.
Qed.

(** ** Waiting for the local device *)

Lemma wait_active_spec (device : dr_device_t) (timeout polls : nat) :
  let r := wait_active device timeout polls in
  (∀ j, (polls ≤ j < r.2)%nat →
     dr_device_get_state device j ≠ DR_DEVICE_STATE_ACTIVE) ∧
  (r.1 = true →
     (polls ≤ r.2 < polls + timeout)%nat ∧
     dr_device_get_state device r.2 = DR_DEVICE_STATE_ACTIVE) ∧
  (r.1 = false → r.2 = (polls + timeout)%nat).
Proof.
  revert polls. induction timeout as [|timeout IH]; intros polls;
    cbn [wait_active].
  - cbn. split; [intros j Hj; lia | ]. split; [discriminate | intros _; lia].
  - destruct (IH (S polls)) as (Hbefore & Hyes & Hno).
    assert (Hstep : ∀ j, (polls ≤ j < (wait_active device timeout (S polls)).2)%nat →
              dr_device_get_state device polls ≠ DR_DEVICE_STATE_ACTIVE →
              dr_device_get_state device j ≠ DR_DEVICE_STATE_ACTIVE).
    { intros j Hj Hpolls. destruct (decide (j = polls)) as [->|Hne];
        [exact Hpolls | apply Hbefore; lia]. }
    destruct (dr_device_get_state device polls) eqn:Hstate;
      try (split; [intros j Hj; apply Hstep; [exact Hj | discriminate] | ];
           split; [intros Hr; specialize (Hyes Hr); split; [lia | tauto]
                  | intros Hr; specialize (Hno Hr); lia]).
    cbn. split; [intros j Hj; lia | ].
    split; [intros _; split; [lia | exact Hstate] | discriminate].
Qed.

(** X15.  Once the local device is open, the connect returns 0 exactly
    when one of its 50 polls, one second apart, sees the device active,
    and then marks it ready without touching the error text; otherwise it
    returns -1 with the timeout message after 50 seconds.  Either way the
    device stays open in [g_device]. *)
Theorem connect_local_device_outcome `{Sdk} (P : provider) (st : state)
    (device : dr_device_t) :
  g_devices st ≠ None →
  dr_device_open_local P = (AUD_SUCCESS, device) →
  let r := dante_connect_local_device P st in
  (r.1 = 0 ∨ r.1 = -1) ∧
  (r.1 = 0 ↔
   ∃ k, (k < connect_timeout)%nat ∧
        dr_device_get_state device k = DR_DEVICE_STATE_ACTIVE) ∧
  is_null (g_device r.2) = false ∧
  (r.1 = 0 →
   g_device_ready r.2 = 1 ∧ g_error_buffer r.2 = g_error_buffer st) ∧
  (r.1 = -1 →
   g_device_ready r.2 = g_device_ready st ∧
   g_error_buffer r.2 = "Device connection timeout" ∧
   slept_us r.2 = slept_us st + 1000000 * Z.of_nat connect_timeout).
Proof.
  intros Hd Hopen r. subst r. unfold dante_connect_local_device.
  destruct (g_devices st); [ | contradiction]. rewrite Hopen.
  rewrite (eqb_success _ eq_refl).
  destruct (wait_active_spec device connect_timeout 0)
    as (Hbefore & Hyes & Hno).
  destruct (wait_active device connect_timeout 0) as [[|] sleeps];
    cbn [fst snd] in *.
  - destruct (Hyes eq_refl) as [Hrange Hat].
    split; [now left | ]. split.
    { split; [ | reflexivity]. intros _. exists sleeps.
      split; [lia | exact Hat]. }
    split; [reflexivity | ]. split; [intros _; split; reflexivity | ].
    intros [=].
  - specialize (Hno eq_refl). subst sleeps.
    split; [now right | ]. split.
    { split; [intros [=] | ]. intros (k & Hk & Hat).
      destruct (Hbefore k ltac:(lia) Hat). }
    split; [reflexivity | ]. split; [intros [=] | ].
    intros _. repeat split.
Qed.

Lemma connect_local_device_outcome_witness :
  (@dante_connect_local_device sdk_le stage_provider initialised_state).1 = 0.
Proof.
  destruct (@connect_local_device_outcome sdk_le stage_provider
              initialised_state (local_device 10))
    as (_ & Hiff & _).
  - discriminate.
  - reflexivity.
  - apply Hiff. exists 10%nat. split; [vm_compute; lia | reflexivity].
Defined.

(** ** Queries on the local device *)

Lemma not_connected_cases (poll : nat) (st : state) :
  (not_connected poll st = false ↔
   ∃ device, g_device st = Some device ∧
             dr_device_get_state device poll = DR_DEVICE_STATE_ACTIVE) ∧
  (dante_is_device_connected poll st = 1 ∨
   dante_is_device_connected poll st = 0) ∧
  (dante_is_device_connected poll st = 1 ↔ not_connected poll st = false).
Proof.
  unfold not_connected, dante_is_device_connected.
  destruct (g_device st) as [device|]; cbn.
  - destruct (dr_device_get_state device poll) eqn:Hstate; cbn;
      (split; [split; [try discriminate; eauto
                      | intros (d & [= <-] & Hd); congruence] | ]);
      (split; [auto | split; congruence]).
  - split; [split; [discriminate | intros (d & [=] & _)] | ].
    split; [auto | split; discriminate].
Qed.

(** X16.  The four queries need the local device open and seen active at
    their own read of its state.  Without that each of them returns -1,
    sets the message ["Device not connected"], and leaves the caller's
    buffer and the rest of the state alone; with it the two counts are the
    numbers of the SDK and the state is not touched. *)
Theorem device_queries_need_active_device (L : local_answers) (poll : nat)
    (channel_index buffer_size : Z) (buffer : string) (st : state) :
  let active :=
    ∃ device, g_device st = Some device ∧
              dr_device_get_state device poll = DR_DEVICE_STATE_ACTIVE in
  (dante_is_device_connected poll st = 1 ↔ active) ∧
  (¬ active →
   dante_is_device_connected poll st = 0 ∧
   dante_get_device_name L poll buffer buffer_size st =
     (-1, Some buffer, set_error "Device not connected" st) ∧
   dante_get_tx_channel_count L poll st =
     (-1, set_error "Device not connected" st) ∧
   dante_get_rx_channel_count L poll st =
     (-1, set_error "Device not connected" st) ∧
   dante_get_tx_channel_name L poll channel_index buffer buffer_size st =
     (-1, Some buffer, set_error "Device not connected" st)) ∧
  (active →
   dante_get_tx_channel_count L poll st = (dr_device_num_txchannels L, st) ∧
   dante_get_rx_channel_count L poll st = (dr_device_num_rxchannels L, st)).
Proof.
  intros active. subst active.
  destruct (not_connected_cases poll st) as (Hnc & Hbool & Hconn).
  split; [now rewrite Hconn | ]. split.
  - intros Hnot.
    assert (Hn : not_connected poll st = true).
    { destruct (not_connected poll st); [reflexivity | ].
      destruct Hnot. now apply Hnc. }
    split.
    { destruct Hbool as [H1 | H0]; [ | exact H0].
      apply Hconn in H1. congruence. }
    unfold dante_get_device_name, dante_get_tx_channel_count,
      dante_get_rx_channel_count, dante_get_tx_channel_name.
    rewrite Hn. repeat split.
  - intros Hact. apply Hnc in Hact.
    unfold dante_get_tx_channel_count, dante_get_rx_channel_count.
    rewrite Hact. split; reflexivity.
Qed.

Lemma write_buffer_bound (buffer : string) (buffer_size : Z) (text : string) :
  0 < buffer_size →
  ∃ stored,
    write_buffer buffer buffer_size text = Some stored ∧
    Z.of_nat (String.length stored) ≤ buffer_size - 1 ∧
    (∃ rest, text = stored +:+ rest) ∧
    (Z.of_nat (String.length text) < buffer_size → stored = text).
Proof.
  intros Hsize. unfold write_buffer.
  destruct (Z.eqb_spec buffer_size 0); [lia | ].
  destruct (Z.ltb_spec 0 buffer_size); [ | lia].
  eexists. split; [reflexivity | ]. unfold snprintf. split.
  - pose proof (length_substring_le (Z.to_nat buffer_size - 1) text). lia.
  - split; [apply substring_is_prefix | ].
    intros Hfits. apply substring_all. lia.
Qed.

(** X17.  With the local device active and a buffer of a positive size,
    the device name and the canonical name of an existing transmit channel
    are handed out with return code 0: what is stored is the beginning of
    the name, at most [buffer_size - 1] characters of it, and the whole
    name when it is shorter than the buffer.  With a size of 0 the call
    also returns 0 and leaves the buffer as it was. *)
Theorem names_fit_the_buffer (L : local_answers) (poll : nat)
    (channel_index buffer_size : Z) (buffer device_name channel_name : string)
    (tx_channel : dr_txchannel_t) (st : state) :
  not_connected poll st = false →
  dr_device_get_name L = Some device_name →
  dr_device_txchannel_at_index L channel_index = Some tx_channel →
  dr_txchannel_get_canonical_name tx_channel = Some channel_name →
  (0 < buffer_size →
   (∃ stored,
      dante_get_device_name L poll buffer buffer_size st =
        (0, Some stored, st) ∧
      Z.of_nat (String.length stored) ≤ buffer_size - 1 ∧
      (∃ rest, device_name = stored +:+ rest) ∧
      (Z.of_nat (String.length device_name) < buffer_size →
       stored = device_name)) ∧
   (∃ stored,
      dante_get_tx_channel_name L poll channel_index buffer buffer_size st =
        (0, Some stored, st) ∧
      Z.of_nat (String.length stored) ≤ buffer_size - 1 ∧
      (∃ rest, channel_name = stored +:+ rest) ∧
      (Z.of_nat (String.length channel_name) < buffer_size →
       stored = channel_name))) ∧
  (buffer_size = 0 →
   dante_get_device_name L poll buffer buffer_size st =
     (0, Some buffer, st) ∧
   dante_get_tx_channel_name L poll channel_index buffer buffer_size st =
     (0, Some buffer, st)).
Proof.
  intros Hconn Hname Hchannel Hcanonical.
  unfold dante_get_device_name, dante_get_tx_channel_name.
  rewrite Hconn, Hname, Hchannel, Hcanonical. split.
  - intros Hsize.
    destruct (write_buffer_bound buffer buffer_size device_name Hsize)
      as (stored1 & -> & Hlen1 & Hpre1 & Hall1).
    destruct (write_buffer_bound buffer buffer_size channel_name Hsize)
      as (stored2 & -> & Hlen2 & Hpre2 & Hall2).
    split; eexists; (split; [reflexivity | ]); repeat split; assumption.
  - intros ->. split; reflexivity.
Qed.

Lemma names_fit_the_buffer_witness :
  not_connected 0 connected_state = false ∧
  ∃ stored,
    dante_get_device_name studio_answers 0 "????" 6 connected_state =
      (0, Some stored, connected_state) ∧
    Z.of_nat (String.length stored) ≤ 5 ∧
    ∃ rest, "Studio-A" = stored +:+ rest.
Proof.
  split; [reflexivity | ].
  destruct (names_fit_the_buffer studio_answers 0 0 6 "????" "Studio-A"
              "Left" {| dr_txchannel_get_canonical_name := Some "Left" |}
              connected_state eq_refl eq_refl eq_refl eq_refl)
    as [Hpos _].
  destruct (Hpos ltac:(lia)) as ((stored & Hcall & Hlen & Hrest & _) & _).
  exists stored. repeat split; assumption.
Defined.

(** ** Initialisation *)

Lemma init_accepted_cases `{Sdk} (A : init_answers) :
  init_accepted A ↔
  negb ((dapi_new A).1 =? AUD_SUCCESS) = false ∧
  is_null (dapi_get_runtime A) || is_null (dapi_get_env A) = false ∧
  negb ((dr_devices_new_dapi A).1 =? AUD_SUCCESS) = false.
Proof.
  unfold init_accepted.
  rewrite !negb_false_iff, !Z.eqb_eq, orb_false_iff.
  destruct (dapi_get_runtime A), (dapi_get_env A); cbn; intuition congruence.
Qed.

(** X18.  An initialisation returns 0 exactly when the DAPI is created,
    both its runtime and its environment are there, and the device manager
    is created; the four handles are then those of the SDK, whatever the
    interface name.  On every path it leaves the local device, the scan,
    the snapshot and the time slept as they were: initialising again does
    not stop a scan or clear the records. *)
Theorem init_outcome `{Sdk} (A : init_answers)
    (interface_name : option string) (st : state)
    (config : db_browse_config_t) :
  let r := dante_init_with_interface A interface_name st config in
  (r.1.1 = 0 ∨ r.1.1 = -1) ∧
  (r.1.1 = 0 ↔ init_accepted A) ∧
  (init_accepted A →
   g_dapi r.1.2 = Some (dapi_new A).2 ∧
   g_runtime r.1.2 = dapi_get_runtime A ∧
   g_env r.1.2 = dapi_get_env A ∧
   g_devices r.1.2 = Some (dr_devices_new_dapi A).2) ∧
  (g_device r.1.2 = g_device st ∧
   g_device_ready r.1.2 = g_device_ready st ∧
   g_browse r.1.2 = g_browse st ∧
   g_device_scan_active r.1.2 = g_device_scan_active st ∧
   g_background_scanning r.1.2 = g_background_scanning st ∧
   live_sessions r.1.2 = live_sessions st ∧
   g_discovered_devices r.1.2 = g_discovered_devices st ∧
   g_device_count r.1.2 = g_device_count st ∧
   slept_us r.1.2 = slept_us st).
Proof.
  intros r. subst r. rewrite init_accepted_cases.
  unfold dante_init_with_interface.
  destruct (dapi_new A) as [result dapi]. cbn [fst snd].
  destruct (negb (result =? AUD_SUCCESS)).
  { cbn [fst snd]. split; [now right | ].
    split; [split; [intros [=] | intros ([=] & _)] | ].
    split; [intros ([=] & _) | repeat split]. }
  cbn [g_runtime g_env set_handles].
  destruct (is_null (dapi_get_runtime A) || is_null (dapi_get_env A)).
  { cbn [fst snd]. split; [now right | ].
    split; [split; [intros [=] | intros (_ & [=] & _)] | ].
    split; [intros (_ & [=] & _) | repeat split]. }
  destruct (dr_devices_new_dapi A) as [result' devices]. cbn [fst snd].
  destruct (negb (result' =? AUD_SUCCESS)).
  { cbn [fst snd]. split; [now right | ].
    split; [split; [intros [=] | intros (_ & _ & [=])] | ].
    split; [intros (_ & _ & [=]) | repeat split]. }
  cbn [fst snd]. split; [now left | ].
  split; [split; [intros _; repeat split | reflexivity] | ].
  split; [intros _; repeat split | repeat split].
Qed.

(** X19.  When creating the DAPI fails, the call changes the error text
    only.  When a later step fails, the call returns -1, leaves the browse
    configuration and the device manager as they were and sets [g_dapi] to
    NULL, but keeps in [g_env] and [g_runtime] the handles it had fetched:
    if the environment was there, a start of the scan afterwards is not
    turned down as uninitialised. *)
Theorem failed_init_state `{Sdk} (A : init_answers) (P : provider)
    (interface_name : option string) (st : state)
    (config : db_browse_config_t) :
  let r := dante_init_with_interface A interface_name st config in
  ((dapi_new A).1 ≠ AUD_SUCCESS →
   r = (-1,
        set_error ("Failed to create DAPI: " +:+ fmt_d (dapi_new A).1) st,
        config)) ∧
  ((dapi_new A).1 = AUD_SUCCESS → ¬ init_accepted A →
   r.1.1 = -1 ∧ r.2 = config ∧
   g_dapi r.1.2 = None ∧
   g_devices r.1.2 = g_devices st ∧
   g_runtime r.1.2 = dapi_get_runtime A ∧
   g_env r.1.2 = dapi_get_env A ∧
   (dapi_get_env A ≠ None → g_browse st = None → provider_accepts P →
    (dante_start_device_scan P r.1.2).1 = 0)).
Proof.
  intros r. subst r. unfold dante_init_with_interface.
  destruct (dapi_new A) as [result dapi] eqn:Hnew. cbn [fst snd].
  split.
  { intros Hne. now rewrite (eqb_failure _ Hne). }
  intros -> Hrefused. rewrite (eqb_success _ eq_refl).
  cbn [g_runtime g_env set_handles].
  assert (Hstart : ∀ st',
    g_env st' = dapi_get_env A → g_browse st' = g_browse st →
    dapi_get_env A ≠ None → g_browse st = None → provider_accepts P →
    (dante_start_device_scan P st').1 = 0).
  { intros st' He Hb Henv Hnone (Hn & Hm & Hs).
    unfold dante_start_device_scan. rewrite He, Hb, Hnone.
    destruct (dapi_get_env A); [ | contradiction].
    destruct (db_browse_new P) as [result browse]. cbn [fst] in Hn.
    now rewrite (eqb_success _ Hn), (eqb_success _ Hm), (eqb_success _ Hs). }
  destruct (is_null (dapi_get_runtime A) || is_null (dapi_get_env A))
    eqn:Hnull.
  { cbn [fst snd]. repeat split. now apply Hstart. }
  destruct (dr_devices_new_dapi A) as [result' devices] eqn:Hdev.
  destruct (Z.eqb_spec result' AUD_SUCCESS) as [->|Hne]; cbn [negb].
  { destruct Hrefused. apply init_accepted_cases.
    rewrite Hnew, Hdev. cbn [fst]. rewrite (eqb_success _ eq_refl).
    repeat split; assumption. }
  cbn [fst snd]. repeat split. now apply Hstart.
Qed.

(** X20.  An initialisation that succeeds starts from the default browse
    configuration.  Without an interface name, with an empty one, or with
    one that the SDK cannot resolve, it keeps the defaults; with a name
    that resolves it puts the index found in the first place and sets the
    number of interfaces to 1.  When it fails the configuration is left
    as it was. *)
Theorem init_interface_config `{Sdk} (A : init_answers)
    (interface_name : option string) (st : state)
    (config : db_browse_config_t) :
  let r := dante_init_with_interface A interface_name st config in
  let defaults := db_browse_config_init_defaults A in
  (¬ init_accepted A → r.2 = config) ∧
  (init_accepted A →
   (interface_name = None ∨ interface_name = Some "" → r.2 = defaults) ∧
   (∀ device_name, interface_name = Some device_name → device_name ≠ "" →
      ((resolve_interface A device_name).1 ≠ AUD_SUCCESS → r.2 = defaults) ∧
      ((resolve_interface A device_name).1 = AUD_SUCCESS →
       r.2 = {| interface_indexes :=
                  <[0%nat := (resolve_interface A device_name).2]>
                    (interface_indexes defaults);
                num_interface_indexes := 1 |}))).
Proof.
  intros r defaults. subst r defaults. rewrite init_accepted_cases.
  unfold dante_init_with_interface.
  destruct (dapi_new A) as [result dapi]. cbn [fst snd].
  destruct (negb (result =? AUD_SUCCESS));
    [split; [reflexivity | intros ([=] & _)] | ].
  cbn [g_runtime g_env set_handles].
  destruct (is_null (dapi_get_runtime A) || is_null (dapi_get_env A));
    [split; [reflexivity | intros (_ & [=] & _)] | ].
  destruct (dr_devices_new_dapi A) as [result' devices]. cbn [fst snd].
  destruct (negb (result' =? AUD_SUCCESS));
    [split; [reflexivity | intros (_ & _ & [=])] | ].
  cbn [fst snd]. split; [intros Hno; destruct Hno; repeat split | ].
  intros _. unfold configure_interface. split.
  - intros [-> | ->]; reflexivity.
  - intros device_name -> Hne.
    destruct device_name as [|c rest]; [contradiction | ].
    destruct (resolve_interface A (String c rest)) as [code index].
    cbn [fst snd]. split.
    + intros Hcode. now rewrite (eqb_failure _ Hcode).
    + intros ->. now rewrite (eqb_success _ eq_refl).
Qed.

(** ** The message for an index out of range *)

(** X21.  For an index and a count that are C [int]s, the message set for
    an index out of range is stored whole in the 256 bytes of the error
    buffer: it names the index and the last available one. *)
Theorem index_error_message_complete (index : Z)
    (old : dante_device_info_t) (st : state) :
  - 2 ^ 31 ≤ index < 2 ^ 31 →
  - 2 ^ 31 ≤ g_device_count st < 2 ^ 31 →
  index < 0 ∨ g_device_count st ≤ index →
  ∃ st',
    dante_get_device_info index (Some old) st = Some (-1, Some old, st') ∧
    dante_get_last_error st' =
      "Invalid device index: " +:+ fmt_d index +:+ " (available: 0-" +:+
      fmt_d (g_device_count st - 1) +:+ ")".
Proof.
  intros Hindex Hcount Hout. unfold dante_get_device_info.
  assert (Htest : (index <? 0) || (index >=? g_device_count st) = true).
  { destruct (Z.ltb_spec index 0); [reflexivity | ].
    destruct (Z.geb_spec index (g_device_count st)); [reflexivity | lia]. }
  rewrite Htest. eexists. split; [reflexivity | ].
  unfold dante_get_last_error, set_error. cbn [g_error_buffer].
  apply snprintf_fits.
  pose proof (fmt_d_length 10 index ltac:(lia) ltac:(simpl; lia)) as H1.
  pose proof (fmt_d_length 10 (g_device_count st - 1) ltac:(lia)
                ltac:(simpl; lia)) as H2.
  generalize dependent (fmt_d index).
  generalize dependent (fmt_d (g_device_count st - 1)).
  intros s2 H2 s1 H1. repeat rewrite length_string_app.
  change (String.length "Invalid device index: ") with 22%nat.
  change (String.length " (available: 0-") with 15%nat.
  change (String.length ")") with 1%nat. lia.
Qed.

Lemma index_error_message_complete_witness :
  ∃ st',
    dante_get_device_info (-7) (Some zeroed_info) scanned_state =
      Some (-1, Some zeroed_info, st') ∧
    dante_get_last_error st' = "Invalid device index: -7 (available: 0-3)".
Proof.
  destruct (index_error_message_complete (-7) zeroed_info scanned_state)
    as (st' & Hcall & Hmsg).
  - lia.
  - vm_compute. split; [discriminate | reflexivity].
  - left. lia.
  - exists st'. split; [exact Hcall | ]. rewrite Hmsg. vm_compute.
    reflexivity.
Defined.
